(** * The libvirt network resource: address planning, definition building,
      lifecycle polling and drift reading

    A shallow embedding of [libvirt/resource_libvirt_network.go].

    Conventions.
    - A Go [byte] is a [Z] in [0, 256); wrap-around of [++] and [--] on a
      byte is written out with [mod 256].
    - A Go [string] is a Rocq [string] (a sequence of bytes).
    - A Go slice is a [list]; the [nil] slice is the empty list.  An index
      outside the slice panics, which the embedding makes explicit with the
      [Panic] outcome.
    - A Go [error] is an [option error_value]; [None] is [nil]. *)

From Stdlib Require Import ZArith Lia Bool Ascii String List.
From stdpp Require Import base list strings.
Import ListNotations.

Open Scope string_scope.
Open Scope list_scope.
Open Scope Z_scope.

(** ** Go values shared by every part *)

(** The error type of the libvirt-go binding. *)
Module libvirt.

(** [libvirt.Error]: an error code, an error domain and a message. *)
Record Error := {
  Code : Z;
  Domain : Z;
  Message : string
}.

(** [libvirt.ERR_NO_NETWORK], the code of "network not found". *)
Definition ERR_NO_NETWORK : Z := 43.

End libvirt.

(** A Go [error] value: either one made by [fmt.Errorf] (a text) or a
    [libvirt.Error] returned by the binding. *)
Inductive error_value :=
| ErrorString (s : string)
| ErrLibvirt (e : libvirt.Error)
| TimeoutError (lastState : string) (expected : list string)
| UnexpectedStateError (state : string) (expected : list string)
| NotFoundError.

Definition error := option error_value.

(** Outcome of running Go code: a normal return or a run-time panic. *)
Inductive outcome (A : Type) :=
| Ret (a : A)
| Panic (msg : string).
Arguments Ret {A} a.
Arguments Panic {A} msg.

(** ** Decimal and byte helpers *)

Definition byte_of (c : ascii) : Z := Z.of_N (N_of_ascii c).
Definition ascii_of_byte (b : Z) : ascii := ascii_of_N (Z.to_N b).

(** Length of a string, as a Go [int]. *)
Definition len (s : string) : Z := Z.of_nat (String.length s).

(** [s[c:]] for [0 <= c <= len(s)]. *)
Fixpoint skip (c : nat) (s : string) : string :=
  match c, s with
  | O, _ => s
  | S c', String _ s' => skip c' s'
  | S _, EmptyString => EmptyString
  end.

Definition digit_char (d : Z) : ascii := ascii_of_byte (48 + d).

(** Decimal digits of a non-negative number, most significant first. *)
Fixpoint uitoa_fuel (fuel : nat) (n : Z) (acc : string) : string :=
  match fuel with
  | O => acc
  | S fuel' =>
      let acc' := String (digit_char (n mod 10)) acc in
      if n / 10 =? 0 then acc' else uitoa_fuel fuel' (n / 10) acc'
  end.

(** [uitoa] of Go's [net] package and [%d] on an unsigned value. *)
Definition uitoa (n : Z) : string :=
  uitoa_fuel (S (Z.to_nat (Z.log2 n))) n "".

(** [%d] on a signed value. *)
Definition itoa (n : Z) : string :=
  if n <? 0 then String "-" (uitoa (- n)) else uitoa n.

(** [strings.ToLower], on the ASCII letters. *)
Definition lower_char (c : ascii) : ascii :=
  let b := byte_of c in
  if (65 <=? b) && (b <=? 90) then ascii_of_byte (b + 32) else c.

Fixpoint ToLower (s : string) : string :=
  match s with
  | EmptyString => EmptyString
  | String c s' => String (lower_char c) (ToLower s')
  end.

(** ** The parts of Go's [net] package the resource calls

    [net.IP] and [net.IPMask] are byte slices of length 4 or 16. *)
Module net.

Definition IP := list Z.
Definition IPMask := list Z.

Record IPNet := { net_IP : IP; net_Mask : IPMask }.

Definition IPv4len : Z := 4.
Definition IPv6len : Z := 16.

Definition big : Z := 16777215. (* 0xFFFFFF *)

Definition is_digit (c : ascii) : bool :=
  (48 <=? byte_of c) && (byte_of c <=? 57).

(** [dtoi]: decimal to integer; returns the number, the characters
    consumed and success. *)
Fixpoint dtoi_loop (s : string) (n i : Z) : Z * Z * bool :=
  match s with
  | String c s' =>
      if is_digit c then
        let n' := n * 10 + (byte_of c - 48) in
        if big <=? n' then (big, i, false) else dtoi_loop s' n' (i + 1)
      else if i =? 0 then (0, 0, false) else (n, i, true)
  | EmptyString => if i =? 0 then (0, 0, false) else (n, i, true)
  end.

Definition dtoi (s : string) : Z * Z * bool := dtoi_loop s 0 0.

Definition hex_value (c : ascii) : option Z :=
  let b := byte_of c in
  if (48 <=? b) && (b <=? 57) then Some (b - 48)
  else if (97 <=? b) && (b <=? 102) then Some (b - 97 + 10)
  else if (65 <=? b) && (b <=? 70) then Some (b - 65 + 10)
  else None.

(** [xtoi]: hexadecimal to integer. *)
Fixpoint xtoi_loop (s : string) (n i : Z) : Z * Z * bool :=
  match s with
  | String c s' =>
      match hex_value c with
      | Some d =>
          let n' := n * 16 + d in
          if big <=? n' then (0, i, false) else xtoi_loop s' n' (i + 1)
      | None => if i =? 0 then (0, i, false) else (n, i, true)
      end
  | EmptyString => if i =? 0 then (0, i, false) else (n, i, true)
  end.

Definition xtoi (s : string) : Z * Z * bool := xtoi_loop s 0 0.

Definition v4InV6Prefix : list Z := [0; 0; 0; 0; 0; 0; 0; 0; 0; 0; 255; 255].

(** [IPv4(a, b, c, d)]: the 16-byte form of an IPv4 address. *)
Definition IPv4 (a b c d : Z) : IP := v4InV6Prefix ++ [a; b; c; d].

(** [parseIPv4]: four decimal fields separated by dots; [nil] when the
    text is not a dotted quad. *)
Fixpoint parseIPv4_loop (fuel : nat) (i : Z) (s : string) (p : list Z)
  : option (list Z) :=
  match fuel with
  | O => if len s =? 0 then Some p else None
  | S fuel' =>
      if len s =? 0 then None
      else
        let s1 :=
          if 0 <? i then
            match s with
            | String c s' => if Ascii.eqb c "." then Some s' else None
            | EmptyString => None
            end
          else Some s in
        match s1 with
        | None => None
        | Some s1 =>
            let '(n, c, ok) := dtoi s1 in
            if negb ok || (255 <? n) then None
            else parseIPv4_loop fuel' (i + 1) (skip (Z.to_nat c) s1) (p ++ [n])
        end
  end.

Definition parseIPv4 (s : string) : IP :=
  match parseIPv4_loop 4 0 s [] with
  | Some [a; b; c; d] => IPv4 a b c d
  | _ => []
  end.

Definition isnil {A} (l : list A) : bool :=
  match l with [] => true | _ => false end.

(** [ip[i] = v] on a slice known to be long enough. *)
Definition store (i : Z) (v : Z) (p : list Z) : list Z :=
  <[Z.to_nat i := v]> p.

(** [ip[i]], zero where the caller has checked the range. *)
Definition at_ (i : Z) (p : list Z) : Z :=
  default 0 (p !! Z.to_nat i).

Definition starts_with (c : ascii) (s : string) : bool :=
  match s with
  | String c' _ => Ascii.eqb c c'
  | EmptyString => false
  end.

(** The main loop of [parseIPv6]: hexadecimal groups separated by colons,
    one optional [::], and an optional trailing dotted quad.  The state is
    the address being filled, the write position [i], the position of the
    ellipsis (or -1), and the rest of the text.  [None] is a parse
    failure. *)
Fixpoint parseIPv6_loop (fuel : nat) (p : list Z) (i ellipsis : Z)
    (s : string) : option (list Z * Z * Z * string) :=
  match fuel with
  | O => Some (p, i, ellipsis, s)
  | S fuel' =>
      if negb (i <? IPv6len) then Some (p, i, ellipsis, s)
      else
        let '(n, c, ok) := xtoi s in
        if negb ok || (65535 <? n) then None
        else if (c <? len s) && starts_with "." (skip (Z.to_nat c) s) then
          if (ellipsis <? 0) && negb (i =? IPv6len - IPv4len) then None
          else if IPv6len <? i + IPv4len then None
          else
            let ip4 := parseIPv4 s in
            if isnil ip4 then None
            else
              let p := store i (at_ 12 ip4) p in
              let p := store (i + 1) (at_ 13 ip4) p in
              let p := store (i + 2) (at_ 14 ip4) p in
              let p := store (i + 3) (at_ 15 ip4) p in
              Some (p, i + IPv4len, ellipsis, "")
        else
          let p := store i (Z.shiftr n 8) p in
          let p := store (i + 1) (n mod 256) p in
          let i := i + 2 in
          let s := skip (Z.to_nat c) s in
          if len s =? 0 then Some (p, i, ellipsis, s)
          else if negb (starts_with ":" s) || (len s =? 1) then None
          else
            let s := skip 1 s in
            if starts_with ":" s then
              if 0 <=? ellipsis then None
              else
                let ellipsis := i in
                let s := skip 1 s in
                if len s =? 0 then Some (p, i, ellipsis, s)
                else parseIPv6_loop fuel' p i ellipsis s
            else parseIPv6_loop fuel' p i ellipsis s
  end.

(** Expansion of the ellipsis of [parseIPv6]: the [i - ellipsis] bytes
    written after it move to the end and the gap is zeroed. *)
Definition expand_ellipsis (p : list Z) (i ellipsis : Z) : list Z :=
  let e := Z.to_nat ellipsis in
  let n := Z.to_nat (IPv6len - i) in
  take e p ++ replicate n 0 ++ take (Z.to_nat i - e) (drop e p).

(** [parseIPv6] without zone. *)
Definition parseIPv6 (s : string) : IP :=
  let zero := replicate 16 0 in
  let lead := starts_with ":" s && starts_with ":" (skip 1 s) in
  let ellipsis := if lead then 0 else -1 in
  let s := if lead then skip 2 s else s in
  if lead && (len s =? 0) then zero
  else
    match parseIPv6_loop 8 zero 0 ellipsis s with
    | None => []
    | Some (p, i, ellipsis, s) =>
        if negb (len s =? 0) then []
        else if i <? IPv6len then
          if ellipsis <? 0 then [] else expand_ellipsis p i ellipsis
        else if 0 <=? ellipsis then []
        else p
    end.

(** [ParseIP]: dispatch on the first dot or colon. *)
Fixpoint ParseIP_scan (rest whole : string) : IP :=
  match rest with
  | EmptyString => []
  | String c rest' =>
      if Ascii.eqb c "." then parseIPv4 whole
      else if Ascii.eqb c ":" then parseIPv6 whole
      else ParseIP_scan rest' whole
  end.

Definition ParseIP (s : string) : IP := ParseIP_scan s s.

(** [CIDRMask(ones, bits)]: [ones] 1 bits followed by 0s up to [bits];
    [nil] for other sizes. *)
Fixpoint CIDRMask_loop (l : nat) (n : Z) : list Z :=
  match l with
  | O => []
  | S l' =>
      if 8 <=? n then 255 :: CIDRMask_loop l' (n - 8)
      else (255 - Z.shiftr 255 n) :: CIDRMask_loop l' 0
  end.

Definition CIDRMask (ones bits : Z) : IPMask :=
  if negb (bits =? 8 * IPv4len) && negb (bits =? 8 * IPv6len) then []
  else if (ones <? 0) || (bits <? ones) then []
  else CIDRMask_loop (Z.to_nat (bits / 8)) ones.

Definition allFF (b : list Z) : bool := forallb (Z.eqb 255) b.
Definition isZeros (b : list Z) : bool := forallb (Z.eqb 0) b.
Definition bytesEqual (x y : list Z) : bool :=
  bool_decide (x = y).

(** [ip.Mask(mask)]: the bytewise and, with the two mixed-length cases of
    an IPv4 address or mask in 16-byte form; [nil] on a length mismatch. *)
Definition Mask (ip : IP) (mask : IPMask) : IP :=
  let mask :=
    if (Z.of_nat (length mask) =? IPv6len)
       && (Z.of_nat (length ip) =? IPv4len) && allFF (take 12 mask)
    then drop 12 mask else mask in
  let ip :=
    if (Z.of_nat (length mask) =? IPv4len)
       && (Z.of_nat (length ip) =? IPv6len)
       && bytesEqual (take 12 ip) v4InV6Prefix
    then drop 12 ip else ip in
  if negb (length ip =? length mask)%nat then []
  else zip_with Z.land ip mask.

(** Leading 1 bits of a byte, and what is left after shifting them out. *)
Fixpoint leading_ones (fuel : nat) (v : Z) (n : Z) : Z * Z :=
  match fuel with
  | O => (n, v)
  | S fuel' =>
      if negb (Z.land v 128 =? 0)
      then leading_ones fuel' ((v * 2) mod 256) (n + 1)
      else (n, v)
  end.

(** [simpleMaskLength]: the number of leading ones of a mask in canonical
    form, -1 otherwise. *)
Fixpoint simpleMaskLength_loop (m : list Z) (n : Z) : Z :=
  match m with
  | [] => n
  | v :: m' =>
      if v =? 255 then simpleMaskLength_loop m' (n + 8)
      else
        let '(n, v) := leading_ones 8 v n in
        if negb (v =? 0) then -1
        else if isZeros m' then n else -1
  end.

Definition simpleMaskLength (m : IPMask) : Z := simpleMaskLength_loop m 0.

(** [m.Size()]: ones and bits of the mask, [(0, 0)] when not canonical. *)
Definition Size (m : IPMask) : Z * Z :=
  let ones := simpleMaskLength m in
  let bits := Z.of_nat (length m) * 8 in
  if ones =? -1 then (0, 0) else (ones, bits).

(** [ip.To4()]: the 4-byte form of an IPv4 address, [nil] otherwise. *)
Definition To4 (ip : IP) : IP :=
  if Z.of_nat (length ip) =? IPv4len then ip
  else if (Z.of_nat (length ip) =? IPv6len)
          && isZeros (take 10 ip)
          && (at_ 10 ip =? 255) && (at_ 11 ip =? 255)
  then drop 12 ip
  else [].

Definition hexDigit (v : Z) : ascii :=
  if v <? 10 then ascii_of_byte (48 + v) else ascii_of_byte (97 + v - 10).

(** [appendHex]: lower-case hexadecimal without leading zeros. *)
Definition appendHex (i : Z) : string :=
  if i =? 0 then "0"
  else
    fold_right
      (fun j acc =>
         let v := Z.shiftr i (j * 4) in
         if 0 <? v then String (hexDigit (Z.land v 15)) acc else acc)
      "" [7; 6; 5; 4; 3; 2; 1; 0].

(** Inner loop of the zero-run search of [String]: the end of the run of
    zero groups starting at [j]. *)
Fixpoint zero_run (fuel : nat) (p : list Z) (j : Z) : Z :=
  match fuel with
  | O => j
  | S fuel' =>
      if (j <? IPv6len) && (at_ j p =? 0) && (at_ (j + 1) p =? 0)
      then zero_run fuel' p (j + 2) else j
  end.

(** Outer loop: the longest run of zero groups, leftmost on ties. *)
Fixpoint longest_run (fuel : nat) (p : list Z) (i e0 e1 : Z) : Z * Z :=
  match fuel with
  | O => (e0, e1)
  | S fuel' =>
      if negb (i <? IPv6len) then (e0, e1)
      else
        let j := zero_run 8 p i in
        if (i <? j) && (e1 - e0 <? j - i)
        then longest_run fuel' p (j + 2) i j
        else longest_run fuel' p (i + 2) e0 e1
  end.

(** Printing loop of [String] for a 16-byte address. *)
Fixpoint print_groups (fuel : nat) (p : list Z) (i e0 e1 : Z) : string :=
  match fuel with
  | O => ""
  | S fuel' =>
      if negb (i <? IPv6len) then ""
      else if i =? e0 then
        if IPv6len <=? e1 then "::"
        else
          "::" +:+ appendHex (Z.lor (Z.shiftl (at_ e1 p) 8) (at_ (e1 + 1) p))
               +:+ print_groups fuel' p (e1 + 2) e0 e1
      else
        (if 0 <? i then ":" else "")
          +:+ appendHex (Z.lor (Z.shiftl (at_ i p) 8) (at_ (i + 1) p))
          +:+ print_groups fuel' p (i + 2) e0 e1
  end.

Definition hexString (b : list Z) : string :=
  fold_right
    (fun v acc =>
       String (hexDigit (Z.shiftr v 4)) (String (hexDigit (Z.land v 15)) acc))
    "" b.

(** [ip.String()], the method [String] of [net.IP]. *)
Definition IP_String (ip : IP) : string :=
  if isnil ip then "<nil>"
  else
    match To4 ip with
    | [a; b; c; d] => uitoa a +:+ "." +:+ uitoa b +:+ "." +:+ uitoa c +:+ "." +:+ uitoa d
    | _ =>
        if negb (Z.of_nat (length ip) =? IPv6len) then "?" +:+ hexString ip
        else
          let '(e0, e1) := longest_run 8 ip 0 (-1) (-1) in
          let '(e0, e1) := if e1 - e0 <=? 2 then (-1, -1) else (e0, e1) in
          print_groups 8 ip 0 e0 e1
    end.

(** Split at the first slash; [None] when there is none. *)
Fixpoint split_slash (s : string) : option (string * string) :=
  match s with
  | EmptyString => None
  | String c s' =>
      if Ascii.eqb c "/" then Some ("", s')
      else
        match split_slash s' with
        | Some (a, m) => Some (String c a, m)
        | None => None
        end
  end.

(** [ParseCIDR]: the address, the network (address masked, with its mask)
    and success.  A failure is the [ParseError] "invalid CIDR address". *)
Definition ParseCIDR (s : string) : IP * option IPNet * error :=
  let fail := ([], None, Some (ErrorString ("invalid CIDR address: " +:+ s))) in
  match split_slash s with
  | None => fail
  | Some (addr, mask) =>
      let ip4 := parseIPv4 addr in
      let iplen := if isnil ip4 then IPv6len else IPv4len in
      let ip := if isnil ip4 then parseIPv6 addr else ip4 in
      let '(n, i, ok) := dtoi mask in
      if isnil ip || negb ok || negb (i =? len mask) || (n <? 0)
         || (8 * iplen <? n)
      then fail
      else
        let m := CIDRMask n (8 * iplen) in
        (ip, Some {| net_IP := Mask ip m; net_Mask := m |}, None)
  end.

End net.

(** ** The network definition of [libvirt-go-xml] *)
Module libvirtxml.

Record NetworkDHCPRange := { Start : string; End : string }.

Record NetworkDHCP := { Ranges : list NetworkDHCPRange }.

Record NetworkIP := {
  Address : string;
  Family : string;
  Prefix : Z;
  DHCP : option NetworkDHCP
}.

(** The [<nat>] element of a forward block, with its port range. *)
Record NetworkForwardNAT := { Ports : list (Z * Z) }.

Record NetworkForward := {
  Mode : string;
  NAT : option NetworkForwardNAT
}.

Record NetworkBridge := { BridgeName : string; STP : string }.

Record NetworkDomain := { DomainName : string; LocalOnly : string }.

Record NetworkDNSForwarder := { FwdDomain : string; Addr : string }.

Record NetworkDNS := { Forwarders : list NetworkDNSForwarder }.

Record Network := {
  Name : string;
  Bridge : option NetworkBridge;
  Forward : option NetworkForward;
  Domain : option NetworkDomain;
  IPs : list NetworkIP;
  DNS : option NetworkDNS
}.

End libvirtxml.
Import libvirtxml.

(** ** The resource data of the schema

    One record for the typed keys of the schema of [resourceLibvirtNetwork].
    A field the schema declares with a [Default] is optional here and its
    reader returns the default when it is unset; a reader named [GetOk_]
    also tells whether the value is set to something other than the zero
    value of its type, as [d.GetOk] does. *)
Definition netModeIsolated : string := "none".
Definition netModeNat : string := "nat".
Definition netModeRoute : string := "route".
Definition netModeBridge : string := "bridge".

Record Forwarder := { fwd_address : string; fwd_domain : string }.

Record ResourceData := {
  Id : string;
  rd_name : string;                       (* "name" *)
  rd_domain : string;                     (* "domain" *)
  rd_mode : option string;                (* "mode", Default: netModeNat *)
  rd_bridge : string;                     (* "bridge" *)
  rd_addresses : list string;             (* "addresses" *)
  rd_autostart : bool;                    (* "autostart" *)
  rd_autostart_changed : bool;            (* d.HasChange("autostart") *)
  rd_dns_local_only : option bool;        (* "dns.0.local_only", Default: false *)
  rd_dns_forwarders : list Forwarder;     (* "dns.0.forwarders" *)
  rd_dhcp_enabled : option bool           (* "dhcp.0.enabled", Default: true *)
}.

(** [d.Get("mode").(string)] *)
Definition Get_mode (d : ResourceData) : string :=
  default netModeNat (rd_mode d).

(** [d.Get("dhcp.0.enabled").(bool)] *)
Definition Get_dhcp_enabled (d : ResourceData) : bool :=
  default true (rd_dhcp_enabled d).

(** [d.GetOk] on a string key. *)
Definition GetOk_string (v : string) : string * bool :=
  (v, negb (String.eqb v "")).

(** [d.GetOk] on a boolean key. *)
Definition GetOk_bool (v : bool) : bool * bool := (v, v).

(** [d.GetOk] on a list key or on its count [.#]. *)
Definition GetOk_list {A} (v : list A) : list A * bool :=
  (v, negb (net.isnil v)).

Definition GetOk_count {A} (v : list A) : Z * bool :=
  (Z.of_nat (length v), negb (net.isnil v)).

(** The text of an error, [err.Error()]. *)
Definition Error_text (e : error_value) : string :=
  match e with
  | ErrorString s => s
  | ErrLibvirt e =>
      "virError(Code=" +:+ itoa (libvirt.Code e)
        +:+ ", Domain=" +:+ itoa (libvirt.Domain e)
        +:+ ", Message='" +:+ libvirt.Message e +:+ "')"
  | TimeoutError lastState _ =>
      "timeout while waiting for state (last state: '" +:+ lastState +:+ "')"
  | UnexpectedStateError state _ =>
      "unexpected state '" +:+ state +:+ "'"
  | NotFoundError => "couldn't find resource"
  end.

(** ** Address planner *)

(** Modelled from the spec: [networkRange] is defined in another file of
    the package and is not part of the source at hand.  The spec places the
    DHCP range between "network address + 2" and "broadcast address - 1",
    both derived from the two addresses [networkRange] returns: the network
    address of the block and its broadcast address (every host bit set). *)
Definition networkRange (network : net.IPNet) : net.IP * net.IP :=
  let first := net.Mask (net.net_IP network) (net.net_Mask network) in
  let last :=
    zip_with (fun b m => Z.lor b (255 - m)) first (net.net_Mask network) in
  (first, last).

(** [p[len(p)-1] += delta] on a byte slice: the last byte changes modulo
    256 and nothing is carried into the byte before it; on an empty slice
    the index is out of range. *)
Definition bump_last (delta : Z) (p : net.IP) : outcome net.IP :=
  if net.isnil p then Panic "index out of range"
  else
    let i := Z.of_nat (length p) - 1 in
    Ret (net.store i ((net.at_ i p + delta) mod 256) p).

(** [ipsRange := 2 ^ bits - 2 ^ ones].  In Go [^] is the bitwise exclusive
    or, and it has the precedence of [+] and [-], so the expression groups
    from the left. *)
Definition ipsRange (ones bits : Z) : Z :=
  Z.lxor (Z.lxor 2 bits - 2) ones.

Definition setNetworkIP (address : string)
  : outcome (option NetworkIP * option NetworkDHCP * error) :=
  let '(_, ipNet, err) := net.ParseCIDR address in
  match err, ipNet with
  | Some e, _ =>
      Ret (None, None,
           Some (ErrorString ("Error parsing addresses definition '"
                                +:+ address +:+ "': " +:+ Error_text e)))
  | None, None => Panic "nil pointer dereference"
  | None, Some ipNet =>
      let '(ones, bits) := net.Size (net.net_Mask ipNet) in
      let family := if bits =? net.IPv6len * 8 then "ipv6" else "ipv4" in
      let ipsRange := ipsRange ones bits in
      if ipsRange <? 4 then
        Ret (None, None,
             Some (ErrorString ("Netmask seems to be too strict: only "
                                  +:+ itoa (ipsRange - 3)
                                  +:+ " IPs available (" +:+ family +:+ ")")))
      else
        let '(start, end_) := networkRange ipNet in
        (* skip the .0, (for the network) *)
        match bump_last 1 start with
        | Panic m => Panic m
        | Ret start =>
            (* assign the .1 to the host interface *)
            let dni := {| Address := net.IP_String start;
                          Prefix := ones;
                          Family := family;
                          DHCP := None |} in
            match bump_last 1 start with (* then skip the .1 *)
            | Panic m => Panic m
            | Ret start =>
                match bump_last (-1) end_ with (* and skip the .255 *)
                | Panic m => Panic m
                | Ret end_ =>
                    let dhcp :=
                      {| Ranges := [ {| Start := net.IP_String start;
                                        End := net.IP_String end_ |} ] |} in
                    Ret (Some dni, Some dhcp, None)
                end
            end
        end
  end.

(** ** Definition builder *)

Definition with_Name (v : string) (n : Network) : Network :=
  {| Name := v; Bridge := Bridge n; Forward := Forward n;
     Domain := Domain n; IPs := IPs n; DNS := DNS n |}.
Definition with_Bridge (v : option NetworkBridge) (n : Network) : Network :=
  {| Name := Name n; Bridge := v; Forward := Forward n;
     Domain := Domain n; IPs := IPs n; DNS := DNS n |}.
Definition with_Forward (v : option NetworkForward) (n : Network) : Network :=
  {| Name := Name n; Bridge := Bridge n; Forward := v;
     Domain := Domain n; IPs := IPs n; DNS := DNS n |}.
Definition with_Domain (v : option NetworkDomain) (n : Network) : Network :=
  {| Name := Name n; Bridge := Bridge n; Forward := Forward n;
     Domain := v; IPs := IPs n; DNS := DNS n |}.
Definition with_IPs (v : list NetworkIP) (n : Network) : Network :=
  {| Name := Name n; Bridge := Bridge n; Forward := Forward n;
     Domain := Domain n; IPs := v; DNS := DNS n |}.
Definition with_DNS (v : option NetworkDNS) (n : Network) : Network :=
  {| Name := Name n; Bridge := Bridge n; Forward := Forward n;
     Domain := Domain n; IPs := IPs n; DNS := v |}.

Definition with_DHCP (v : option NetworkDHCP) (i : NetworkIP) : NetworkIP :=
  {| Address := Address i; Family := Family i; Prefix := Prefix i;
     DHCP := v |}.

(** The loop of [setDhcpByCIDRAdressesSubnets] over the address entries;
    [ipsPtrsLst] is the list built so far. *)
Fixpoint setDhcp_loop (d : ResourceData) (addresses : list string)
    (ipsPtrsLst : list NetworkIP) : outcome (list NetworkIP * error) :=
  match addresses with
  | [] => Ret (ipsPtrsLst, None)
  | addressI :: rest =>
      (* get the IP address entry for this subnet (with a guessed DHCP range) *)
      match setNetworkIP addressI with
      | Panic m => Panic m
      | Ret (_, _, Some err) => Ret (ipsPtrsLst, Some err)
      | Ret (None, _, None) => Panic "nil pointer dereference"
      | Ret (Some dni, dhcp, None) =>
          let dni :=
            if Get_dhcp_enabled d then with_DHCP dhcp dni
            else with_DHCP None dni in
          setDhcp_loop d rest (ipsPtrsLst ++ [dni])
      end
  end.

(** [setDhcpByCIDRAdressesSubnets(d, networkDef)]: the definition with its
    [IPs] replaced when every entry can be planned, and the error. *)
Definition setDhcpByCIDRAdressesSubnets (d : ResourceData)
    (networkDef : Network) : outcome (Network * error) :=
  let '(addresses, ok) := GetOk_list (rd_addresses d) in
  if ok then
    match setDhcp_loop d addresses [] with
    | Panic m => Panic m
    | Ret (_, Some err) => Ret (networkDef, Some err)
    | Ret (ipsPtrsLst, None) => Ret (with_IPs ipsPtrsLst networkDef, None)
    end
  else Ret (networkDef, None).

(** The loop over the DNS forwarders of [resourceLibvirtNetworkCreate]. *)
Fixpoint dns_forwarders_loop (fs : list Forwarder)
    (acc : list NetworkDNSForwarder)
  : list NetworkDNSForwarder * error :=
  match fs with
  | [] => (acc, None)
  | f :: rest =>
      let '(address, ok) := GetOk_string (fwd_address f) in
      let parsed :=
        if ok then
          let ip := net.ParseIP address in
          if net.isnil ip then None else Some (net.IP_String ip)
        else Some "" in
      match parsed with
      | None =>
          (acc, Some (ErrorString ("Could not parse address '" +:+ address
                                      +:+ "'")))
      | Some addr =>
          let '(domain, ok) := GetOk_string (fwd_domain f) in
          let forward :=
            {| Addr := addr; FwdDomain := if ok then domain else "" |} in
          dns_forwarders_loop rest (acc ++ [forward])
      end
  end.

(** The part of [resourceLibvirtNetworkCreate] that builds [networkDef]
    (from [newNetworkDef()] to the end of the mode check), before anything
    is sent to libvirt.  [newNetworkDef] is the value of the function of
    that name, which lives in another file of the package.  The result is
    the definition, or the error the function returns at that point. *)
Definition buildNetworkDef (newNetworkDef : Network) (d : ResourceData)
  : outcome (option Network * error) :=
  let networkDef := with_Name (rd_name d) newNetworkDef in
  let networkDef :=
    let '(domain, ok) := GetOk_string (rd_domain d) in
    if ok then
      let '(dnsLocalOnly, ok) :=
        GetOk_bool (default false (rd_dns_local_only d)) in
      with_Domain
        (Some {| DomainName := domain;
                 LocalOnly := if ok && dnsLocalOnly then "yes" else "" |})
        networkDef
    else networkDef in
  (* use a bridge provided by the user, or create one otherwise *)
  let bridgeName :=
    let '(b, ok) := GetOk_string (rd_bridge d) in
    if ok then b else "" in
  let networkDef :=
    with_Bridge (Some {| BridgeName := bridgeName; STP := "on" |})
                networkDef in
  (* check the network mode *)
  let mode := ToLower (Get_mode d) in
  let networkDef :=
    with_Forward (Some {| Mode := mode; NAT := None |}) networkDef in
  if String.eqb mode netModeIsolated || String.eqb mode netModeNat
     || String.eqb mode netModeRoute then
    let networkDef :=
      if String.eqb mode netModeIsolated then
        (* there is no forwarding when using an isolated network *)
        with_Forward None networkDef
      else if String.eqb mode netModeRoute then
        (* there is no NAT when using a routed network *)
        with_Forward
          (option_map (fun f => {| Mode := Mode f; NAT := None |})
                      (Forward networkDef))
          networkDef
      else networkDef in
    (* if addresses are given set dhcp for these *)
    match setDhcpByCIDRAdressesSubnets d networkDef with
    | Panic m => Panic m
    | Ret (_, Some err) =>
        Ret (None,
             Some (ErrorString ("Could not set DHCP from adresses '"
                                  +:+ Error_text err +:+ "'")))
    | Ret (networkDef, None) =>
        let '(_, ok) := GetOk_count (rd_dns_forwarders d) in
        if ok then
          match dns_forwarders_loop (rd_dns_forwarders d) [] with
          | (_, Some err) => Ret (None, Some err)
          | (forwarders, None) =>
              Ret (Some (with_DNS (Some {| Forwarders := forwarders |})
                                  networkDef), None)
          end
        else Ret (Some networkDef, None)
    end
  else if String.eqb mode netModeBridge then
    if String.eqb bridgeName "" then
      Ret (None,
           Some (ErrorString
                   "'bridge' must be provided when using the bridged network mode"))
    else
      (* Bridges cannot forward *)
      Ret (Some (with_Forward None networkDef), None)
  else
    Ret (None,
         Some (ErrorString ("unsupported network mode '" +:+ mode +:+ "'"))).

(** ** Drift reader: the address projection

    The loop of [resourceLibvirtNetworkRead] that turns the [IPs] of the
    reported definition back into CIDR texts. *)
Fixpoint read_addresses (ips : list NetworkIP) (addresses : list string)
  : list string * error :=
  match ips with
  | [] => (addresses, None)
  | address :: rest =>
      (* we get the host interface IP (ie, 10.10.8.1) but we want the
         network CIDR (ie, 10.10.8.0/24) *)
      let addr := net.ParseIP (Address address) in
      if net.isnil addr then
        (addresses,
         Some (ErrorString ("Error parsing IP '" +:+ Address address
                              +:+ "': %!s(<nil>)")))
      else
        let bits :=
          if negb (net.isnil (net.To4 addr)) then net.IPv4len * 8
          else net.IPv6len * 8 in
        let mask := net.CIDRMask (Prefix address) bits in
        let network := net.Mask addr mask in
        read_addresses rest
          (addresses ++ [net.IP_String network +:+ "/"
                           +:+ uitoa (Prefix address)])
  end.

(** ** The libvirt connection as an external service

    Every call made to libvirt is recorded in a history, together with the
    sleeps of the polling loop.  What the service answers is a function of
    the history so far, which covers a daemon whose state changes with the
    calls it received and with the time that passed. *)
Definition Handle := Z.

Inductive Call :=
| CGetURI
| CNetworkDefineXML (data : string)
| CLookupNetworkByUUIDString (uuid : string)
| CCreate (n : Handle)
| CDestroy (n : Handle)
| CUndefine (n : Handle)
| CIsActive (n : Handle)
| CGetUUIDString (n : Handle)
| CSetAutostart (n : Handle) (autostart : bool)
| CGetAutostart (n : Handle)
| CGetXMLDesc (n : Handle)
| CFree (n : Handle)
| CSleep (d : Z).

Definition History := list Call.

(** The answers of the connection [*libvirt.Connect] and of the networks
    [*libvirt.Network] it hands out.  A lookup returns a handle or the nil
    pointer, and an error or nil, as the Go signature allows. *)
Record Service := {
  GetURI : History -> string * error;
  NetworkDefineXML : History -> string -> option Handle * error;
  LookupNetworkByUUIDString : History -> string -> option Handle * error;
  Create : History -> Handle -> error;
  Destroy : History -> Handle -> error;
  Undefine : History -> Handle -> error;
  IsActive : History -> Handle -> bool * error;
  GetUUIDString : History -> Handle -> string * error;
  SetAutostart : History -> Handle -> bool -> error;
  GetAutostart : History -> Handle -> bool * error;
  (* [getXMLNetworkDefFromLibvirt]: the XML description decoded *)
  GetXMLDesc : History -> Handle -> Network * error;
  Free : History -> Handle -> error
}.

(** The [Client] behind [meta]: it holds the connection, or nil. *)
Record Client := { libvirt_conn : option Service }.

(** Code that talks to the service: from a history to an outcome and the
    history extended by the calls made. *)
Definition M (A : Type) : Type := History -> outcome A * History.

Definition ret {A} (a : A) : M A := fun h => (Ret a, h).

Definition bind {A B} (m : M A) (k : A -> M B) : M B :=
  fun h =>
    match m h with
    | (Ret a, h') => k a h'
    | (Panic msg, h') => (Panic msg, h')
    end.

Definition panic {A} (msg : string) : M A := fun h => (Panic msg, h).

Notation "x <- m ;; k" := (bind m (fun x => k))
  (at level 100, m at next level, right associativity).
Notation "m ;;; k" := (bind m (fun _ => k))
  (at level 100, right associativity).

(** One call: ask the service at the current history, then record it. *)
Definition call {A} (c : Call) (answer : History -> A) : M A :=
  fun h => (Ret (answer h), h ++ [c]).

(** A method called on a [*libvirt.Network]: every method of the binding
    reads the field [ptr] of its receiver, so on the nil pointer it is a
    nil dereference. *)
Definition method {A} (n : option Handle) (c : Handle -> Call)
    (answer : History -> Handle -> A) : M A :=
  match n with
  | Some p => call (c p) (fun h => answer h p)
  | None => panic "invalid memory address or nil pointer dereference"
  end.

(** [defer network.Free()] around [body]: the deferred call runs when the
    body returns and also when it panics. *)
Definition defer_Free {A} (virConn : Service) (network : option Handle)
    (body : M A) : M A :=
  fun h =>
    match body h with
    | (Ret a, h') =>
        match method network CFree (Free virConn) h' with
        | (Ret _, h'') => (Ret a, h'')
        | (Panic msg, h'') => (Panic msg, h'')
        end
    | (Panic msg, h') =>
        match method network CFree (Free virConn) h' with
        | (_, h'') => (Panic msg, h'')
        end
    end.

(** ** The polling loop of the Terraform helper

    [resource.StateChangeConf] and its method [WaitForState], with time
    kept as the sum of the sleeps (in nanoseconds, as [time.Duration]). *)
Definition Millisecond : Z := 1000000.
Definition Second : Z := 1000 * Millisecond.
Definition Minute : Z := 60 * Second.

(** What a refresh function returns as its first result: the network, the
    connection, or nil. *)
Inductive refreshed :=
| RNetwork (n : Handle)
| RConnect.

Record StateChangeConf := {
  Pending : list string;
  Target : list string;
  Refresh : M (option refreshed * string * error);
  Timeout : Z;
  Delay : Z;
  MinTimeout : Z
}.

Definition isin (x : string) (l : list string) : bool :=
  existsb (String.eqb x) l.

(** [time.Sleep(d)] and [time.After(d)]: recorded in the history when the
    duration is positive; otherwise no time passes. *)
Definition slept (d : Z) (h : History) : History :=
  if 0 <? d then h ++ [CSleep d] else h.

(** The next wait of [WaitForState]: doubled, then at least [MinTimeout]
    and otherwise at most ten seconds. *)
Definition next_wait (conf : StateChangeConf) (wait : Z) : Z :=
  let wait := wait * 2 in
  if wait <? MinTimeout conf then MinTimeout conf
  else if 10 * Second <? wait then 10 * Second
  else wait.

(** The refresh loop of [WaitForState], started after the initial delay.
    [elapsed] is the time since the start, [wait] the pause before the next
    refresh (none before the first), [notfoundTick] the number of refreshes
    in a row that returned no object, [lastState] the state last seen.
    The wait ends: with the error of a refresh that returns one; with
    success when the state is a target; with [UnexpectedStateError] on a
    state that is neither target nor pending; with [NotFoundError] after
    more than 20 refreshes without object; with [TimeoutError] once
    [Timeout] has passed.  [None] means the fuel ran out. *)
Fixpoint WaitForState_loop (fuel : nat) (conf : StateChangeConf)
    (elapsed wait notfoundTick : Z) (lastState : string) (h : History)
  : option (outcome (option refreshed * error) * History) :=
  match fuel with
  | O => None
  | S fuel' =>
      if Timeout conf <=? elapsed + wait then
        Some (Ret (None, Some (TimeoutError lastState (Target conf))),
              slept (Timeout conf - elapsed) h)
      else
        let h := slept wait h in
        let elapsed := elapsed + wait in
        (* first round had no wait *)
        let wait := if wait =? 0 then 100 * Millisecond else wait in
        match Refresh conf h with
        | (Panic msg, h) => Some (Panic msg, h)
        | (Ret (res, currentState, Some err), h) =>
            Some (Ret (res, Some err), h)
        | (Ret (None, currentState, None), h) =>
            if net.isnil (Target conf) then Some (Ret (None, None), h)
            else if 20 <? notfoundTick + 1 then
              Some (Ret (None, Some NotFoundError), h)
            else
              WaitForState_loop fuel' conf elapsed (next_wait conf wait)
                (notfoundTick + 1) currentState h
        | (Ret (Some res, currentState, None), h) =>
            if isin currentState (Target conf) then
              Some (Ret (Some res, None), h)
            else if isin currentState (Pending conf)
                    || net.isnil (Pending conf) then
              WaitForState_loop fuel' conf elapsed (next_wait conf wait)
                0 currentState h
            else
              Some (Ret (Some res,
                         Some (UnexpectedStateError currentState
                                 (Target conf))), h)
        end
  end.

(** Enough fuel for every refresh that fits before [Timeout]: after the
    first, two refreshes are at least 200 ms apart. *)
Definition WaitForState_fuel (conf : StateChangeConf) : nat :=
  Z.to_nat (Timeout conf / (200 * Millisecond)) + 3.

(** [conf.WaitForState()] *)
Definition WaitForState (conf : StateChangeConf)
  : M (option refreshed * error) :=
  fun h =>
    let h := slept (Delay conf) h in
    match WaitForState_loop (WaitForState_fuel conf) conf
            (Z.max 0 (Delay conf)) 0 0 "" h with
    | Some r => r
    | None => (Panic "WaitForState: out of fuel", h)
    end.

(** ** Lifecycle reconciler *)

Definition waitForNetworkActive (virConn : Service) (network : Handle)
  : M (option refreshed * string * error) :=
  r <- call (CIsActive network) (fun h => IsActive virConn h network) ;;
  let '(active, err) := r in
  match err with
  | Some e => ret (None, "", Some e)
  | None =>
      if active then ret (Some (RNetwork network), "ACTIVE", None)
      else ret (Some (RNetwork network), "BUILD", err)
  end.

(** [err.(libvirt.Error)]: the type assertion without the comma-ok form
    panics unless the error holds a [libvirt.Error]; on the nil error it
    panics too. *)
Definition assert_libvirt_Error (err : error) : M libvirt.Error :=
  match err with
  | Some (ErrLibvirt e) => ret e
  | Some _ =>
      panic "interface conversion: error is not libvirt.Error"
  | None =>
      panic "interface conversion: error is nil, not libvirt.Error"
  end.

Definition waitForNetworkDestroyed (virConn : Service) (uuid : string)
  : M (option refreshed * string * error) :=
  r <- call (CLookupNetworkByUUIDString uuid)
            (fun h => LookupNetworkByUUIDString virConn h uuid) ;;
  let '(network, err) := r in
  lverr <- assert_libvirt_Error err ;;
  if libvirt.Code lverr =? libvirt.ERR_NO_NETWORK then
    ret (Some RConnect, "NOT-EXISTS", None)
  else
    defer_Free virConn network (ret (Some RConnect, "ACTIVE", err)).

(** [fmt.Errorf(format, err)] with one [%s] at the end of the format. *)
Definition Errorf (prefix : string) (err : error_value) : error :=
  Some (ErrorString (prefix +:+ Error_text err)).

Definition set_Id (v : string) (d : ResourceData) : ResourceData :=
  {| Id := v; rd_name := rd_name d; rd_domain := rd_domain d;
     rd_mode := rd_mode d; rd_bridge := rd_bridge d;
     rd_addresses := rd_addresses d; rd_autostart := rd_autostart d;
     rd_autostart_changed := rd_autostart_changed d;
     rd_dns_local_only := rd_dns_local_only d;
     rd_dns_forwarders := rd_dns_forwarders d;
     rd_dhcp_enabled := rd_dhcp_enabled d |}.

(** The fields [resourceLibvirtNetworkRead] writes back with [d.Set]. *)
Definition set_observed (name bridge : string) (domain : option NetworkDomain)
    (autostart : bool) (addresses : list string)
    (forwarders : option (list Forwarder)) (d : ResourceData)
  : ResourceData :=
  {| Id := Id d;
     rd_name := name;
     rd_domain := match domain with
                  | Some dom => DomainName dom
                  | None => rd_domain d
                  end;
     rd_mode := rd_mode d;
     rd_bridge := bridge;
     rd_addresses := if net.isnil addresses then rd_addresses d
                     else addresses;
     rd_autostart := autostart;
     rd_autostart_changed := rd_autostart_changed d;
     rd_dns_local_only :=
       match domain with
       | Some dom => Some (String.eqb (ToLower (LocalOnly dom)) "yes")
       | None => rd_dns_local_only d
       end;
     rd_dns_forwarders := default (rd_dns_forwarders d) forwarders;
     rd_dhcp_enabled := rd_dhcp_enabled d |}.

(** The forwarders of the reported definition written back by position:
    an address or a domain is written only when it is not empty. *)
Fixpoint read_forwarders (reported : list NetworkDNSForwarder)
    (old : list Forwarder) : list Forwarder :=
  match reported with
  | [] => old
  | f :: reported' =>
      let o := match old with
               | o :: _ => o
               | [] => {| fwd_address := ""; fwd_domain := "" |}
               end in
      {| fwd_address :=
           if 0 <? len (Addr f) then Addr f else fwd_address o;
         fwd_domain :=
           if 0 <? len (FwdDomain f) then FwdDomain f else fwd_domain o |}
        :: read_forwarders reported' (tail old)
  end.

Section Resource.

(** The text constant [LibVirtConIsNil], declared in another file of the
    package. *)
Variable LibVirtConIsNil : string.

(** [newNetworkDef()], the definition every new network starts from, and
    [xmlMarshallIndented], the serializer; both live in other files of the
    package. *)
Variable newNetworkDef : Network.
Variable xmlMarshallIndented : Network -> string * error.

Definition resourceLibvirtNetworkRead (d : ResourceData) (meta : Client)
  : M (ResourceData * error) :=
  match libvirt_conn meta with
  | None => ret (d, Some (ErrorString LibVirtConIsNil))
  | Some virConn =>
      r <- call (CLookupNetworkByUUIDString (Id d))
                (fun h => LookupNetworkByUUIDString virConn h (Id d)) ;;
      let '(network, err) := r in
      match err with
      | Some e => ret (d, Errorf "Error retrieving libvirt network: " e)
      | None =>
          defer_Free virConn network (
            r <- method network CGetXMLDesc (GetXMLDesc virConn) ;;
            let '(networkDef, err) := r in
            match err with
            | Some e =>
                ret (d, Errorf
                          "Error reading libvirt network XML description: " e)
            | None =>
                match Bridge networkDef with
                | None =>
                    panic "invalid memory address or nil pointer dereference"
                | Some bridge =>
                    r <- method network CGetAutostart (GetAutostart virConn) ;;
                    let '(autostart, err) := r in
                    match err with
                    | Some e =>
                        ret (set_observed (Name networkDef)
                               (BridgeName bridge) (Domain networkDef)
                               (rd_autostart d) [] None d,
                             Errorf
                               "Error reading network autostart setting: " e)
                    | None =>
                        let '(addresses, err) :=
                          read_addresses (IPs networkDef) [] in
                        match err with
                        | Some e =>
                            ret (set_observed (Name networkDef)
                                   (BridgeName bridge) (Domain networkDef)
                                   autostart [] None d, Some e)
                        | None =>
                            let forwarders :=
                              match DNS networkDef with
                              | Some dns =>
                                  Some (read_forwarders (Forwarders dns)
                                          (rd_dns_forwarders d))
                              | None => None
                              end in
                            ret (set_observed (Name networkDef)
                                   (BridgeName bridge) (Domain networkDef)
                                   autostart addresses forwarders d, None)
                        end
                    end
                end
            end)
      end
  end.

(** The [stateConf] of [resourceLibvirtNetworkCreate]. *)
Definition stateConf_Create (virConn : Service) (network : Handle)
  : StateChangeConf :=
  {| Pending := ["BUILD"];
     Target := ["ACTIVE"];
     Refresh := waitForNetworkActive virConn network;
     Timeout := 1 * Minute;
     Delay := 5 * Second;
     MinTimeout := 3 * Second |}.

(** The [stateConf] of [resourceLibvirtNetworkDelete]. *)
Definition stateConf_Delete (virConn : Service) (uuid : string)
  : StateChangeConf :=
  {| Pending := ["ACTIVE"];
     Target := ["NOT-EXISTS"];
     Refresh := waitForNetworkDestroyed virConn uuid;
     Timeout := 1 * Minute;
     Delay := 5 * Second;
     MinTimeout := 3 * Second |}.

Definition resourceLibvirtNetworkCreate (d : ResourceData) (meta : Client)
  : M (ResourceData * error) :=
  (* see https://libvirt.org/formatnetwork.html *)
  match libvirt_conn meta with
  | None => ret (d, Some (ErrorString LibVirtConIsNil))
  | Some virConn =>
      match buildNetworkDef newNetworkDef d with
      | Panic msg => panic msg
      | Ret (_, Some err) => ret (d, Some err)
      | Ret (None, None) => panic "unreachable"
      | Ret (Some networkDef, None) =>
          (* once we have the network defined, connect to libvirt and
             create it from the XML serialization *)
          r <- call CGetURI (GetURI virConn) ;;
          let '(connectURI, err) := r in
          match err with
          | Some e =>
              ret (d, Errorf "Error retrieving libvirt connection URI: " e)
          | None =>
          let '(data, err) := xmlMarshallIndented networkDef in
          match err with
          | Some e =>
              ret (d, Errorf "Error serializing libvirt network: " e)
          | None =>
          r <- call (CNetworkDefineXML data)
                    (fun h => NetworkDefineXML virConn h data) ;;
          let '(network, err) := r in
          match err with
          | Some e =>
              ret (d, Some (ErrorString
                              ("Error defining libvirt network: "
                                 +:+ Error_text e +:+ " - " +:+ data)))
          | None =>
          err <- method network CCreate (Create virConn) ;;
          match err with
          | Some e => ret (d, Errorf "Error crearing libvirt network: " e)
          | None =>
          defer_Free virConn network (
            r <- method network CGetUUIDString (GetUUIDString virConn) ;;
            let '(id, err) := r in
            match err with
            | Some e =>
                ret (d, Errorf "Error retrieving libvirt network id: " e)
            | None =>
            (* make sure we record the id even if the rest of this gets
               interrupted *)
            let d := set_Id id d in
            match network with
            | None =>
                panic "invalid memory address or nil pointer dereference"
            | Some n =>
            let stateConf := stateConf_Create virConn n in
            r <- WaitForState stateConf ;;
            let '(_, err) := r in
            match err with
            | Some e =>
                ret (d, Errorf
                          "Error waiting for network to reach ACTIVE state: "
                          e)
            | None =>
            let '(autostart, ok) := GetOk_bool (rd_autostart d) in
            err <- (if ok then
                      method network (fun n => CSetAutostart n autostart)
                        (fun h n => SetAutostart virConn h n autostart)
                    else ret None) ;;
            match err with
            | Some e =>
                ret (d, Errorf "Error setting autostart for network: " e)
            | None => resourceLibvirtNetworkRead d meta
            end end end end)
          end end end end
      end
  end.

Definition resourceLibvirtNetworkDelete (d : ResourceData) (meta : Client)
  : M error :=
  match libvirt_conn meta with
  | None => ret (Some (ErrorString LibVirtConIsNil))
  | Some virConn =>
      r <- call (CLookupNetworkByUUIDString (Id d))
                (fun h => LookupNetworkByUUIDString virConn h (Id d)) ;;
      let '(network, err) := r in
      match err with
      | Some e =>
          ret (Errorf "When destroying libvirt network: error retrieving " e)
      | None =>
          defer_Free virConn network (
            r <- method network CIsActive (IsActive virConn) ;;
            let '(active, err) := r in
            match err with
            | Some e =>
                ret (Errorf "Couldn't determine if network is active: " e)
            | None =>
            (* we have to restart an inactive network, otherwise it won't
               be possible to remove it. *)
            err <- (if negb active
                    then method network CCreate (Create virConn)
                    else ret None) ;;
            match err with
            | Some e =>
                ret (Errorf "Cannot restart an inactive network " e)
            | None =>
            err <- method network CDestroy (Destroy virConn) ;;
            match err with
            | Some e => ret (Errorf "When destroying libvirt network: " e)
            | None =>
            err <- method network CUndefine (Undefine virConn) ;;
            match err with
            | Some e =>
                ret (Errorf "Couldn't undefine libvirt network: " e)
            | None =>
            let stateConf := stateConf_Delete virConn (Id d) in
            r <- WaitForState stateConf ;;
            let '(_, err) := r in
            match err with
            | Some e =>
                ret (Errorf
                       "Error waiting for network to reach NOT-EXISTS state: "
                       e)
            | None => ret None
            end end end end end)
      end
  end.

End Resource.

(** ** A simulated daemon, for running the resource on concrete inputs

    One network with handle 1.  It exists when it was there at the start
    or has been defined, until it is undefined; it is active when the last
    of the start and stop calls was a start.  [isactive_fails] makes
    [IsActive] answer with an error. *)
Definition is_define (c : Call) : bool :=
  match c with CNetworkDefineXML _ => true | _ => false end.
Definition is_undefine (c : Call) : bool :=
  match c with CUndefine _ => true | _ => false end.

Definition sim_defined (initially : bool) (h : History) : bool :=
  (initially || existsb is_define h) && negb (existsb is_undefine h).

Definition sim_active (h : History) : bool :=
  fold_left (fun a c => match c with
                        | CCreate _ => true
                        | CDestroy _ => false
                        | _ => a
                        end) h false.

Definition no_network : error_value :=
  ErrLibvirt {| libvirt.Code := libvirt.ERR_NO_NETWORK;
                libvirt.Domain := 19;
                libvirt.Message := "Network not found" |}.

Definition internal_error : error_value :=
  ErrLibvirt {| libvirt.Code := 1;
                libvirt.Domain := 19;
                libvirt.Message := "internal error" |}.

Definition sim (initially isactive_fails : bool) (reported : Network)
  : Service :=
  {| GetURI := fun _ => ("qemu:///system", None);
     NetworkDefineXML := fun _ _ => (Some 1, None);
     LookupNetworkByUUIDString := fun h _ =>
       if sim_defined initially h then (Some 1, None)
       else (None, Some no_network);
     Create := fun _ _ => None;
     Destroy := fun _ _ => None;
     Undefine := fun _ _ => None;
     IsActive := fun h _ =>
       if isactive_fails then (false, Some internal_error)
       else (sim_active h, None);
     GetUUIDString := fun _ _ => ("5a1b", None);
     SetAutostart := fun _ _ _ => None;
     GetAutostart := fun _ _ => (false, None);
     GetXMLDesc := fun _ _ => (reported, None);
     Free := fun _ _ => None |}.

(** ** Concrete inputs *)

(** The definition [newNetworkDef()] of the package starts from: a network
    named "default" in NAT mode with a port range. *)
Definition default_def : Network :=
  {| Name := "default"; Bridge := None;
     Forward := Some {| Mode := "nat";
                        NAT := Some {| Ports := [(1024, 65535)] |} |};
     Domain := None; IPs := []; DNS := None |}.

(** A bridged network on [br0] with an address list that is not even a
    CIDR. *)
Definition bridged : ResourceData :=
  {| Id := ""; rd_name := "lan"; rd_domain := "";
     rd_mode := Some "Bridge"; rd_bridge := "br0";
     rd_addresses := ["not-an-address"];
     rd_autostart := false; rd_autostart_changed := false;
     rd_dns_local_only := None; rd_dns_forwarders := [];
     rd_dhcp_enabled := None |}.


(** An isolated network (mode "none") with one IPv4 block. *)
Definition isolated : ResourceData :=
  {| Id := ""; rd_name := "internal"; rd_domain := "";
     rd_mode := Some "none"; rd_bridge := "";
     rd_addresses := ["10.17.3.0/24"];
     rd_autostart := false; rd_autostart_changed := false;
     rd_dns_local_only := None; rd_dns_forwarders := [];
     rd_dhcp_enabled := None |}.

(** The same network with DHCP switched off. *)
Definition isolated_no_dhcp : ResourceData :=
  {| Id := ""; rd_name := "internal"; rd_domain := "";
     rd_mode := Some "none"; rd_bridge := "";
     rd_addresses := ["10.17.3.0/24"];
     rd_autostart := false; rd_autostart_changed := false;
     rd_dns_local_only := None; rd_dns_forwarders := [];
     rd_dhcp_enabled := Some false |}.

(** A client whose connection is the simulated daemon. *)
Definition sim_client (initially isactive_fails : bool) (reported : Network)
  : Client :=
  {| libvirt_conn := Some (sim initially isactive_fails reported) |}.

(** The network of the example in the source: "k8snet" in NAT mode on
    10.17.3.0/24. *)
Definition k8snet : ResourceData :=
  {| Id := ""; rd_name := "k8snet"; rd_domain := "k8s.local";
     rd_mode := Some "nat"; rd_bridge := "";
     rd_addresses := ["10.17.3.0/24"];
     rd_autostart := false; rd_autostart_changed := false;
     rd_dns_local_only := None; rd_dns_forwarders := [];
     rd_dhcp_enabled := None |}.

(** The same network once created, known by its UUID. *)
Definition k8snet_created : ResourceData := set_Id "5a1b" k8snet.

(** ** Vocabulary of the properties *)

(** The numbers [0, 1, ..., k-1]. *)
Definition upto (k : nat) : list Z := map Z.of_nat (seq 0 k).

(** The number an address denotes, most significant byte first. *)
Definition ip_value (p : net.IP) : Z :=
  fold_left (fun acc b => acc * 256 + b) p 0.

(** The usable addresses of a block with [ones] network bits out of
    [bits]: all of its addresses but the network and the broadcast
    address. *)
Definition usable_addresses (ones bits : Z) : Z := 2 ^ (bits - ones) - 2.

(** The family text the planner gives a block of [bits] bits. *)
Definition family_of (bits : Z) : string :=
  if bits =? net.IPv6len * 8 then "ipv6" else "ipv4".

(** The text of the error for a range that is too small. *)
Definition range_too_small (ones bits : Z) : error :=
  Some (ErrorString ("Netmask seems to be too strict: only "
                       +:+ itoa (ipsRange ones bits - 3)
                       +:+ " IPs available (" +:+ family_of bits +:+ ")")).

(** [n.String()] of [*net.IPNet]: the network address, a slash and the
    number of network bits: the canonical text of a block. *)
Definition IPNet_String (n : net.IPNet) : string :=
  net.IP_String (net.net_IP n) +:+ "/"
    +:+ uitoa (fst (net.Size (net.net_Mask n))).

(** The canonical text of the block an address entry denotes. *)
Definition canonical_cidr (address : string) : string :=
  match net.ParseCIDR address with
  | (_, Some ipNet, _) => IPNet_String ipNet
  | _ => ""
  end.

(** An address entry denotes an IPv4-mapped IPv6 block when it is parsed
    as IPv6 and its network address has a 4-byte form. *)
Definition v4_mapped_block (address : string) : bool :=
  match net.ParseCIDR address with
  | (_, Some ipNet, _) =>
      (snd (net.Size (net.net_Mask ipNet)) =? 128)
      && negb (net.isnil (net.To4 (net.net_IP ipNet)))
  | _ => false
  end.

Fixpoint all_chars (P : ascii -> bool) (s : string) : bool :=
  match s with
  | EmptyString => true
  | String c s' => P c && all_chars P s'
  end.

Definition is_hex (c : ascii) : bool :=
  match net.hex_value c with Some _ => true | None => false end.

(** The first character, when there is one, satisfies [P]. *)
Definition head_is (P : ascii -> bool) (s : string) : bool :=
  match s with
  | EmptyString => false
  | String c _ => P c
  end.

(** [P] holds on [start], [start + 1], ..., [count] numbers in all. *)
Fixpoint forall_from (P : Z -> bool) (start : Z) (count : nat) : bool :=
  match count with
  | O => true
  | S count' => P start && forall_from P (start + 1) count'
  end.

Definition forall_below (P : Z -> bool) (k : Z) : bool :=
  forall_from P 0 (Z.to_nat k).

(** The 16-bit group made of two bytes, as [String] prints it and as
    [parseIPv6] stores it. *)
Definition group (hi lo : Z) : Z := Z.lor (Z.shiftl hi 8) lo.

Definition put_group (i g : Z) (p : list Z) : list Z :=
  net.store (i + 1) (g mod 256) (net.store i (Z.shiftr g 8) p).

(** A run of zero groups [e0, e1) as the search of [String] can report
    it: none, or byte positions of whole groups inside the address that
    hold zeros only. *)
Definition zero_run_ok (p : list Z) (e0 e1 : Z) : Prop :=
  (e0 = -1 /\ e1 = -1)
  \/ (exists a b, e0 = 2 * a /\ e1 = 2 * b /\ 0 <= a < b /\ b <= 8
                  /\ forall t, e0 <= t < e1 -> net.at_ t p = 0).

(** A network with one IPv4 and one IPv6 block, both written in canonical
    form. *)
Definition dual_stack : ResourceData :=
  {| Id := ""; rd_name := "dual"; rd_domain := "";
     rd_mode := Some "nat"; rd_bridge := "";
     rd_addresses := ["10.17.3.0/24"; "fd00:17:3::/64"];
     rd_autostart := false; rd_autostart_changed := false;
     rd_dns_local_only := None; rd_dns_forwarders := [];
     rd_dhcp_enabled := None |}.

(** The entry [i] of a definition is the plan of the address text [a],
    whatever its DHCP field holds. *)
Definition planned_from (a : string) (i : NetworkIP) : Prop :=
  exists dni dhcp,
    setNetworkIP a = Ret (Some dni, dhcp, None)
    /\ Address i = Address dni /\ Prefix i = Prefix dni
    /\ Family i = Family dni.

(** ** Exists and update *)

Section ExistsUpdate.

Variable LibVirtConIsNil : string.

(** [resourceLibvirtNetworkExists]: an error of the lookup that is a
    [libvirt.Error] with the code "no network" is the answer "no"; here
    the type assertion has the comma-ok form and does not panic. *)
Definition resourceLibvirtNetworkExists (d : ResourceData) (meta : Client)
  : M (bool * error) :=
  match libvirt_conn meta with
  | None => ret (false, Some (ErrorString LibVirtConIsNil))
  | Some virConn =>
      r <- call (CLookupNetworkByUUIDString (Id d))
                (fun h => LookupNetworkByUUIDString virConn h (Id d)) ;;
      let '(network, err) := r in
      match err with
      | Some e =>
          (* If the network couldn't be found, don't return an error
             otherwise Terraform won't create it again. *)
          match e with
          | ErrLibvirt lverr =>
              if libvirt.Code lverr =? libvirt.ERR_NO_NETWORK
              then ret (false, None)
              else ret (false, err)
          | _ => ret (false, err)
          end
      | None => defer_Free virConn network (ret (true, err))
      end
  end.

(** [fmt.Errorf("Can't retrieve network with ID '%s' during update: %s",
    d.Id(), err)] *)
Definition cant_retrieve (id : string) (e : error_value) : error :=
  Some (ErrorString ("Can't retrieve network with ID '" +:+ id
                       +:+ "' during update: " +:+ Error_text e)).

(** [resourceLibvirtNetworkUpdate].  [d.Partial] and [d.SetPartial] mark
    which keys Terraform saves when the function fails; the resource data
    of this model holds no such marks and the function leaves it as it
    is. *)
Definition resourceLibvirtNetworkUpdate (d : ResourceData) (meta : Client)
  : M error :=
  match libvirt_conn meta with
  | None => ret (Some (ErrorString LibVirtConIsNil))
  | Some virConn =>
      r <- call (CLookupNetworkByUUIDString (Id d))
                (fun h => LookupNetworkByUUIDString virConn h (Id d)) ;;
      let '(network, err) := r in
      match err with
      | Some e => ret (cant_retrieve (Id d) e)
      | None =>
          defer_Free virConn network (
            r <- method network CIsActive (IsActive virConn) ;;
            let '(active, err) := r in
            match err with
            | Some e =>
                ret (Errorf
                       "Error by getting network's status during update: " e)
            | None =>
            err <- (if negb active
                    then method network CCreate (Create virConn)
                    else ret None) ;;
            match err with
            | Some e =>
                ret (Errorf
                       "Error by activating network during update: " e)
            | None =>
            if rd_autostart_changed d then
              err <- method network
                       (fun n => CSetAutostart n (rd_autostart d))
                       (fun h n => SetAutostart virConn h n (rd_autostart d)) ;;
              match err with
              | Some e =>
                  ret (Errorf "Error updating autostart for network: " e)
              | None => ret None
              end
            else ret None
            end end)
      end
  end.

End ExistsUpdate.

(** ** Which calls a function makes *)

(** Running [m] from any history only appends calls that [allowed]
    admits. *)
Definition calls_only {A} (allowed : Call -> bool) (m : M A) : Prop :=
  forall h, exists ext,
    snd (m h) = h ++ ext /\ forallb allowed ext = true.

(** The total time of the sleeps in a history. *)
Definition slept_total (h : History) : Z :=
  fold_right (fun c acc => match c with CSleep d => d + acc | _ => acc end)
             0 h.

Definition reads_only (c : Call) : bool :=
  match c with
  | CLookupNetworkByUUIDString _ | CGetXMLDesc _ | CGetAutostart _
  | CFree _ => true
  | _ => false
  end.

Definition lookup_only (c : Call) : bool :=
  match c with
  | CLookupNetworkByUUIDString _ | CFree _ => true
  | _ => false
  end.

Definition update_calls (c : Call) : bool :=
  match c with
  | CLookupNetworkByUUIDString _ | CIsActive _ | CCreate _
  | CSetAutostart _ _ | CFree _ => true
  | _ => false
  end.

Definition not_removing (c : Call) : bool :=
  match c with
  | CDestroy _ | CUndefine _ => false
  | _ => true
  end.

Definition delete_calls (c : Call) : bool :=
  match c with
  | CLookupNetworkByUUIDString _ | CIsActive _ | CCreate _ | CDestroy _
  | CUndefine _ | CFree _ | CSleep _ => true
  | _ => false
  end.

(** The resource data with another mode. *)
Definition set_mode (v : option string) (d : ResourceData) : ResourceData :=
  {| Id := Id d; rd_name := rd_name d; rd_domain := rd_domain d;
     rd_mode := v; rd_bridge := rd_bridge d;
     rd_addresses := rd_addresses d; rd_autostart := rd_autostart d;
     rd_autostart_changed := rd_autostart_changed d;
     rd_dns_local_only := rd_dns_local_only d;
     rd_dns_forwarders := rd_dns_forwarders d;
     rd_dhcp_enabled := rd_dhcp_enabled d |}.

(** The network "k8snet" once created, with a change of its autostart
    flag pending. *)
Definition k8snet_autostart : ResourceData :=
  {| Id := "5a1b"; rd_name := "k8snet"; rd_domain := "k8s.local";
     rd_mode := Some "nat"; rd_bridge := "";
     rd_addresses := ["10.17.3.0/24"];
     rd_autostart := true; rd_autostart_changed := true;
     rd_dns_local_only := None; rd_dns_forwarders := [];
     rd_dhcp_enabled := None |}.

(** A daemon that behaves as [s] but whose [Create] fails with [e]. *)
Definition failing_Create (e : error_value) (s : Service) : Service :=
  {| GetURI := GetURI s;
     NetworkDefineXML := NetworkDefineXML s;
     LookupNetworkByUUIDString := LookupNetworkByUUIDString s;
     Create := fun _ _ => Some e;
     Destroy := Destroy s;
     Undefine := Undefine s;
     IsActive := IsActive s;
     GetUUIDString := GetUUIDString s;
     SetAutostart := SetAutostart s;
     GetAutostart := GetAutostart s;
     GetXMLDesc := GetXMLDesc s;
     Free := Free s |}.

(** A daemon that behaves as [s] but whose [Destroy] fails with [e]. *)
Definition failing_Destroy (e : error_value) (s : Service) : Service :=
  {| GetURI := GetURI s;
     NetworkDefineXML := NetworkDefineXML s;
     LookupNetworkByUUIDString := LookupNetworkByUUIDString s;
     Create := Create s;
     Destroy := fun _ _ => Some e;
     Undefine := Undefine s;
     IsActive := IsActive s;
     GetUUIDString := GetUUIDString s;
     SetAutostart := SetAutostart s;
     GetAutostart := GetAutostart s;
     GetXMLDesc := GetXMLDesc s;
     Free := Free s |}.

(** The mode of the definition a build ends with: "nat" and "route" keep
    a forward block, which has no NAT block; the other modes have none. *)
Definition forward_of (mode : string) : option NetworkForward :=
  if String.eqb mode netModeNat || String.eqb mode netModeRoute
  then Some {| Mode := mode; NAT := None |}
  else None.

(** The domain block a build ends with. *)
Definition domain_of (newNetworkDef : Network) (d : ResourceData)
  : option NetworkDomain :=
  if String.eqb (rd_domain d) "" then Domain newNetworkDef
  else Some {| DomainName := rd_domain d;
               LocalOnly := match rd_dns_local_only d with
                            | Some true => "yes"
                            | _ => ""
                            end |}.

(** "k8snet" as a routed network whose mode is written in capitals. *)
Definition k8snet_routed : ResourceData := set_mode (Some "ROUTE") k8snet.

(** The text of the planner's error for an entry that is no CIDR block. *)
Definition not_a_cidr (address : string) : error_value :=
  ErrorString ("Error parsing addresses definition '" +:+ address
                 +:+ "': invalid CIDR address: " +:+ address).

(** "k8snet" with a second address entry that is no CIDR block and a third
    that is one. *)
Definition k8snet_bad_address : ResourceData :=
  {| Id := ""; rd_name := "k8snet"; rd_domain := "k8s.local";
     rd_mode := Some "nat"; rd_bridge := "";
     rd_addresses := ["10.17.3.0/24"; "10.17.4.0"; "10.17.5.0/24"];
     rd_autostart := false; rd_autostart_changed := false;
     rd_dns_local_only := None; rd_dns_forwarders := [];
     rd_dhcp_enabled := None |}.

(** "k8snet" with two DNS forwarders written in canonical form. *)
Definition k8snet_forwarders : ResourceData :=
  {| Id := ""; rd_name := "k8snet"; rd_domain := "k8s.local";
     rd_mode := Some "nat"; rd_bridge := "";
     rd_addresses := ["10.17.3.0/24"];
     rd_autostart := false; rd_autostart_changed := false;
     rd_dns_local_only := None;
     rd_dns_forwarders :=
       [ {| fwd_address := "8.8.8.8"; fwd_domain := "" |};
         {| fwd_address := "2001:4860:4860::8888";
            fwd_domain := "example.org" |} ];
     rd_dhcp_enabled := None |}.

(** What the builder makes of one DNS forwarder of the resource: the
    address in the text form [ParseIP] and [String] give it, the domain
    as it is. *)
Definition built_forwarder (f : Forwarder) : NetworkDNSForwarder :=
  {| FwdDomain := fwd_domain f;
     Addr := if String.eqb (fwd_address f) "" then ""
             else net.IP_String (net.ParseIP (fwd_address f)) |}.

(** The address of a forwarder is empty or in the text form [String]
    gives it. *)
Definition canonical_forwarder (f : Forwarder) : Prop :=
  fwd_address f = ""
  \/ net.IP_String (net.ParseIP (fwd_address f)) = fwd_address f.

(** A DNS forwarder the builder accepts: no address, or one [ParseIP]
    reads. *)
Definition forwarder_ok (f : Forwarder) : Prop :=
  fwd_address f = "" \/ net.ParseIP (fwd_address f) <> [].

(** The modes in which the builder plans addresses and DNS forwarders. *)
Definition plans_addresses (mode : string) : bool :=
  String.eqb mode netModeIsolated || String.eqb mode netModeNat
  || String.eqb mode netModeRoute.

(** "k8snet" with a DNS forwarder whose address is a host name. *)
Definition k8snet_bad_forwarder : ResourceData :=
  {| Id := ""; rd_name := "k8snet"; rd_domain := "k8s.local";
     rd_mode := Some "nat"; rd_bridge := "";
     rd_addresses := ["10.17.3.0/24"];
     rd_autostart := false; rd_autostart_changed := false;
     rd_dns_local_only := None;
     rd_dns_forwarders :=
       [ {| fwd_address := "8.8.8.8"; fwd_domain := "" |};
         {| fwd_address := "dns.example.org"; fwd_domain := "" |} ];
     rd_dhcp_enabled := None |}.

(** What libvirt reports of "k8snet" once it runs: the definition that
    was built, with the bridge libvirt chose. *)
Definition k8snet_reported : Network :=
  {| Name := "k8snet";
     Bridge := Some {| BridgeName := "virbr1"; STP := "on" |};
     Forward := Some {| Mode := "nat"; NAT := None |};
     Domain := Some {| DomainName := "k8s.local"; LocalOnly := "" |};
     IPs := [ {| Address := "10.17.3.1"; Family := "ipv4"; Prefix := 24;
                 DHCP := Some {| Ranges := [ {| Start := "10.17.3.2";
                                                End := "10.17.3.254" |} ] |}
              |} ];
     DNS := None |}.

(** The definition built for "k8snet" with its two DNS forwarders. *)
Definition k8snet_forwarders_def : Network :=
  {| Name := "k8snet";
     Bridge := Some {| BridgeName := ""; STP := "on" |};
     Forward := Some {| Mode := "nat"; NAT := None |};
     Domain := Some {| DomainName := "k8s.local"; LocalOnly := "" |};
     IPs := [ {| Address := "10.17.3.1"; Family := "ipv4"; Prefix := 24;
                 DHCP := Some {| Ranges := [ {| Start := "10.17.3.2";
                                                End := "10.17.3.254" |} ] |}
              |} ];
     DNS := Some {| Forwarders :=
                      [ {| FwdDomain := ""; Addr := "8.8.8.8" |};
                        {| FwdDomain := "example.org";
                           Addr := "2001:4860:4860::8888" |} ] |} |}.

(** An address entry written the way the reader writes it back: the
    canonical text of a block that is not an IPv4-mapped IPv6 block. *)
Definition canonical_entry (a : string) : Prop :=
  v4_mapped_block a = false /\ canonical_cidr a = a.

(** * Properties *)

(** ** The polling loop always returns *)

Lemma next_wait_lower (conf : StateChangeConf) (wait : Z) :
  100 * Millisecond <= wait -> 200 * Millisecond <= next_wait conf wait.
Proof.
  intros Hw. unfold next_wait, Second, Millisecond in *.
  repeat case_match; lia.
Qed.

Lemma WaitForState_loop_fuel (fuel : nat) (conf : StateChangeConf)
    (elapsed wait tick : Z) (last : string) (h : History) :
  200 * Millisecond <= wait ->
  Timeout conf - elapsed < Z.of_nat fuel * (200 * Millisecond) ->
  (0 < fuel)%nat ->
  WaitForState_loop fuel conf elapsed wait tick last h <> None.
Proof.
  revert elapsed wait tick last h.
  induction fuel as [|fuel IH]; intros elapsed wait tick last h Hw Hf Hpos;
    [lia|].
  cbn [WaitForState_loop].
  destruct (Timeout conf <=? elapsed + wait) eqn:Ht; [discriminate|].
  apply Z.leb_gt in Ht.
  assert (Hw' : (wait =? 0) = false) by (unfold Millisecond in *; lia).
  rewrite Hw'.
  assert (Hnext : 200 * Millisecond <= next_wait conf wait).
  { apply next_wait_lower. unfold Millisecond in *. lia. }
  assert (Hfuel : (0 < fuel)%nat) by (unfold Millisecond in *; nia).
  assert (Hrem : Timeout conf - (elapsed + wait)
                 < Z.of_nat fuel * (200 * Millisecond)).
  { unfold Millisecond in *. lia. }
  destruct (Refresh conf (slept wait h)) as [[[[res st] err]|msg] h'];
    [|discriminate].
  destruct res, err; try discriminate.
  - destruct (isin st (Target conf)); [discriminate|].
    destruct (isin st (Pending conf) || net.isnil (Pending conf));
      [|discriminate].
    apply IH; assumption.
  - destruct (net.isnil (Target conf)); [discriminate|].
    destruct (20 <? tick + 1); [discriminate|].
    apply IH; assumption.
Qed.

(** [WaitForState] never runs out of fuel, whatever the refresh function
    does: the fuel covers every refresh that fits before the deadline. *)
Lemma WaitForState_enough_fuel (conf : StateChangeConf) (h : History) :
  WaitForState_loop (WaitForState_fuel conf) conf (Z.max 0 (Delay conf))
    0 0 "" h <> None.
Proof.
  unfold WaitForState_fuel.
  replace (Z.to_nat (Timeout conf / (200 * Millisecond)) + 3)%nat
    with (S (Z.to_nat (Timeout conf / (200 * Millisecond)) + 2))%nat by lia.
  set (fuel := (Z.to_nat (Timeout conf / (200 * Millisecond)) + 2)%nat).
  cbn [WaitForState_loop].
  destruct (Timeout conf <=? Z.max 0 (Delay conf) + 0) eqn:Ht;
    [discriminate|].
  apply Z.leb_gt in Ht.
  change (0 =? 0) with true. cbv iota.
  assert (Hnext : 200 * Millisecond
                  <= next_wait conf (100 * Millisecond)).
  { apply next_wait_lower. lia. }
  assert (Hrem : Timeout conf - (Z.max 0 (Delay conf) + 0)
                 < Z.of_nat fuel * (200 * Millisecond)).
  { subst fuel. unfold Millisecond in *.
    assert (0 < Timeout conf) by lia.
    pose proof (Z.mod_pos_bound (Timeout conf) (200 * 1000000) ltac:(lia)).
    pose proof (Z.div_mod (Timeout conf) (200 * 1000000) ltac:(lia)).
    assert (0 <= Timeout conf / (200 * 1000000))
      by (apply Z.div_pos; lia).
    rewrite Nat2Z.inj_add, Z2Nat.id by lia. lia. }
  assert (Hfuel : (0 < fuel)%nat) by (subst fuel; lia).
  destruct (Refresh conf _) as [[[[res st] err]|msg] h']; [|discriminate].
  destruct res, err; try discriminate.
  - destruct (isin st (Target conf)); [discriminate|].
    destruct (isin st (Pending conf) || net.isnil (Pending conf));
      [|discriminate].
    apply WaitForState_loop_fuel; assumption.
  - destruct (net.isnil (Target conf)); [discriminate|].
    destruct (20 <? 0 + 1); [discriminate|].
    apply WaitForState_loop_fuel; assumption.
Qed.

(** ** Definition builder: modes *)

Lemma eqb_false_of_neq (a b : string) : a <> b -> String.eqb a b = false.
Proof. intros H. apply String.eqb_neq. exact H. Qed.



(** C7.  In bridge mode an empty bridge name makes the build fail with the
    missing-bridge error; with a bridge name the build succeeds whatever
    the addresses and the DHCP switch hold, the definition has no forward
    block, and its address blocks and DNS block are those of the initial
    definition: no address is planned and no DHCP range computed. *)
Theorem bridge_mode_build (newNetworkDef : Network) (d : ResourceData) :
  ToLower (Get_mode d) = netModeBridge ->
  (rd_bridge d = "" ->
   buildNetworkDef newNetworkDef d
   = Ret (None,
          Some (ErrorString
                  "'bridge' must be provided when using the bridged network mode")))
  /\ (rd_bridge d <> "" ->
      exists networkDef,
        buildNetworkDef newNetworkDef d = Ret (Some networkDef, None)
        /\ Forward networkDef = None
        /\ IPs networkDef = IPs newNetworkDef
        /\ DNS networkDef = DNS newNetworkDef
        /\ Bridge networkDef
           = Some {| BridgeName := rd_bridge d; STP := "on" |}).
Proof.
  intros Hmode. unfold buildNetworkDef. rewrite Hmode.
  change (String.eqb netModeBridge netModeIsolated) with false.
  change (String.eqb netModeBridge netModeNat) with false.
  change (String.eqb netModeBridge netModeRoute) with false.
  change (String.eqb netModeBridge netModeBridge) with true.
  cbn [orb]. cbv iota.
  unfold GetOk_string.
  split.
  - intros He. rewrite He. cbn. reflexivity.
  - intros Hne. rewrite (eqb_false_of_neq _ _ Hne). cbn [negb].
    rewrite (eqb_false_of_neq _ _ Hne).
    eexists. split; [reflexivity|].
    destruct (negb (rd_domain d =? "")%string); cbn; auto.
Qed.

Lemma bridge_mode_build_witness :
  ToLower (Get_mode bridged) = netModeBridge
  /\ exists networkDef,
       buildNetworkDef default_def bridged = Ret (Some networkDef, None)
       /\ Forward networkDef = None
       /\ IPs networkDef = IPs default_def
       /\ DNS networkDef = DNS default_def
       /\ Bridge networkDef
          = Some {| BridgeName := rd_bridge bridged; STP := "on" |}.
Proof.
  split; [reflexivity|].
  apply (proj2 (bridge_mode_build default_def bridged eq_refl)).
  discriminate.
Defined.


(** ** Definition builder: DHCP per address entry *)

(** The planner returns the interface entry without a DHCP block and the
    DHCP block apart. *)
Lemma setNetworkIP_dhcp (address : string) (dni : NetworkIP)
    (dhcp : option NetworkDHCP) :
  setNetworkIP address = Ret (Some dni, dhcp, None) ->
  DHCP dni = None /\ dhcp <> None.
Proof.
  unfold setNetworkIP. intros H.
  repeat case_match; try discriminate;
    injection H as <- <-; (split; [reflexivity|discriminate]).
Qed.

Definition dhcp_follows_switch (d : ResourceData) (i : NetworkIP) : Prop :=
  DHCP i <> None <-> Get_dhcp_enabled d = true.

Lemma setDhcp_loop_spec (d : ResourceData) (addresses : list string) :
  forall acc res,
    setDhcp_loop d addresses acc = Ret (res, None) ->
    Forall (dhcp_follows_switch d) acc ->
    Forall (dhcp_follows_switch d) res
    /\ length res = (length acc + length addresses)%nat.
Proof.
  induction addresses as [|a rest IH]; intros acc res H Hacc.
  - cbn in H. injection H as <-. split; [exact Hacc|]. cbn. lia.
  - cbn [setDhcp_loop] in H.
    destruct (setNetworkIP a) as [[[dni dhcp] err]|msg] eqn:Hs;
      [|discriminate].
    destruct dni as [dni|], err; try discriminate.
    apply setNetworkIP_dhcp in Hs as [Hnone Hsome].
    apply IH in H.
    + destruct H as [HF Hlen]. split; [exact HF|].
      rewrite Hlen, length_app. cbn. lia.
    + apply Forall_app. split; [exact Hacc|].
      constructor; [|constructor].
      unfold dhcp_follows_switch.
      destruct (Get_dhcp_enabled d); cbn.
      * split; [reflexivity|]. intros _. exact Hsome.
      * split; [intros Hc; exfalso; apply Hc; reflexivity|discriminate].
Qed.

(** C6.  When the address list is not empty and every entry is planned,
    the definition gets one address block per entry, and a block carries a
    DHCP range exactly when the DHCP switch [dhcp.0.enabled] reads true;
    the switch reads true when it is left unset; when it reads false every
    block has its DHCP field nil. *)
Theorem dhcp_iff_enabled (d : ResourceData) (networkDef networkDef' : Network) :
  rd_addresses d <> [] ->
  setDhcpByCIDRAdressesSubnets d networkDef = Ret (networkDef', None) ->
  length (IPs networkDef') = length (rd_addresses d)
  /\ Forall (fun i => DHCP i <> None <-> Get_dhcp_enabled d = true)
            (IPs networkDef')
  /\ (rd_dhcp_enabled d = None -> Get_dhcp_enabled d = true)
  /\ (Get_dhcp_enabled d = false ->
      Forall (fun i => DHCP i = None) (IPs networkDef')).
Proof.
  intros Hne H. unfold setDhcpByCIDRAdressesSubnets, GetOk_list in H.
  destruct (rd_addresses d) as [|a rest] eqn:Ha; [contradiction|].
  cbn [net.isnil negb] in H.
  destruct (setDhcp_loop d (a :: rest) []) as [[res err]|msg] eqn:Hl;
    [|discriminate].
  destruct err; [discriminate|].
  injection H as <-.
  apply setDhcp_loop_spec in Hl as [HF Hlen]; [|constructor].
  cbn [IPs with_IPs].
  split; [rewrite Hlen; reflexivity|].
  split; [exact HF|].
  split.
  - intros Hu. unfold Get_dhcp_enabled. rewrite Hu. reflexivity.
  - intros Hoff. eapply Forall_impl; [exact HF|].
    intros i Hi. unfold dhcp_follows_switch in Hi.
    destruct (DHCP i); [|reflexivity].
    assert (Get_dhcp_enabled d = true) by (apply Hi; discriminate).
    congruence.
Qed.

Lemma dhcp_iff_enabled_witness :
  (Forall (fun i => DHCP i <> None <-> Get_dhcp_enabled isolated = true)
     [ {| Address := "10.17.3.1"; Family := "ipv4"; Prefix := 24;
          DHCP := Some {| Ranges := [ {| Start := "10.17.3.2";
                                         End := "10.17.3.254" |} ] |} |} ])
  /\ (Forall (fun i => DHCP i = None)
        [ {| Address := "10.17.3.1"; Family := "ipv4"; Prefix := 24;
             DHCP := None |} ]).
Proof.
  split.
  - exact (proj1 (proj2 (dhcp_iff_enabled isolated default_def _
                           ltac:(discriminate) eq_refl))).
  - exact (proj2 (proj2 (proj2 (dhcp_iff_enabled isolated_no_dhcp default_def
                                  _ ltac:(discriminate) eq_refl)))
             eq_refl).
Defined.

(** C8.  In the isolated mode (the mode string "none") a successful build
    has no forward block, and its address blocks are the ones the planner
    produces over the address list; such a definition can carry DHCP
    ranges, as the build of a network with one IPv4 block shows. *)
Theorem isolated_mode_build (newNetworkDef : Network) (d : ResourceData)
    (networkDef : Network) :
  ToLower (Get_mode d) = netModeIsolated ->
  buildNetworkDef newNetworkDef d = Ret (Some networkDef, None) ->
  Forward networkDef = None
  /\ (rd_addresses d <> [] ->
      setDhcp_loop d (rd_addresses d) [] = Ret (IPs networkDef, None))
  /\ (exists d' networkDef',
        ToLower (Get_mode d') = netModeIsolated
        /\ buildNetworkDef newNetworkDef d' = Ret (Some networkDef', None)
        /\ Forward networkDef' = None
        /\ Exists (fun i => DHCP i <> None) (IPs networkDef')).
Proof.
  intros Hmode H. unfold buildNetworkDef in H. rewrite Hmode in H.
  change (String.eqb netModeIsolated netModeIsolated) with true in H.
  cbn [orb] in H. cbv iota in H.
  unfold setDhcpByCIDRAdressesSubnets, GetOk_list in H.
  repeat split.
  - destruct (GetOk_string (rd_domain d)) as [dom [|]];
      destruct (rd_addresses d) as [|a rest]; cbn [net.isnil negb] in H;
      repeat case_match; simplify_eq; reflexivity.
  - intros Hne.
    destruct (rd_addresses d) as [|a rest]; [contradiction|].
    cbn [net.isnil negb] in H.
    destruct (setDhcp_loop d (a :: rest) []) as [[res err]|msg];
      [|discriminate].
    destruct err; [discriminate|].
    destruct (GetOk_string (rd_domain d)) as [dom [|]];
      repeat case_match; simplify_eq; reflexivity.
  - exists isolated. eexists.
    split; [reflexivity|].
    split; [vm_compute; reflexivity|].
    split; [reflexivity|].
    apply Exists_cons_hd. discriminate.
Qed.

Lemma isolated_mode_build_witness :
  exists networkDef,
    buildNetworkDef default_def isolated = Ret (Some networkDef, None)
    /\ Forward networkDef = None
    /\ setDhcp_loop isolated (rd_addresses isolated) []
       = Ret (IPs networkDef, None).
Proof.
  eexists. split; [vm_compute; reflexivity|].
  pose proof (isolated_mode_build default_def isolated _ eq_refl eq_refl)
    as (Hf & Hips & _).
  split; [exact Hf|].
  apply Hips. discriminate.
Defined.

(** ** Polling: what ends a wait *)

Lemma WaitForState_fuel_S (conf : StateChangeConf) :
  exists fuel, WaitForState_fuel conf = S fuel.
Proof.
  unfold WaitForState_fuel. eexists.
  rewrite Nat.add_succ_r. reflexivity.
Qed.

(** The first refresh of a wait happens right after the initial delay; a
    refresh that returns an error ends the wait with that error. *)
Lemma WaitForState_first_error (conf : StateChangeConf) (h h' : History)
    (res : option refreshed) (st : string) (e : error_value) :
  0 < Delay conf < Timeout conf ->
  Refresh conf (h ++ [CSleep (Delay conf)]) = (Ret (res, st, Some e), h') ->
  WaitForState conf h = (Ret (res, Some e), h').
Proof.
  intros Hd Hr. unfold WaitForState, slept.
  destruct (WaitForState_fuel_S conf) as [fuel ->].
  cbn [WaitForState_loop].
  replace (0 <? Delay conf) with true by lia.
  replace (Timeout conf <=? Z.max 0 (Delay conf) + 0) with false by lia.
  unfold slept. change (0 <? 0) with false. cbv iota.
  rewrite Hr. destruct res; reflexivity.
Qed.

(** A first refresh that panics makes the wait panic. *)
Lemma WaitForState_first_panic (conf : StateChangeConf) (h h' : History)
    (msg : string) :
  0 < Delay conf < Timeout conf ->
  Refresh conf (h ++ [CSleep (Delay conf)]) = (Panic msg, h') ->
  WaitForState conf h = (Panic msg, h').
Proof.
  intros Hd Hr. unfold WaitForState, slept.
  destruct (WaitForState_fuel_S conf) as [fuel ->].
  cbn [WaitForState_loop].
  replace (0 <? Delay conf) with true by lia.
  replace (Timeout conf <=? Z.max 0 (Delay conf) + 0) with false by lia.
  unfold slept. change (0 <? 0) with false. cbv iota.
  rewrite Hr. reflexivity.
Qed.

(** A first refresh that reports a target state ends the wait with
    success. *)
Lemma WaitForState_first_target (conf : StateChangeConf) (h h' : History)
    (res : refreshed) (st : string) :
  0 < Delay conf < Timeout conf ->
  Refresh conf (h ++ [CSleep (Delay conf)]) = (Ret (Some res, st, None), h') ->
  isin st (Target conf) = true ->
  WaitForState conf h = (Ret (Some res, None), h').
Proof.
  intros Hd Hr Ht. unfold WaitForState, slept.
  destruct (WaitForState_fuel_S conf) as [fuel ->].
  cbn [WaitForState_loop].
  replace (0 <? Delay conf) with true by lia.
  replace (Timeout conf <=? Z.max 0 (Delay conf) + 0) with false by lia.
  unfold slept. change (0 <? 0) with false. cbv iota.
  rewrite Hr, Ht. reflexivity.
Qed.

(** The refresh function of the delete wait when the lookup finds the
    network: the unguarded type assertion on the nil error panics. *)
Lemma waitForNetworkDestroyed_nil_error (virConn : Service) (uuid : string)
    (h : History) (network : option Handle) :
  LookupNetworkByUUIDString virConn h uuid = (network, None) ->
  waitForNetworkDestroyed virConn uuid h
  = (Panic "interface conversion: error is nil, not libvirt.Error",
     h ++ [CLookupNetworkByUUIDString uuid]).
Proof.
  intros Hl. unfold waitForNetworkDestroyed, bind, call.
  rewrite Hl. reflexivity.
Qed.

(** C10.  When the lookup by UUID succeeds (the network still exists, the
    error is nil), the refresh function of the delete wait does not report
    the state "ACTIVE": its type assertion on the error panics right after
    the lookup, and so does a wait whose first refresh meets that
    answer. *)
Theorem waitForNetworkDestroyed_panics_when_found (virConn : Service)
    (uuid : string) (h : History) (network : option Handle) :
  LookupNetworkByUUIDString virConn h uuid = (network, None) ->
  waitForNetworkDestroyed virConn uuid h
  = (Panic "interface conversion: error is nil, not libvirt.Error",
     h ++ [CLookupNetworkByUUIDString uuid])
  /\ (forall h0, h = h0 ++ [CSleep (5 * Second)] ->
      WaitForState (stateConf_Delete virConn uuid) h0
      = (Panic "interface conversion: error is nil, not libvirt.Error",
         h ++ [CLookupNetworkByUUIDString uuid])).
Proof.
  intros Hl.
  pose proof (waitForNetworkDestroyed_nil_error virConn uuid h network Hl)
    as Hp.
  split; [exact Hp|].
  intros h0 ->.
  apply WaitForState_first_panic; [split; reflexivity|exact Hp].
Qed.

Lemma waitForNetworkDestroyed_panics_when_found_witness :
  LookupNetworkByUUIDString (sim true false default_def)
    [CSleep (5 * Second)] "5a1b" = (Some 1, None)
  /\ WaitForState (stateConf_Delete (sim true false default_def) "5a1b") []
     = (Panic "interface conversion: error is nil, not libvirt.Error",
        [CSleep (5 * Second); CLookupNetworkByUUIDString "5a1b"]).
Proof.
  split; [reflexivity|].
  exact (proj2 (waitForNetworkDestroyed_panics_when_found
                  (sim true false default_def) "5a1b"
                  [CSleep (5 * Second)] (Some 1) eq_refl) [] eq_refl).
Defined.






(** ** Delete *)

(** C5.  Deleting a network that the lookup finds and [IsActive] reports
    inactive is no error: the calls are, in this order, the lookup, the
    activity check, [Create] (the reactivation), [Destroy], [Undefine],
    then the wait that polls the lookup by UUID after an initial delay of
    5 s, with a minimum interval of 3 s and a deadline of 60 s; when the
    poll reports "not found" the deletion returns without error. *)
Theorem delete_inactive_network (LibVirtConIsNil : string)
    (d : ResourceData) (virConn : Service) (n : Handle) (h : History)
    (gone : option Handle) (e : libvirt.Error) :
  let uuid := Id d in
  let h1 := h ++ [CLookupNetworkByUUIDString uuid] in
  let h2 := h1 ++ [CIsActive n] in
  let h3 := h2 ++ [CCreate n] in
  let h4 := h3 ++ [CDestroy n] in
  let h5 := h4 ++ [CUndefine n] in
  let h6 := h5 ++ [CSleep (5 * Second)] in
  LookupNetworkByUUIDString virConn h uuid = (Some n, None) ->
  IsActive virConn h1 n = (false, None) ->
  Create virConn h2 n = None ->
  Destroy virConn h3 n = None ->
  Undefine virConn h4 n = None ->
  LookupNetworkByUUIDString virConn h6 uuid = (gone, Some (ErrLibvirt e)) ->
  libvirt.Code e = libvirt.ERR_NO_NETWORK ->
  resourceLibvirtNetworkDelete LibVirtConIsNil d
    {| libvirt_conn := Some virConn |} h
  = (Ret None, h6 ++ [CLookupNetworkByUUIDString uuid; CFree n])
  /\ Refresh (stateConf_Delete virConn uuid)
     = waitForNetworkDestroyed virConn uuid
  /\ Delay (stateConf_Delete virConn uuid) = 5 * Second
  /\ MinTimeout (stateConf_Delete virConn uuid) = 3 * Second
  /\ Timeout (stateConf_Delete virConn uuid) = 60 * Second.
Proof.
  intros uuid h1 h2 h3 h4 h5 h6 Hl Ha Hc Hd Hu Hg Hcode.
  split; [|repeat split].
  assert (Hw : WaitForState (stateConf_Delete virConn uuid) h5
               = (Ret (Some RConnect, None),
                  h6 ++ [CLookupNetworkByUUIDString uuid])).
  { apply WaitForState_first_target with (st := "NOT-EXISTS");
      [split; reflexivity| |reflexivity].
    cbn [Refresh stateConf_Delete Delay].
    unfold waitForNetworkDestroyed, bind, call.
    fold h6. rewrite Hg. cbn [assert_libvirt_Error ret].
    rewrite Hcode, Z.eqb_refl. reflexivity. }
  unfold resourceLibvirtNetworkDelete. cbn [libvirt_conn].
  unfold bind at 1. unfold call at 1. fold uuid. rewrite Hl.
  unfold defer_Free, method, bind, call, ret. cbn [negb].
  fold h1. rewrite Ha. cbn [negb]. fold h2. rewrite Hc.
  fold h3. rewrite Hd. fold h4. rewrite Hu. fold h5.
  rewrite Hw. rewrite <- app_assoc. reflexivity.
Qed.

Lemma delete_inactive_network_witness :
  resourceLibvirtNetworkDelete "no connection" k8snet_created
    (sim_client true false default_def) []
  = (Ret None,
     [CLookupNetworkByUUIDString "5a1b"; CIsActive 1; CCreate 1; CDestroy 1;
      CUndefine 1; CSleep (5 * Second); CLookupNetworkByUUIDString "5a1b";
      CFree 1]).
Proof.
  exact (proj1 (delete_inactive_network "no connection" k8snet_created
                  (sim true false default_def) 1 [] None
                  {| libvirt.Code := libvirt.ERR_NO_NETWORK;
                     libvirt.Domain := 19;
                     libvirt.Message := "Network not found" |}
                  eq_refl eq_refl eq_refl eq_refl eq_refl eq_refl eq_refl)).
Defined.

(** ** Facts about the [net] package *)

Lemma upto_forallb (k : nat) (P : Z -> bool) :
  forallb P (upto k) = true ->
  forall n, 0 <= n < Z.of_nat k -> P n = true.
Proof.
  intros H n Hn. rewrite forallb_forall in H. apply H.
  unfold upto. apply in_map_iff. exists (Z.to_nat n).
  split; [lia|]. apply in_seq. lia.
Qed.

Lemma forall_from_spec (P : Z -> bool) (count : nat) :
  forall start,
    forall_from P start count = true ->
    forall n, start <= n < start + Z.of_nat count -> P n = true.
Proof.
  induction count as [|count IH]; intros start H n Hn; [lia|].
  cbn [forall_from] in H. apply andb_true_iff in H as [H0 H].
  destruct (Z.eq_dec n start) as [->|Hne]; [exact H0|].
  apply (IH (start + 1) H). lia.
Qed.

Lemma forall_below_spec (P : Z -> bool) (k : Z) :
  forall_below P k = true -> forall n, 0 <= n < k -> P n = true.
Proof.
  intros H n Hn. apply (forall_from_spec P (Z.to_nat k) 0 H). lia.
Qed.

(** The mask [CIDRMask] builds has the size it was built with. *)
Lemma CIDRMask_Size (n bits : Z) :
  bits = 32 \/ bits = 128 -> 0 <= n <= bits ->
  net.Size (net.CIDRMask n bits) = (n, bits).
Proof.
  intros Hb Hn.
  assert (H32 : forallb (fun n => bool_decide
                   (net.Size (net.CIDRMask n 32) = (n, 32))) (upto 33) = true)
    by (vm_compute; reflexivity).
  assert (H128 : forallb (fun n => bool_decide
                   (net.Size (net.CIDRMask n 128) = (n, 128))) (upto 129)
                 = true)
    by (vm_compute; reflexivity).
  destruct Hb as [-> | ->].
  - assert (Hn' : 0 <= n < Z.of_nat 33) by lia.
    apply (upto_forallb _ _ H32 n) in Hn'.
    apply bool_decide_eq_true in Hn'. exact Hn'.
  - assert (Hn' : 0 <= n < Z.of_nat 129) by lia.
    apply (upto_forallb _ _ H128 n) in Hn'.
    apply bool_decide_eq_true in Hn'. exact Hn'.
Qed.

Lemma parseIPv4_shape (s : string) :
  net.parseIPv4 s = [] \/ exists a b c d, net.parseIPv4 s = net.IPv4 a b c d.
Proof.
  unfold net.parseIPv4.
  destruct (net.parseIPv4_loop 4 0 s []) as [[|a [|b [|c [|d [|? ?]]]]]|];
    auto.
  right. eauto.
Qed.

(** What the loop of [parseIPv6] keeps: the address stays 16 bytes long,
    and the ellipsis lies at or before the write position. *)
Lemma parseIPv6_loop_inv (fuel : nat) :
  forall p i ellipsis s p' i' ellipsis' s',
    net.parseIPv6_loop fuel p i ellipsis s = Some (p', i', ellipsis', s') ->
    length p = 16%nat -> 0 <= i -> ellipsis <= i ->
    length p' = 16%nat /\ 0 <= i' /\ ellipsis' <= i'.
Proof.
  induction fuel as [|fuel IH]; intros p i ellipsis s p' i' ellipsis' s' H
    Hlen Hi He.
  - cbn in H. simplify_eq. auto.
  - cbn [net.parseIPv6_loop] in H. unfold net.store, net.IPv6len, net.IPv4len in *.
    repeat case_match; simplify_eq;
      try (repeat split; rewrite ?length_insert; auto; lia);
      try (eapply IH in H; [exact H| rewrite ?length_insert; auto | lia | lia]).
Qed.

Lemma parseIPv6_length (s : string) :
  net.parseIPv6 s = [] \/ length (net.parseIPv6 s) = 16%nat.
Proof.
  unfold net.parseIPv6.
  repeat case_match; auto.
  all: match goal with
       | H : net.parseIPv6_loop _ _ _ _ _ = Some _ |- _ =>
           apply parseIPv6_loop_inv in H;
           [destruct H as (Hl & Hi & He) | reflexivity | lia | lia]
       end.
  all: right; try assumption.
  all: unfold net.expand_ellipsis, net.IPv6len in *;
    rewrite !length_app, length_take, length_replicate, length_take,
      length_drop; lia.
Qed.

Lemma CIDRMask_loop_length (l : nat) :
  forall n, length (net.CIDRMask_loop l n) = l.
Proof.
  induction l as [|l IH]; intros n; [reflexivity|].
  cbn [net.CIDRMask_loop]. case_match; cbn; rewrite IH; reflexivity.
Qed.

Lemma CIDRMask_length (n bits : Z) :
  bits = 32 \/ bits = 128 -> 0 <= n <= bits ->
  net.CIDRMask n bits = net.CIDRMask_loop (Z.to_nat (bits / 8)) n
  /\ length (net.CIDRMask n bits) = Z.to_nat (bits / 8).
Proof.
  intros Hb Hn. unfold net.CIDRMask, net.IPv4len, net.IPv6len.
  replace (negb (bits =? 8 * 4) && negb (bits =? 8 * 16)) with false
    by (destruct Hb as [-> | ->]; reflexivity).
  replace ((n <? 0) || (bits <? n)) with false by lia.
  split; [reflexivity|]. apply CIDRMask_loop_length.
Qed.

(** Masking where address and mask have the same length is the bytewise
    and. *)
Lemma Mask_same_length (x : net.IP) (m : net.IPMask) :
  length x = length m ->
  net.Mask x m = zip_with Z.land x m.
Proof.
  intros Hl. unfold net.Mask, net.IPv4len, net.IPv6len.
  assert (H1 : (Z.of_nat (length m) =? 16) && (Z.of_nat (length x) =? 4)
               = false) by lia.
  rewrite H1. cbn [andb].
  assert (H2 : (Z.of_nat (length m) =? 4) && (Z.of_nat (length x) =? 16)
               = false) by lia.
  rewrite H2. cbn [andb].
  rewrite Hl, Nat.eqb_refl. reflexivity.
Qed.

(** Masking the 16-byte form of an IPv4 address with a 4-byte mask. *)
Lemma Mask_IPv4 (a b c d : Z) (m : net.IPMask) :
  length m = 4%nat ->
  net.Mask (net.IPv4 a b c d) m = zip_with Z.land [a; b; c; d] m.
Proof.
  intros Hl.
  destruct m as [|m0 [|m1 [|m2 [|m3 [|]]]]]; try discriminate Hl.
  reflexivity.
Qed.

(** What a successful [ParseCIDR] returns: a mask built by [CIDRMask] for
    32 or 128 bits, and as network the bytewise and of that mask with the
    address, taken in its 4-byte form for a dotted quad. *)
Lemma ParseCIDR_inv (s : string) (ip : net.IP) (ipNet : net.IPNet) :
  net.ParseCIDR s = (ip, Some ipNet, None) ->
  exists n bits y,
    (bits = 32 \/ bits = 128)
    /\ 0 <= n <= bits
    /\ net.net_Mask ipNet = net.CIDRMask n bits
    /\ net.net_IP ipNet = zip_with Z.land y (net.CIDRMask n bits)
    /\ length y = Z.to_nat (bits / 8)
    /\ (bits = 128 -> y = ip).
Proof.
  unfold net.ParseCIDR. intros H.
  destruct (net.split_slash s) as [[addr mask]|]; [|discriminate].
  cbv zeta in H.
  destruct (net.dtoi mask) as [[n i] ok].
  destruct (net.isnil (net.parseIPv4 addr)) eqn:Hnil4.
  - (* not a dotted quad: IPv6 *)
    unfold net.IPv6len in H.
    destruct (net.isnil (net.parseIPv6 addr) || negb ok
              || negb (i =? len mask) || (n <? 0) || (8 * 16 <? n))
      eqn:Hc; [discriminate|].
    simplify_eq. cbn [net.net_IP net.net_Mask].
    repeat (apply orb_false_iff in Hc as [Hc ?]).
    assert (Hn : 0 <= n <= 128) by lia.
    destruct (parseIPv6_length addr) as [He|Hl];
      [rewrite He in Hc; discriminate|].
    destruct (CIDRMask_length n 128 (or_intror eq_refl) Hn) as [_ Hml].
    exists n, 128, (net.parseIPv6 addr).
    repeat split; auto; try lia.
    apply Mask_same_length. rewrite Hl, Hml. reflexivity.
  - (* a dotted quad *)
    unfold net.IPv4len in H.
    destruct (net.isnil (net.parseIPv4 addr) || negb ok
              || negb (i =? len mask) || (n <? 0) || (8 * 4 <? n))
      eqn:Hc; [discriminate|].
    simplify_eq. cbn [net.net_IP net.net_Mask].
    repeat (apply orb_false_iff in Hc as [Hc ?]).
    assert (Hn : 0 <= n <= 32) by lia.
    destruct (parseIPv4_shape addr) as [He|(a & b & c & d & He)];
      [rewrite He in Hnil4; discriminate|].
    destruct (CIDRMask_length n 32 (or_introl eq_refl) Hn) as [_ Hml].
    exists n, 32, [a; b; c; d].
    repeat split; auto; try lia.
    rewrite He. apply Mask_IPv4. exact Hml.
Qed.

(** ** Arithmetic of the planner *)

Lemma ip_value_acc (p : net.IP) :
  forall acc,
    fold_left (fun acc b => acc * 256 + b) p acc
    = acc * 256 ^ Z.of_nat (length p) + ip_value p.
Proof.
  unfold ip_value.
  induction p as [|x p IH]; intros acc.
  - cbn. lia.
  - cbn [fold_left length]. rewrite IH, (IH (0 * 256 + x)).
    rewrite Nat2Z.inj_succ, Z.pow_succ_r by lia. lia.
Qed.

Lemma ip_value_cons (x : Z) (p : net.IP) :
  ip_value (x :: p) = x * 256 ^ Z.of_nat (length p) + ip_value p.
Proof.
  unfold ip_value at 1. cbn [fold_left]. rewrite ip_value_acc. lia.
Qed.

Lemma ip_value_snoc (p : net.IP) (x : Z) :
  ip_value (p ++ [x]) = ip_value p * 256 + x.
Proof.
  unfold ip_value. rewrite fold_left_app. reflexivity.
Qed.

(** A byte of an address under a byte of a mask: the result is at most the
    mask byte, and or-ing the complement of the mask byte adds it. *)
Lemma byte_mask_facts (y m : Z) :
  0 <= m <= 255 ->
  0 <= Z.land y m <= m
  /\ Z.lor (Z.land y m) (255 - m) = Z.land y m + (255 - m)
  /\ (Z.land m 1 = 0 -> Z.land y m <= 254)
  /\ (Z.land m 3 = 0 -> Z.land y m <= 252).
Proof.
  intros Hm.
  assert (Hall :
    forallb (fun v => forallb (fun m =>
      (0 <=? Z.land v m) && (Z.land v m <=? m)
      && (Z.lor (Z.land v m) (255 - m) =? Z.land v m + (255 - m))
      && ((negb (Z.land m 1 =? 0)) || (Z.land v m <=? 254))
      && ((negb (Z.land m 3 =? 0)) || (Z.land v m <=? 252)))
      (upto 256)) (upto 256) = true) by (vm_compute; reflexivity).
  assert (Hy : Z.land y m = Z.land (y mod 256) m).
  { change 256 with (2 ^ 8). rewrite <- Z.land_ones by lia.
    rewrite <- Z.land_assoc. f_equal.
    rewrite Z.land_comm, Z.land_ones by lia.
    symmetry. apply Z.mod_small. lia. }
  rewrite Hy.
  pose proof (Z.mod_pos_bound y 256 ltac:(lia)) as Hv.
  pose proof (upto_forallb 256 _ Hall (y mod 256) ltac:(lia)) as H1.
  cbv beta in H1.
  pose proof (upto_forallb 256 _ H1 m ltac:(lia)) as H2.
  cbv beta in H2.
  repeat (apply andb_true_iff in H2 as [H2 ?]).
  repeat split; try lia.
Qed.

Lemma CIDRMask_loop_S (l : nat) (n : Z) :
  net.CIDRMask_loop (S l) n
  = if 8 <=? n then 255 :: net.CIDRMask_loop l (n - 8)
    else (255 - Z.shiftr 255 n) :: net.CIDRMask_loop l 0.
Proof. reflexivity. Qed.

(** The last byte of a mask with at least one host bit is even, and a
    multiple of four with at least two host bits. *)
Lemma CIDRMask_loop_last (l : nat) :
  forall n, 0 <= n ->
    exists m' ml,
      net.CIDRMask_loop (S l) n = m' ++ [ml]
      /\ length m' = l
      /\ 0 <= ml <= 255
      /\ (n < 8 * Z.of_nat (S l) -> Z.land ml 1 = 0)
      /\ (n <= 8 * Z.of_nat (S l) - 2 -> Z.land ml 3 = 0).
Proof.
  induction l as [|l IH]; intros n Hn.
  - exists [].
    cbn [net.CIDRMask_loop]. destruct (8 <=? n) eqn:H8.
    + exists 255. repeat split; try lia.
    + exists (255 - Z.shiftr 255 n).
      assert (Hc : n = 0 \/ n = 1 \/ n = 2 \/ n = 3 \/ n = 4 \/ n = 5
                   \/ n = 6 \/ n = 7) by lia.
      repeat (destruct Hc as [-> | Hc]); try subst n;
        vm_compute; (repeat split); intros; try discriminate;
        try reflexivity;
        match goal with
        | H : _ = _ -> False |- _ => exfalso; apply H; reflexivity
        end.
  - rewrite (CIDRMask_loop_S (S l)). destruct (8 <=? n) eqn:H8.
    + destruct (IH (n - 8) ltac:(lia)) as (m' & ml & He & Hl & Hr & H1 & H3).
      exists (255 :: m'), ml. rewrite He.
      split; [reflexivity|]. split; [cbn [length]; lia|]. split; [lia|].
      split; intros; [apply H1|apply H3]; lia.
    + destruct (IH 0 ltac:(lia)) as (m' & ml & He & Hl & Hr & H1 & H3).
      exists ((255 - Z.shiftr 255 n) :: m'), ml. rewrite He.
      split; [reflexivity|]. split; [cbn [length]; lia|]. split; [lia|].
      split; intros; [apply H1|apply H3]; lia.
Qed.

Lemma CIDRMask_head_range (n : Z) :
  0 <= n -> (8 <=? n) = false ->
  0 <= 255 - Z.shiftr 255 n <= 255
  /\ 255 - (255 - Z.shiftr 255 n) = 2 ^ (8 - n) - 1.
Proof.
  intros Hn H8.
  assert (Hc : n = 0 \/ n = 1 \/ n = 2 \/ n = 3 \/ n = 4 \/ n = 5
               \/ n = 6 \/ n = 7) by lia.
  repeat (destruct Hc as [-> | Hc]); try subst n; vm_compute;
    repeat split; discriminate.
Qed.

Lemma zip_land_idem (y : list Z) :
  forall m, zip_with Z.land (zip_with Z.land y m) m = zip_with Z.land y m.
Proof.
  induction y as [|y0 y IH]; intros [|m0 m]; cbn; try reflexivity.
  rewrite IH. f_equal.
  rewrite <- Z.land_assoc, Z.land_diag. reflexivity.
Qed.

(** The address with every host bit set lies [2^(bits - ones) - 1] above
    the network address. *)
Lemma broadcast_value (l : nat) :
  forall n y,
    length y = l -> 0 <= n <= 8 * Z.of_nat l ->
    let m := net.CIDRMask_loop l n in
    let network := zip_with Z.land y m in
    ip_value (zip_with (fun b m => Z.lor b (255 - m)) network m)
    = ip_value network + 2 ^ (8 * Z.of_nat l - n) - 1.
Proof.
  induction l as [|l IH]; intros n y Hl Hn; cbv zeta.
  - destruct y; [|discriminate]. replace n with 0 by lia. reflexivity.
  - destruct y as [|y0 y]; [discriminate|].
    injection Hl as Hl.
    rewrite CIDRMask_loop_S. destruct (8 <=? n) eqn:H8.
    + specialize (IH (n - 8) y Hl ltac:(lia)). cbv zeta in IH.
      cbn [zip_with]. rewrite !ip_value_cons, IH.
      rewrite !length_zip_with, CIDRMask_loop_length, Hl, !Nat.min_id.
      replace (255 - 255) with 0 by lia. rewrite Z.lor_0_r.
      replace (8 * Z.of_nat (S l) - n) with (8 * Z.of_nat l - (n - 8))
        by lia.
      lia.
    + specialize (IH 0 y Hl ltac:(lia)). cbv zeta in IH.
      destruct (CIDRMask_head_range n ltac:(lia) H8) as [Hr Hc].
      destruct (byte_mask_facts y0 _ Hr) as (_ & Hor & _).
      cbn [zip_with]. rewrite !ip_value_cons, IH, Hor, Hc.
      rewrite !length_zip_with, CIDRMask_loop_length, Hl, !Nat.min_id.
      rewrite Z.sub_0_r.
      replace (8 * Z.of_nat (S l) - n) with (8 * Z.of_nat l + (8 - n))
        by lia.
      rewrite Z.pow_add_r by lia.
      replace (256 ^ Z.of_nat l) with (2 ^ (8 * Z.of_nat l))
        by (rewrite Z.pow_mul_r by lia; reflexivity).
      lia.
Qed.

Lemma zip_with_snoc {A B C} (f : A -> B -> C) (x : list A) (y : list B)
    (a : A) (b : B) :
  length x = length y ->
  zip_with f (x ++ [a]) (y ++ [b]) = zip_with f x y ++ [f a b].
Proof.
  revert y. induction x as [|x0 x IH]; intros [|y0 y] Hl;
    try discriminate; [reflexivity|].
  cbn. rewrite IH; [reflexivity|]. injection Hl as Hl. exact Hl.
Qed.

Lemma list_snoc_of_length {A} (y : list A) (l : nat) :
  length y = S l -> exists y' yl, y = y' ++ [yl] /\ length y' = l.
Proof.
  intros Hl. destruct (exists_last (l := y)) as (y' & yl & ->).
  - intros ->. discriminate.
  - exists y', yl. split; [reflexivity|].
    rewrite length_app in Hl. cbn in Hl. lia.
Qed.

(** [bump_last] on a slice whose last byte stays within a byte: the slice
    with that byte changed, and the number moves by [delta]. *)
Lemma bump_last_snoc (delta : Z) (q : net.IP) (x : Z) :
  0 <= x + delta < 256 ->
  bump_last delta (q ++ [x]) = Ret (q ++ [x + delta])
  /\ ip_value (q ++ [x + delta]) = ip_value (q ++ [x]) + delta.
Proof.
  intros Hr. split.
  - assert (Hnil : net.isnil (q ++ [x]) = false)
      by (destruct q; reflexivity).
    unfold bump_last. rewrite Hnil. f_equal.
    unfold net.store, net.at_. rewrite length_app. cbn [length].
    replace (Z.to_nat (Z.of_nat (length q + 1) - 1)) with (length q) by lia.
    rewrite list_lookup_middle by reflexivity. cbn.
    rewrite Z.mod_small by lia.
    replace (length q) with (length q + 0)%nat at 1 by lia.
    rewrite insert_app_r. reflexivity.
  - rewrite !ip_value_snoc. lia.
Qed.

Lemma CIDRMask_loop_range (l : nat) :
  forall n, 0 <= n ->
    Forall (fun b => 0 <= b <= 255) (net.CIDRMask_loop l n).
Proof.
  induction l as [|l IH]; intros n Hn; [constructor|].
  rewrite CIDRMask_loop_S. destruct (8 <=? n) eqn:H8.
  - constructor; [lia|]. apply IH. lia.
  - constructor; [apply CIDRMask_head_range; assumption|].
    apply IH. lia.
Qed.

Lemma zip_land_range (y : list Z) :
  forall m, Forall (fun b => 0 <= b <= 255) m ->
    Forall (fun b => 0 <= b <= 255) (zip_with Z.land y m).
Proof.
  induction y as [|y0 y IH]; intros [|m0 m] Hm; cbn; try constructor.
  - inversion Hm; subst.
    destruct (byte_mask_facts y0 m0 ltac:(assumption)) as (Hr & _). lia.
  - inversion Hm; subst. apply IH. assumption.
Qed.

(** The range check of the planner, for the two address sizes: it fires
    only when the block has no host bit at all. *)
Lemma ipsRange_small_iff (ones bits : Z) :
  bits = 32 \/ bits = 128 -> 0 <= ones <= bits ->
  (ipsRange ones bits <? 4) = (ones =? bits).
Proof.
  intros Hb Hn.
  assert (H32 : forallb (fun n => Bool.eqb (ipsRange n 32 <? 4) (n =? 32))
                  (upto 33) = true) by (vm_compute; reflexivity).
  assert (H128 : forallb (fun n => Bool.eqb (ipsRange n 128 <? 4) (n =? 128))
                   (upto 129) = true) by (vm_compute; reflexivity).
  destruct Hb as [-> | ->].
  - pose proof (upto_forallb 33 _ H32 ones ltac:(lia)) as H.
    apply Bool.eqb_prop in H. exact H.
  - pose proof (upto_forallb 129 _ H128 ones ltac:(lia)) as H.
    apply Bool.eqb_prop in H. exact H.
Qed.

(** What the planner does on a block that [ParseCIDR] accepts.  With no
    host bit the range check fires.  Otherwise the planner returns; the
    interface address is the network address plus one, and masking it
    gives the network address back; the range ends two below the
    network address plus [2^(bits - ones)], that is at the broadcast
    address minus one; and with at least two host bits the range starts at
    the network address plus two. *)
Lemma setNetworkIP_plan (address : string) (ip : net.IP) (ipNet : net.IPNet) :
  net.ParseCIDR address = (ip, Some ipNet, None) ->
  exists ones bits,
    net.Size (net.net_Mask ipNet) = (ones, bits)
    /\ (bits = 32 \/ bits = 128)
    /\ 0 <= ones <= bits
    /\ net.net_Mask ipNet = net.CIDRMask ones bits
    /\ length (net.net_IP ipNet) = Z.to_nat (bits / 8)
    /\ (ones = bits ->
        setNetworkIP address = Ret (None, None, range_too_small ones bits))
    /\ (ones < bits ->
        exists a1 a2 b1,
          setNetworkIP address
          = Ret (Some {| Address := net.IP_String a1;
                         Family := family_of bits;
                         Prefix := ones;
                         DHCP := None |},
                 Some {| Ranges := [ {| Start := net.IP_String a2;
                                        End := net.IP_String b1 |} ] |},
                 None)
          /\ ip_value a1 = ip_value (net.net_IP ipNet) + 1
          /\ (ones <= bits - 2 ->
              ip_value a2 = ip_value (net.net_IP ipNet) + 2)
          /\ ip_value b1
             = ip_value (net.net_IP ipNet) + 2 ^ (bits - ones) - 2
          /\ length a1 = Z.to_nat (bits / 8)
          /\ take (Z.to_nat (bits / 8) - 1) a1
             = take (Z.to_nat (bits / 8) - 1) (net.net_IP ipNet)
          /\ zip_with Z.land a1 (net.net_Mask ipNet) = net.net_IP ipNet
          /\ Forall (fun b => 0 <= b <= 255) a1).
Proof.
  intros Hp.
  destruct (ParseCIDR_inv _ _ _ Hp) as (n & bits & y & Hb & Hn & Hm & Hip & Hy & _).
  destruct (CIDRMask_length n bits Hb Hn) as [Hloop Hml].
  exists n, bits.
  assert (Hsize : net.Size (net.net_Mask ipNet) = (n, bits))
    by (rewrite Hm; apply CIDRMask_Size; assumption).
  assert (Hnetlen : length (net.net_IP ipNet) = Z.to_nat (bits / 8)).
  { rewrite Hip, length_zip_with, Hy, Hml. apply Nat.min_id. }
  split; [exact Hsize|]. split; [exact Hb|]. split; [exact Hn|].
  split; [exact Hm|]. split; [exact Hnetlen|].
  unfold setNetworkIP. rewrite Hp, Hsize.
  rewrite (ipsRange_small_iff n bits Hb Hn).
  fold (family_of bits).
  split.
  - intros ->. rewrite Z.eqb_refl. reflexivity.
  - intros Hlt. replace (n =? bits) with false by lia.
    (* the shape of mask, network and broadcast address *)
    assert (HL : exists l, Z.to_nat (bits / 8) = S l
                           /\ 8 * Z.of_nat (S l) = bits).
    { destruct Hb as [-> | ->]; [exists 3%nat|exists 15%nat];
        split; reflexivity. }
    destruct HL as (l & HL & Hbits).
    rewrite HL in *.
    destruct (CIDRMask_loop_last l n ltac:(lia))
      as (m' & ml & Hmsplit & Hm'len & Hmlr & Hml1 & Hml3).
    destruct (list_snoc_of_length y l Hy) as (y' & yl & -> & Hy'len).
    specialize (Hml1 ltac:(lia)).
    destruct (byte_mask_facts yl ml Hmlr) as (Hx & Hor & Hx1 & Hx3).
    specialize (Hx1 Hml1).
    set (x := Z.land yl ml) in *.
    set (q := zip_with Z.land y' m').
    assert (Hnet : net.net_IP ipNet = q ++ [x]).
    { rewrite Hip, Hloop, Hmsplit. apply zip_with_snoc. lia. }
    assert (Hqlen : length q = l).
    { subst q. rewrite length_zip_with. lia. }
    assert (Hfirst : net.Mask (net.net_IP ipNet) (net.net_Mask ipNet)
                     = q ++ [x]).
    { rewrite Mask_same_length by (rewrite Hnetlen, Hm, Hml; reflexivity).
      rewrite Hip at 1. rewrite Hm, zip_land_idem, <- Hip. exact Hnet. }
    unfold networkRange. rewrite Hfirst.
    set (bc := zip_with (fun b m => Z.lor b (255 - m)) q m').
    assert (Hlast : zip_with (fun b m => Z.lor b (255 - m)) (q ++ [x])
                      (net.net_Mask ipNet) = bc ++ [x + (255 - ml)]).
    { rewrite Hm, Hloop, Hmsplit, zip_with_snoc by lia.
      rewrite Hor. reflexivity. }
    rewrite Hlast.
    assert (Hbcv : ip_value (bc ++ [x + (255 - ml)])
                   = ip_value (q ++ [x]) + 2 ^ (bits - n) - 1).
    { pose proof (broadcast_value (S l) n (y' ++ [yl]) Hy ltac:(lia)) as Hv.
      cbv zeta in Hv. rewrite Hmsplit in Hv.
      rewrite (zip_with_snoc Z.land) in Hv by lia.
      fold x q in Hv. rewrite zip_with_snoc in Hv by lia.
      fold bc in Hv. rewrite Hor in Hv. rewrite Hbits in Hv. exact Hv. }
    assert (Hml254 : ml <= 254).
    { destruct (Z.eq_dec ml 255) as [->|]; [discriminate Hml1|lia]. }
    destruct (bump_last_snoc 1 q x ltac:(lia)) as [Hb1 Hv1].
    destruct (bump_last_snoc (-1) bc (x + (255 - ml)) ltac:(lia))
      as [Hb3 Hv3].
    rewrite Hb1.
    (* the second increment wraps only from 255 *)
    assert (Hb2 : exists a2, bump_last 1 (q ++ [x + 1]) = Ret a2
                    /\ (n <= bits - 2 ->
                        ip_value a2 = ip_value (q ++ [x]) + 2)).
    { destruct (Z.eq_dec (x + 1) 255) as [He|Hne].
      - exists (q ++ [0]). split.
        + unfold bump_last.
          replace (net.isnil (q ++ [x + 1])) with false
            by (destruct q; reflexivity).
          f_equal. unfold net.store, net.at_. rewrite length_app.
          cbn [length].
          replace (Z.to_nat (Z.of_nat (length q + 1) - 1))
            with (length q) by lia.
          rewrite list_lookup_middle by reflexivity. cbn.
          rewrite He. change ((255 + 1) mod 256) with 0.
          replace (length q) with (length q + 0)%nat at 1 by lia.
          rewrite insert_app_r. reflexivity.
        + intros H2. specialize (Hx3 (Hml3 ltac:(lia))). lia.
      - destruct (bump_last_snoc 1 q (x + 1) ltac:(lia)) as [Hb2 Hv2].
        exists (q ++ [x + 1 + 1]). split; [exact Hb2|].
        intros _. rewrite Hv2, Hv1. lia. }
    destruct Hb2 as (a2 & Hb2 & Hv2).
    rewrite Hb2, Hb3.
    exists (q ++ [x + 1]), a2, (bc ++ [x + (255 - ml) + -1]).
    split; [reflexivity|].
    rewrite Hnet.
    split; [exact Hv1|]. split; [exact Hv2|].
    split; [rewrite Hv3, Hbcv; lia|].
    split; [rewrite length_app; cbn [length]; lia|].
    split.
    { replace (S l - 1)%nat with (length q) by lia.
      rewrite !take_app_length. reflexivity. }
    assert (Hrange : Forall (fun b => 0 <= b <= 255) (q ++ [x + 1])).
    { apply Forall_app. split.
      - subst q. apply zip_land_range.
        pose proof (CIDRMask_loop_range (S l) n ltac:(lia)) as Hmr.
        rewrite Hmsplit in Hmr. apply Forall_app in Hmr as [Hmr _].
        exact Hmr.
      - constructor; [lia|constructor]. }
    split; [|exact Hrange].
    rewrite Hm, Hloop, Hmsplit, zip_with_snoc by lia.
    subst q. rewrite zip_land_idem. f_equal. f_equal.
    (* the low bit added to the last byte is masked away *)
    assert (Hlow : forallb (fun v => forallb (fun m =>
               negb (Z.land m 1 =? 0)
               || (Z.land (Z.land v m + 1) m =? Z.land v m))
               (upto 256)) (upto 256) = true) by (vm_compute; reflexivity).
    assert (Hyl : x = Z.land (yl mod 256) ml).
    { subst x. change 256 with (2 ^ 8). rewrite <- Z.land_ones by lia.
      rewrite <- Z.land_assoc. f_equal.
      rewrite Z.land_comm, Z.land_ones by lia.
      symmetry. apply Z.mod_small. lia. }
    rewrite Hyl.
    pose proof (Z.mod_pos_bound yl 256 ltac:(lia)) as Hv.
    pose proof (upto_forallb 256 _ Hlow (yl mod 256) ltac:(lia)) as H1.
    cbv beta in H1.
    pose proof (upto_forallb 256 _ H1 ml ltac:(lia)) as H2.
    cbv beta in H2. rewrite Hml1 in H2. cbn in H2.
    apply Z.eqb_eq in H2. exact H2.
Qed.

(** ** Address planner: the range check (C1) and the planned addresses (C2) *)

(** The half of C1 that holds: a block with at least four usable addresses
    is planned, so the range check does not reject it. *)
Lemma setNetworkIP_enough_addresses (address : string) (ip : net.IP)
    (ipNet : net.IPNet) (ones bits : Z) :
  net.ParseCIDR address = (ip, Some ipNet, None) ->
  net.Size (net.net_Mask ipNet) = (ones, bits) ->
  4 <= usable_addresses ones bits ->
  exists dni dhcp, setNetworkIP address = Ret (Some dni, Some dhcp, None).
Proof.
  intros Hp Hs Hu.
  destruct (setNetworkIP_plan _ _ _ Hp)
    as (n & b & Hs' & Hb & Hn & _ & _ & _ & Hplan).
  rewrite Hs in Hs'. injection Hs' as <- <-.
  assert (Hlt : ones < bits).
  { destruct (Z.eq_dec ones bits) as [->|]; [|lia].
    unfold usable_addresses in Hu. rewrite Z.sub_diag in Hu.
    cbn in Hu. lia. }
  destruct (Hplan Hlt) as (a1 & a2 & b1 & He & _).
  eauto.
Qed.

(** X24.  The range check rejects exactly the blocks without host bits: /32
    for IPv4 and /128 for IPv6. *)
Lemma setNetworkIP_rejects_iff (address : string) (ip : net.IP)
    (ipNet : net.IPNet) (ones bits : Z) :
  net.ParseCIDR address = (ip, Some ipNet, None) ->
  net.Size (net.net_Mask ipNet) = (ones, bits) ->
  setNetworkIP address = Ret (None, None, range_too_small ones bits)
  <-> ones = bits.
Proof.
  intros Hp Hs.
  destruct (setNetworkIP_plan _ _ _ Hp)
    as (n & b & Hs' & Hb & Hn & _ & _ & Hrej & Hplan).
  rewrite Hs in Hs'. injection Hs' as <- <-.
  split; [|exact Hrej].
  intros He. destruct (Z.eq_dec ones bits) as [|Hne]; [assumption|].
  destruct (Hplan ltac:(lia)) as (a1 & a2 & b1 & He' & _).
  rewrite He' in He. discriminate He.
Qed.

(** C1, where the code departs from it.  The block 192.168.1.0/30 has two
    usable addresses, fewer than four, and the planner does not fail on
    it: the range check computes [((2 xor 32) - 2) xor 30 = 62], which is
    not below 4, and a plan is returned. *)
Theorem setNetworkIP_accepts_slash30 :
  usable_addresses 30 32 = 2
  /\ ipsRange 30 32 = 62
  /\ setNetworkIP "192.168.1.0/30"
     = Ret (Some {| Address := "192.168.1.1"; Family := "ipv4";
                    Prefix := 30; DHCP := None |},
            Some {| Ranges := [ {| Start := "192.168.1.2";
                                   End := "192.168.1.2" |} ] |},
            None).
Proof. repeat split; vm_compute; reflexivity. Qed.

(** The scenario of C2: 192.168.100.0/24. *)
Example setNetworkIP_192_168_100 :
  setNetworkIP "192.168.100.0/24"
  = Ret (Some {| Address := "192.168.100.1"; Family := "ipv4";
                 Prefix := 24; DHCP := None |},
         Some {| Ranges := [ {| Start := "192.168.100.2";
                                End := "192.168.100.254" |} ] |},
         None).
Proof. vm_compute. reflexivity. Qed.

(** C2, where the code departs from it.  The planner accepts the block
    10.0.0.254/31 (which has no usable address), and the start of its DHCP
    range is 10.0.0.0: the second increment of the last byte wraps from
    255 to 0 without carry, whereas the network address plus two is
    10.0.1.0. *)
Theorem setNetworkIP_start_wraps :
  setNetworkIP "10.0.0.254/31"
  = Ret (Some {| Address := "10.0.0.255"; Family := "ipv4";
                 Prefix := 31; DHCP := None |},
         Some {| Ranges := [ {| Start := "10.0.0.0";
                                End := "10.0.0.254" |} ] |},
         None)
  /\ snd (fst (net.ParseCIDR "10.0.0.254/31"))
     = Some {| net.net_IP := [10; 0; 0; 254];
               net.net_Mask := [255; 255; 255; 254] |}
  /\ ip_value [10; 0; 0; 254] + 2 = ip_value [10; 0; 1; 0]
  /\ net.IP_String [10; 0; 1; 0] = "10.0.1.0"
  /\ usable_addresses 31 32 = 0.
Proof. repeat split; vm_compute; reflexivity. Qed.

(** ** Printing and parsing addresses *)

Lemma append_cons (c : ascii) (s t : string) :
  String c s +:+ t = String c (s +:+ t).
Proof. reflexivity. Qed.

Lemma append_empty (t : string) : "" +:+ t = t.
Proof. reflexivity. Qed.

Lemma len_cons (c : ascii) (s : string) : len (String c s) = 1 + len s.
Proof. unfold len. cbn [String.length]. lia. Qed.

Lemma len_append (s t : string) : len (s +:+ t) = len s + len t.
Proof.
  induction s as [|c s IH].
  - rewrite append_empty. reflexivity.
  - rewrite append_cons, !len_cons, IH. lia.
Qed.

Lemma len_nonneg (s : string) : 0 <= len s.
Proof. unfold len. lia. Qed.

Lemma skip_append (s t : string) :
  skip (Z.to_nat (len s)) (s +:+ t) = t.
Proof.
  unfold len. rewrite Nat2Z.id.
  induction s as [|c s IH]; [reflexivity|].
  rewrite append_cons. exact IH.
Qed.

Lemma append_assoc (s t u : string) : (s +:+ t) +:+ u = s +:+ (t +:+ u).
Proof.
  induction s as [|c s IH]; [reflexivity|].
  rewrite !append_cons, IH. reflexivity.
Qed.

(** Reading a number off the front of a text: a run of digits followed by
    something that is no digit is read whole. *)
Lemma dtoi_loop_append (s : string) :
  forall rest n i v j,
    all_chars net.is_digit s = true -> s <> "" -> 0 <= i ->
    head_is net.is_digit rest = false ->
    net.dtoi_loop s n i = (v, j, true) ->
    net.dtoi_loop (s +:+ rest) n i = (v, j, true).
Proof.
  induction s as [|c s IH]; intros rest n i v j Hall Hne Hi Hrest H;
    [contradiction|].
  cbn [all_chars] in Hall. apply andb_true_iff in Hall as [Hc Hall].
  rewrite append_cons. cbn [net.dtoi_loop] in *. rewrite Hc in *.
  destruct (net.big <=? n * 10 + (byte_of c - 48)); [discriminate|].
  destruct s as [|c' s'].
  - rewrite append_empty. cbn [net.dtoi_loop] in H.
    replace (i + 1 =? 0) with false in * by lia.
    destruct rest as [|r rest']; cbn [net.dtoi_loop].
    + replace (i + 1 =? 0) with false by lia. exact H.
    + cbn [head_is] in Hrest. rewrite Hrest.
      replace (i + 1 =? 0) with false by lia. exact H.
  - apply IH; auto; try discriminate; lia.
Qed.

Lemma xtoi_loop_append (s : string) :
  forall rest n i v j,
    all_chars is_hex s = true -> s <> "" -> 0 <= i ->
    head_is is_hex rest = false ->
    net.xtoi_loop s n i = (v, j, true) ->
    net.xtoi_loop (s +:+ rest) n i = (v, j, true).
Proof.
  induction s as [|c s IH]; intros rest n i v j Hall Hne Hi Hrest H;
    [contradiction|].
  cbn [all_chars] in Hall. apply andb_true_iff in Hall as [Hc Hall].
  rewrite append_cons. cbn [net.xtoi_loop] in *. unfold is_hex in Hc.
  destruct (net.hex_value c) as [d|]; [|discriminate].
  destruct (net.big <=? n * 16 + d); [discriminate|].
  destruct s as [|c' s'].
  - rewrite append_empty. cbn [net.xtoi_loop] in H.
    replace (i + 1 =? 0) with false in * by lia.
    destruct rest as [|r rest']; cbn [net.xtoi_loop].
    + replace (i + 1 =? 0) with false by lia. exact H.
    + cbn [head_is] in Hrest. unfold is_hex in Hrest.
      destruct (net.hex_value r); [discriminate|].
      replace (i + 1 =? 0) with false by lia. exact H.
  - apply IH; auto; try discriminate; lia.
Qed.

(** The decimal text of a byte: digits only, and [dtoi] reads it back. *)
Lemma uitoa_byte (v : Z) :
  0 <= v <= 255 ->
  all_chars net.is_digit (uitoa v) = true
  /\ uitoa v <> ""
  /\ net.dtoi (uitoa v) = (v, len (uitoa v), true).
Proof.
  intros Hv.
  assert (Hall : forallb (fun v =>
             all_chars net.is_digit (uitoa v)
             && negb (String.eqb (uitoa v) "")
             && bool_decide (net.dtoi (uitoa v) = (v, len (uitoa v), true)))
             (upto 256) = true) by (vm_compute; reflexivity).
  pose proof (upto_forallb 256 _ Hall v ltac:(lia)) as H.
  cbv beta in H.
  apply andb_true_iff in H as [H H3].
  apply andb_true_iff in H as [H1 H2].
  split; [exact H1|]. split.
  - apply String.eqb_neq. apply negb_true_iff. exact H2.
  - apply bool_decide_eq_true in H3. exact H3.
Qed.

(** The hexadecimal text of a 16-bit group: hexadecimal digits only, and
    [xtoi] reads it back. *)
Lemma appendHex_group (g : Z) :
  0 <= g <= 65535 ->
  all_chars is_hex (net.appendHex g) = true
  /\ net.appendHex g <> ""
  /\ net.xtoi (net.appendHex g) = (g, len (net.appendHex g), true).
Proof.
  intros Hg.
  assert (Hall : forall_below (fun g =>
             all_chars is_hex (net.appendHex g)
             && negb (String.eqb (net.appendHex g) "")
             && bool_decide (net.xtoi (net.appendHex g)
                             = (g, len (net.appendHex g), true)))
             65536 = true) by (vm_compute; reflexivity).
  pose proof (forall_below_spec _ 65536 Hall g ltac:(lia)) as H.
  cbv beta in H.
  apply andb_true_iff in H as [H H3].
  apply andb_true_iff in H as [H1 H2].
  split; [exact H1|]. split.
  - apply String.eqb_neq. apply negb_true_iff. exact H2.
  - apply bool_decide_eq_true in H3. exact H3.
Qed.

Lemma is_hex_not_separator (c : ascii) :
  is_hex c = true -> Ascii.eqb c "." = false /\ Ascii.eqb c ":" = false.
Proof.
  destruct c as [[|] [|] [|] [|] [|] [|] [|] [|]];
    vm_compute; intros H; try discriminate H; split; reflexivity.
Qed.

Lemma is_digit_is_hex (c : ascii) : net.is_digit c = true -> is_hex c = true.
Proof.
  destruct c as [[|] [|] [|] [|] [|] [|] [|] [|]];
    vm_compute; intros H; try discriminate H; reflexivity.
Qed.

Lemma all_digits_all_hex (s : string) :
  all_chars net.is_digit s = true -> all_chars is_hex s = true.
Proof.
  induction s as [|c s IH]; [reflexivity|].
  cbn [all_chars]. intros H. apply andb_true_iff in H as [Hc Hs].
  rewrite (is_digit_is_hex c Hc), (IH Hs). reflexivity.
Qed.

(** [ParseIP] looks for the first dot or colon: digits are skipped. *)
Lemma ParseIP_scan_skip (s rest whole : string) :
  all_chars is_hex s = true ->
  net.ParseIP_scan (s +:+ rest) whole = net.ParseIP_scan rest whole.
Proof.
  induction s as [|c s IH]; intros H; [reflexivity|].
  cbn [all_chars] in H. apply andb_true_iff in H as [Hc Hs].
  rewrite append_cons. cbn [net.ParseIP_scan].
  destruct (is_hex_not_separator c Hc) as [-> ->]. apply IH. exact Hs.
Qed.

Lemma ParseIP_scan_dot (s rest whole : string) :
  all_chars is_hex s = true ->
  net.ParseIP_scan (s +:+ "." +:+ rest) whole = net.parseIPv4 whole.
Proof.
  intros H. rewrite ParseIP_scan_skip by exact H. reflexivity.
Qed.

Lemma ParseIP_scan_colon (s rest whole : string) :
  all_chars is_hex s = true ->
  net.ParseIP_scan (s +:+ ":" +:+ rest) whole = net.parseIPv6 whole.
Proof.
  intros H. rewrite ParseIP_scan_skip by exact H. reflexivity.
Qed.

(** One field of a dotted quad, read by the loop of [parseIPv4]. *)
Lemma parseIPv4_loop_field (fuel : nat) (i v : Z) (sep rest : string)
    (p : list Z) :
  0 <= v <= 255 ->
  head_is net.is_digit rest = false ->
  (if 0 <? i then sep = "." else sep = "") ->
  net.parseIPv4_loop (S fuel) i (sep +:+ uitoa v +:+ rest) p
  = net.parseIPv4_loop fuel (i + 1) rest (p ++ [v]).
Proof.
  intros Hv Hrest Hsep.
  destruct (uitoa_byte v Hv) as (Hd & Hne & Hdtoi).
  assert (Hread : net.dtoi (uitoa v +:+ rest) = (v, len (uitoa v), true)).
  { unfold net.dtoi in *. apply dtoi_loop_append; auto. lia. }
  assert (Hlen : (len (sep +:+ uitoa v +:+ rest) =? 0) = false).
  { rewrite !len_append. pose proof (len_nonneg sep).
    pose proof (len_nonneg rest).
    assert (0 < len (uitoa v)); [|lia].
    destruct (uitoa v); [contradiction|]. rewrite len_cons.
    pose proof (len_nonneg s). lia. }
  cbn [net.parseIPv4_loop]. rewrite Hlen.
  destruct (0 <? i); subst sep.
  - rewrite append_cons, append_empty.
    change (Ascii.eqb "." ".") with true. cbv iota.
    rewrite Hread. replace (255 <? v) with false by lia. cbn [negb orb].
    rewrite skip_append. reflexivity.
  - rewrite append_empty. rewrite Hread.
    replace (255 <? v) with false by lia. cbn [negb orb].
    rewrite skip_append. reflexivity.
Qed.

(** Printing a 4-byte address and parsing the text gives the address back,
    in its 16-byte form. *)
Lemma ParseIP_String_v4 (a b c d : Z) :
  0 <= a <= 255 -> 0 <= b <= 255 -> 0 <= c <= 255 -> 0 <= d <= 255 ->
  net.ParseIP (net.IP_String [a; b; c; d]) = net.IPv4 a b c d.
Proof.
  intros Ha Hb Hc Hd.
  assert (Hs : net.IP_String [a; b; c; d]
               = uitoa a +:+ "." +:+ uitoa b +:+ "." +:+ uitoa c
                   +:+ "." +:+ uitoa d +:+ "") .
  { unfold net.IP_String. cbn [net.isnil net.To4 length].
    change (Z.of_nat 4 =? net.IPv4len) with true. cbv iota.
    replace (uitoa d +:+ "") with (uitoa d); [reflexivity|].
    induction (uitoa d) as [|x s IH]; [reflexivity|].
    rewrite append_cons, <- IH. reflexivity. }
  rewrite Hs. unfold net.ParseIP.
  rewrite (ParseIP_scan_dot (uitoa a))
    by (apply all_digits_all_hex; apply uitoa_byte; assumption).
  unfold net.parseIPv4.
  rewrite <- (append_empty (uitoa a +:+ _)).
  rewrite (parseIPv4_loop_field 3 0 a "") by (auto; reflexivity).
  rewrite (parseIPv4_loop_field 2 (0 + 1) b ".") by (auto; reflexivity).
  rewrite (parseIPv4_loop_field 1 (0 + 1 + 1) c ".") by (auto; reflexivity).
  rewrite (parseIPv4_loop_field 0 (0 + 1 + 1 + 1) d ".")
    by (auto; reflexivity).
  reflexivity.
Qed.

(** Two bytes make a 16-bit group and are found again in it. *)
Lemma group_bytes (hi lo : Z) :
  0 <= hi <= 255 -> 0 <= lo <= 255 ->
  0 <= group hi lo <= 65535
  /\ Z.shiftr (group hi lo) 8 = hi
  /\ group hi lo mod 256 = lo.
Proof.
  intros Hhi Hlo.
  assert (Hall : forall_below (fun hi => forall_below (fun lo =>
             (0 <=? group hi lo) && (group hi lo <=? 65535)
             && (Z.shiftr (group hi lo) 8 =? hi)
             && (group hi lo mod 256 =? lo)) 256) 256 = true)
    by (vm_compute; reflexivity).
  pose proof (forall_below_spec _ 256 Hall hi ltac:(lia)) as H1.
  cbv beta in H1.
  pose proof (forall_below_spec _ 256 H1 lo ltac:(lia)) as H2.
  cbv beta in H2.
  repeat (apply andb_true_iff in H2 as [H2 ?]). lia.
Qed.

Lemma head_is_hex_facts (t : string) :
  head_is is_hex t = true ->
  net.starts_with ":" t = false
  /\ net.starts_with "." t = false
  /\ (len t =? 0) = false.
Proof.
  destruct t as [|c t]; [discriminate|].
  cbn [head_is net.starts_with]. intros Hc.
  destruct (is_hex_not_separator c Hc) as [Hd Hcol].
  rewrite (Ascii.eqb_sym ":" c), Hcol, (Ascii.eqb_sym "." c), Hd.
  rewrite len_cons. pose proof (len_nonneg t).
  repeat split. lia.
Qed.

Lemma head_is_hex_group (g : Z) (rest : string) :
  0 <= g <= 65535 -> head_is is_hex (net.appendHex g +:+ rest) = true.
Proof.
  intros Hg. destruct (appendHex_group g Hg) as (Hall & Hne & _).
  destruct (net.appendHex g) as [|c s]; [contradiction|].
  rewrite append_cons. cbn [head_is all_chars] in *.
  apply andb_true_iff in Hall as [Hc _]. exact Hc.
Qed.

(** [xtoi] reads a group off the front of a text when what follows is no
    hexadecimal digit, and the group fits 16 bits. *)
Lemma xtoi_group (g : Z) (tail : string) :
  0 <= g <= 65535 -> head_is is_hex tail = false ->
  net.xtoi (net.appendHex g +:+ tail) = (g, len (net.appendHex g), true).
Proof.
  intros Hg Ht. destruct (appendHex_group g Hg) as (Hall & Hne & Hx).
  unfold net.xtoi in *. apply xtoi_loop_append; auto. lia.
Qed.

(** The head of one turn of the loop of [parseIPv6] on a text that starts
    with a group: the group is stored at [i] and the loop goes on with
    what the text holds after the group, as [next] says. *)
Lemma parseIPv6_loop_group (fuel : nat) (p : list Z) (i ellipsis g : Z)
    (tail : string) :
  i < 16 -> 0 <= g <= 65535 ->
  head_is is_hex tail = false -> net.starts_with "." tail = false ->
  net.parseIPv6_loop (S fuel) p i ellipsis (net.appendHex g +:+ tail)
  = let p := put_group i g p in
    let i := i + 2 in
    let s := tail in
    if len s =? 0 then Some (p, i, ellipsis, s)
    else if negb (net.starts_with ":" s) || (len s =? 1) then None
    else
      let s := skip 1 s in
      if net.starts_with ":" s then
        if 0 <=? ellipsis then None
        else
          let ellipsis := i in
          let s := skip 1 s in
          if len s =? 0 then Some (p, i, ellipsis, s)
          else net.parseIPv6_loop fuel p i ellipsis s
      else net.parseIPv6_loop fuel p i ellipsis s.
Proof.
  intros Hi Hg Ht Hdot.
  cbn [net.parseIPv6_loop]. unfold net.IPv6len.
  replace (i <? 16) with true by lia. cbn [negb].
  rewrite (xtoi_group g tail Hg Ht).
  replace (65535 <? g) with false by lia. cbn [negb orb].
  rewrite skip_append, Hdot, andb_false_r.
  reflexivity.
Qed.

Lemma parseIPv6_loop_group_end (fuel : nat) (p : list Z) (i ellipsis g : Z) :
  i < 16 -> 0 <= g <= 65535 ->
  net.parseIPv6_loop (S fuel) p i ellipsis (net.appendHex g +:+ "")
  = Some (put_group i g p, i + 2, ellipsis, "").
Proof.
  intros Hi Hg. rewrite parseIPv6_loop_group by auto. reflexivity.
Qed.

Lemma parseIPv6_loop_group_colon (fuel : nat) (p : list Z)
    (i ellipsis g : Z) (t : string) :
  i < 16 -> 0 <= g <= 65535 -> head_is is_hex t = true ->
  net.parseIPv6_loop (S fuel) p i ellipsis
    (net.appendHex g +:+ String ":" t)
  = net.parseIPv6_loop fuel (put_group i g p) (i + 2) ellipsis t.
Proof.
  intros Hi Hg Ht. rewrite parseIPv6_loop_group by auto.
  destruct (head_is_hex_facts t Ht) as (Hc & _ & Hl).
  cbv zeta. rewrite len_cons. pose proof (len_nonneg t).
  replace (1 + len t =? 0) with false by lia.
  replace (1 + len t =? 1) with false by lia.
  cbn [net.starts_with skip negb orb].
  change (Ascii.eqb ":" ":") with true. cbn [negb orb].
  rewrite Hc. reflexivity.
Qed.

Lemma parseIPv6_loop_group_ellipsis_end (fuel : nat) (p : list Z)
    (i ellipsis g : Z) :
  i < 16 -> 0 <= g <= 65535 -> ellipsis < 0 ->
  net.parseIPv6_loop (S fuel) p i ellipsis
    (net.appendHex g +:+ String ":" (String ":" ""))
  = Some (put_group i g p, i + 2, i + 2, "").
Proof.
  intros Hi Hg He. rewrite parseIPv6_loop_group by auto.
  cbv zeta. replace (0 <=? ellipsis) with false by lia. reflexivity.
Qed.

Lemma parseIPv6_loop_group_ellipsis (fuel : nat) (p : list Z)
    (i ellipsis g : Z) (t : string) :
  i < 16 -> 0 <= g <= 65535 -> ellipsis < 0 -> head_is is_hex t = true ->
  net.parseIPv6_loop (S fuel) p i ellipsis
    (net.appendHex g +:+ String ":" (String ":" t))
  = net.parseIPv6_loop fuel (put_group i g p) (i + 2) (i + 2) t.
Proof.
  intros Hi Hg He Ht. rewrite parseIPv6_loop_group by auto.
  destruct (head_is_hex_facts t Ht) as (_ & _ & Hl).
  cbv zeta. rewrite !len_cons. pose proof (len_nonneg t).
  replace (1 + (1 + len t) =? 0) with false by lia.
  replace (1 + (1 + len t) =? 1) with false by lia.
  cbn [net.starts_with skip negb orb].
  change (Ascii.eqb ":" ":") with true. cbn [negb orb].
  replace (0 <=? ellipsis) with false by lia.
  rewrite Hl. reflexivity.
Qed.

Lemma zero_run_spec (fuel : nat) (p : list Z) :
  forall j a,
    j = 2 * a -> 0 <= a ->
    exists b,
      net.zero_run fuel p j = 2 * b /\ a <= b /\ (b <= 8 \/ b = a)
      /\ forall t, j <= t < 2 * b -> net.at_ t p = 0.
Proof.
  induction fuel as [|fuel IH]; intros j a Hj Ha.
  - exists a. cbn. repeat split; auto; try lia.
  - cbn [net.zero_run]. unfold net.IPv6len.
    destruct ((j <? 16) && (net.at_ j p =? 0) && (net.at_ (j + 1) p =? 0))
      eqn:Hc.
    + apply andb_true_iff in Hc as [Hc H1].
      apply andb_true_iff in Hc as [Hlt H0].
      destruct (IH (j + 2) (a + 1) ltac:(lia) ltac:(lia))
        as (b & Hb & Hab & Hb8 & Hz).
      exists b. split; [exact Hb|]. split; [lia|]. split; [lia|].
      intros t Ht.
      destruct (Z.eq_dec t j) as [->|]; [lia|].
      destruct (Z.eq_dec t (j + 1)) as [->|]; [lia|].
      apply Hz. lia.
    + exists a. repeat split; auto; try lia.
Qed.

Lemma longest_run_spec (fuel : nat) (p : list Z) :
  forall i a e0 e1,
    i = 2 * a -> 0 <= a -> zero_run_ok p e0 e1 ->
    zero_run_ok p (fst (net.longest_run fuel p i e0 e1))
                  (snd (net.longest_run fuel p i e0 e1)).
Proof.
  induction fuel as [|fuel IH]; intros i a e0 e1 Hi Ha Hinv; [exact Hinv|].
  cbn [net.longest_run]. unfold net.IPv6len.
  destruct (negb (i <? 16)) eqn:Hlt; [exact Hinv|].
  destruct (zero_run_spec 8 p i a Hi Ha) as (b & Hb & Hab & Hb8 & Hz).
  rewrite Hb.
  destruct ((i <? 2 * b) && (e1 - e0 <? 2 * b - i)) eqn:Hc.
  - apply andb_true_iff in Hc as [Hib _].
    apply (IH (2 * b + 2) (b + 1)); try lia.
    right. exists a, b. repeat split; auto; lia.
  - apply (IH (i + 2) (a + 1)); try lia. exact Hinv.
Qed.

Lemma starts_with_colon_group (g : Z) (rest : string) :
  0 <= g <= 65535 -> net.starts_with ":" (net.appendHex g +:+ rest) = false.
Proof.
  intros Hg. apply (head_is_hex_facts _ (head_is_hex_group g rest Hg)).
Qed.

Lemma ParseIP_group_first (g : Z) (rest : string) :
  0 <= g <= 65535 ->
  net.ParseIP (net.appendHex g +:+ String ":" rest)
  = net.parseIPv6 (net.appendHex g +:+ String ":" rest).
Proof.
  intros Hg. unfold net.ParseIP.
  rewrite ParseIP_scan_skip by (apply appendHex_group; exact Hg).
  reflexivity.
Qed.

Lemma ParseIP_colon_first (rest : string) :
  net.ParseIP (String ":" rest) = net.parseIPv6 (String ":" rest).
Proof. reflexivity. Qed.

Lemma parseIPv6_lead_empty :
  net.parseIPv6 (String ":" (String ":" "")) = replicate 16 0.
Proof. reflexivity. Qed.

Lemma parseIPv6_lead (g : Z) (rest : string) :
  0 <= g <= 65535 ->
  net.parseIPv6 (String ":" (String ":" (net.appendHex g +:+ rest)))
  = match net.parseIPv6_loop 8 (replicate 16 0) 0 0
            (net.appendHex g +:+ rest) with
    | None => []
    | Some (p, i, ellipsis, s) =>
        if negb (len s =? 0) then []
        else if i <? net.IPv6len then
          if ellipsis <? 0 then [] else net.expand_ellipsis p i ellipsis
        else if 0 <=? ellipsis then []
        else p
    end.
Proof.
  intros Hg. unfold net.parseIPv6.
  cbn [net.starts_with skip andb].
  change (Ascii.eqb ":" ":") with true. cbn [andb]. cbv iota.
  destruct (head_is_hex_facts _ (head_is_hex_group g rest Hg))
    as (_ & _ & ->).
  reflexivity.
Qed.

Lemma parseIPv6_group_first (g : Z) (rest : string) :
  0 <= g <= 65535 ->
  net.parseIPv6 (net.appendHex g +:+ rest)
  = match net.parseIPv6_loop 8 (replicate 16 0) 0 (-1)
            (net.appendHex g +:+ rest) with
    | None => []
    | Some (p, i, ellipsis, s) =>
        if negb (len s =? 0) then []
        else if i <? net.IPv6len then
          if ellipsis <? 0 then [] else net.expand_ellipsis p i ellipsis
        else if 0 <=? ellipsis then []
        else p
    end.
Proof.
  intros Hg. unfold net.parseIPv6.
  rewrite starts_with_colon_group by exact Hg. reflexivity.
Qed.

Ltac norm_text :=
  repeat first [rewrite append_cons | rewrite append_empty].

Ltac group_side := first [lia | apply head_is_hex_group; lia].

Ltac parse_steps :=
  repeat first
    [ rewrite parseIPv6_loop_group_end by group_side
    | rewrite parseIPv6_loop_group_ellipsis_end by group_side
    | rewrite parseIPv6_loop_group_ellipsis by group_side
    | rewrite parseIPv6_loop_group_colon by group_side ].

Ltac case_up x lo n tac :=
  lazymatch n with
  | O => exfalso; lia
  | S ?n' =>
      destruct (Z.eq_dec x lo) as [->|?];
      [ tac
      | let lo' := eval compute in (lo + 1) in case_up x lo' n' tac ]
  end.

(* the bytes of the run are zero *)
Ltac zero_bytes Hz :=
  let use t :=
    try (let H := fresh "Hzero" in
         pose proof (Hz t ltac:(lia)) as H;
         cbv - [Z.le Z.lt] in H;
         match type of H with ?x = 0 => subst x end) in
  use 0; use 1; use 2; use 3; use 4; use 5; use 6; use 7;
  use 8; use 9; use 10; use 11; use 12; use 13; use 14; use 15.

Ltac print_parse :=
  match goal with |- net.ParseIP ?t = _ =>
    let t' := eval cbv - [net.appendHex Z.lor Z.shiftl String.append] in t in
    change t with t' end;
  repeat match goal with
         | |- context [Z.lor (Z.shiftl ?a 8) ?b] =>
             change (Z.lor (Z.shiftl a 8) b) with (group a b)
         end;
  norm_text;
  first [rewrite ParseIP_group_first by lia
        | rewrite ParseIP_colon_first];
  first [rewrite parseIPv6_group_first by lia
        | rewrite parseIPv6_lead by lia
        | rewrite parseIPv6_lead_empty];
  parse_steps;
  cbv - [Z.shiftr Z.modulo group net.appendHex String.append];
  congruence.

(** Printing the groups of a 16-byte address around a run of zero groups
    that is none or at least two groups long, and parsing the text, gives
    the address back. *)
Lemma parse_print_groups
    (a0 a1 a2 a3 a4 a5 a6 a7 a8 a9 a10 a11 a12 a13 a14 a15 e0 e1 : Z) :
  let p := [a0;a1;a2;a3;a4;a5;a6;a7;a8;a9;a10;a11;a12;a13;a14;a15] in
  Forall (fun b => 0 <= b <= 255) p ->
  zero_run_ok p e0 e1 ->
  (e0 = -1 \/ 2 < e1 - e0) ->
  net.ParseIP (net.print_groups 8 p 0 e0 e1) = p.
Proof.
  intros p HF Hrun Hlong. subst p.
  repeat match goal with
         | H : Forall _ (_ :: _) |- _ => apply Forall_cons in H as [? H]
         end.
  pose proof (group_bytes a0 a1 ltac:(lia) ltac:(lia)) as (G0 & G0h & G0l).
  pose proof (group_bytes a2 a3 ltac:(lia) ltac:(lia)) as (G1 & G1h & G1l).
  pose proof (group_bytes a4 a5 ltac:(lia) ltac:(lia)) as (G2 & G2h & G2l).
  pose proof (group_bytes a6 a7 ltac:(lia) ltac:(lia)) as (G3 & G3h & G3l).
  pose proof (group_bytes a8 a9 ltac:(lia) ltac:(lia)) as (G4 & G4h & G4l).
  pose proof (group_bytes a10 a11 ltac:(lia) ltac:(lia)) as (G5 & G5h & G5l).
  pose proof (group_bytes a12 a13 ltac:(lia) ltac:(lia)) as (G6 & G6h & G6l).
  pose proof (group_bytes a14 a15 ltac:(lia) ltac:(lia)) as (G7 & G7h & G7l).
  destruct Hrun as [[-> ->] | (a & b & -> & -> & Hab & Hb & Hz)].
  - print_parse.
  - assert (Hb2 : a + 2 <= b) by lia. clear Hlong.
    assert (Ha : a = 0 \/ a = 1 \/ a = 2 \/ a = 3 \/ a = 4 \/ a = 5 \/ a = 6) by lia.
    destruct Ha as [-> | [-> | [-> | [-> | [-> | [-> | ->]]]]]].
    + assert (Hbb : b = 2 \/ b = 3 \/ b = 4 \/ b = 5 \/ b = 6 \/ b = 7 \/ b = 8) by lia.
      destruct Hbb as [-> | [-> | [-> | [-> | [-> | [-> | ->]]]]]];
        (zero_bytes Hz; clear Hz; print_parse).
    + assert (Hbb : b = 3 \/ b = 4 \/ b = 5 \/ b = 6 \/ b = 7 \/ b = 8) by lia.
      destruct Hbb as [-> | [-> | [-> | [-> | [-> | ->]]]]];
        (zero_bytes Hz; clear Hz; print_parse).
    + assert (Hbb : b = 4 \/ b = 5 \/ b = 6 \/ b = 7 \/ b = 8) by lia.
      destruct Hbb as [-> | [-> | [-> | [-> | ->]]]];
        (zero_bytes Hz; clear Hz; print_parse).
    + assert (Hbb : b = 5 \/ b = 6 \/ b = 7 \/ b = 8) by lia.
      destruct Hbb as [-> | [-> | [-> | ->]]];
        (zero_bytes Hz; clear Hz; print_parse).
    + assert (Hbb : b = 6 \/ b = 7 \/ b = 8) by lia.
      destruct Hbb as [-> | [-> | ->]];
        (zero_bytes Hz; clear Hz; print_parse).
    + assert (Hbb : b = 7 \/ b = 8) by lia.
      destruct Hbb as [-> | ->];
        (zero_bytes Hz; clear Hz; print_parse).
    + assert (Hbb : b = 8) by lia.
      subst b. zero_bytes Hz; clear Hz; print_parse.
Qed.

(** Printing a 16-byte address that has no 4-byte form and parsing the
    text gives the address back. *)
Lemma ParseIP_String_v6 (p : net.IP) :
  length p = 16%nat ->
  Forall (fun b => 0 <= b <= 255) p ->
  net.To4 p = [] ->
  net.ParseIP (net.IP_String p) = p.
Proof.
  intros Hl HF H4.
  do 16 (destruct p as [|? p]; [discriminate Hl|]).
  destruct p; [|discriminate Hl].
  unfold net.IP_String. rewrite H4. cbn [net.isnil length].
  change (Z.of_nat 16 =? net.IPv6len) with true. cbn [negb].
  pose proof (longest_run_spec 8 [z; z0; z1; z2; z3; z4; z5; z6; z7; z8;
                                  z9; z10; z11; z12; z13; z14]
                0 0 (-1) (-1) eq_refl ltac:(lia)
                (or_introl (conj eq_refl eq_refl))) as Hrun.
  destruct (net.longest_run 8 _ 0 (-1) (-1)) as [e0 e1].
  cbn [fst snd] in Hrun.
  destruct (e1 - e0 <=? 2) eqn:Hshort.
  - apply parse_print_groups; [exact HF| |left; reflexivity].
    left. split; reflexivity.
  - apply parse_print_groups; [exact HF|exact Hrun|right; lia].
Qed.

(** ** Drift reader after the planner *)

(** Whether an address has a 4-byte form depends on its first twelve
    bytes only. *)
Lemma To4_nil_same_prefix (x x' : net.IP) :
  length x = 16%nat -> length x' = 16%nat ->
  take 15 x = take 15 x' ->
  net.To4 x = [] -> net.To4 x' = [].
Proof.
  intros Hl Hl' Ht.
  do 16 (destruct x as [|? x]; [discriminate Hl|]).
  destruct x; [|discriminate Hl].
  do 16 (destruct x' as [|? x']; [discriminate Hl'|]).
  destruct x'; [|discriminate Hl'].
  cbn [take] in Ht. simplify_eq.
  unfold net.To4. cbn [length].
  change (Z.of_nat 16 =? net.IPv4len) with false.
  change (Z.of_nat 16 =? net.IPv6len) with true.
  cbv iota. cbn [andb]. intros H.
  match type of H with
  | (if ?c then _ else _) = _ =>
      match goal with
      | |- (if ?c' then _ else _) = _ => change c' with c; destruct c
      end
  end; [cbn [drop] in H; discriminate H|reflexivity].
Qed.

(** A plan is made only for a text that [ParseCIDR] accepts. *)
Lemma setNetworkIP_parsed (address : string) (dni : NetworkIP)
    (dhcp : option NetworkDHCP) :
  setNetworkIP address = Ret (Some dni, dhcp, None) ->
  exists ip ipNet, net.ParseCIDR address = (ip, Some ipNet, None).
Proof.
  unfold setNetworkIP. intros H.
  destruct (net.ParseCIDR address) as [[ip [ipNet|]] [e|]];
    try discriminate H.
  eauto.
Qed.

(** One turn of the address loop of the reader on the entry the planner
    made for an address text: the canonical text of the block is
    appended. *)
Lemma read_addresses_planned (address : string) (dni : NetworkIP)
    (dhcp : option NetworkDHCP) (i : NetworkIP) (rest : list NetworkIP)
    (acc : list string) :
  setNetworkIP address = Ret (Some dni, dhcp, None) ->
  v4_mapped_block address = false ->
  Address i = Address dni -> Prefix i = Prefix dni ->
  read_addresses (i :: rest) acc
  = read_addresses rest (acc ++ [canonical_cidr address]).
Proof.
  intros Hs Hmapped HA HP.
  destruct (setNetworkIP_parsed _ _ _ Hs) as (ip & ipNet & Hp).
  destruct (setNetworkIP_plan _ _ _ Hp)
    as (ones & bits & Hsize & Hb & Hn & Hm & Hnl & Hrej & Hplan).
  assert (Hlt : ones < bits).
  { destruct (Z.eq_dec ones bits) as [He|]; [|lia].
    rewrite (Hrej He) in Hs. discriminate Hs. }
  destruct (Hplan Hlt)
    as (a1 & a2 & b1 & He & _ & _ & _ & Hal & Htake & Hmask & Hrange).
  rewrite He in Hs. simplify_eq. cbn [Address Prefix] in HA, HP.
  assert (Hcanon : canonical_cidr address
                   = net.IP_String (net.net_IP ipNet) +:+ "/" +:+ uitoa ones).
  { unfold canonical_cidr, IPNet_String. rewrite Hp, Hsize. reflexivity. }
  unfold v4_mapped_block in Hmapped. rewrite Hp, Hsize in Hmapped.
  cbn [snd] in Hmapped.
  destruct (CIDRMask_length ones bits Hb Hn) as [_ Hml].
  cbn [read_addresses]. rewrite HA, HP.
  destruct Hb as [-> | ->].
  - (* IPv4 *)
    change (Z.to_nat (32 / 8)) with 4%nat in *.
    destruct a1 as [|a [|b [|c [|d [|? ?]]]]]; try discriminate Hal.
    repeat match goal with
           | H : Forall _ (_ :: _) |- _ => apply Forall_cons in H as [? H]
           end.
    rewrite ParseIP_String_v4 by assumption.
    change (net.isnil (net.IPv4 a b c d)) with false. cbv iota.
    change (net.isnil (net.To4 (net.IPv4 a b c d))) with false.
    cbn [negb]. cbv iota.
    change (net.IPv4len * 8) with 32.
    rewrite Mask_IPv4 by exact Hml.
    rewrite <- Hm, Hmask, Hcanon. reflexivity.
  - (* IPv6 *)
    change (Z.to_nat (128 / 8)) with 16%nat in *.
    change (128 =? 128) with true in Hmapped. cbn [andb] in Hmapped.
    assert (Hnet4 : net.To4 (net.net_IP ipNet) = []).
    { destruct (net.To4 (net.net_IP ipNet)); [reflexivity|discriminate]. }
    assert (Ha4 : net.To4 a1 = []).
    { apply (To4_nil_same_prefix (net.net_IP ipNet)); auto. }
    rewrite ParseIP_String_v6 by assumption.
    rewrite Ha4. cbn [net.isnil negb].
    replace (net.isnil a1) with false by (destruct a1; [discriminate|reflexivity]).
    cbv iota. change (net.IPv6len * 8) with 128.
    rewrite Mask_same_length by (rewrite Hal, Hml; reflexivity).
    rewrite <- Hm, Hmask, Hcanon. reflexivity.
Qed.

Lemma setDhcp_loop_entries (d : ResourceData) (addresses : list string) :
  forall acc res,
    setDhcp_loop d addresses acc = Ret (res, None) ->
    exists planned,
      res = acc ++ planned /\ Forall2 planned_from addresses planned.
Proof.
  induction addresses as [|a rest IH]; intros acc res H.
  - cbn in H. simplify_eq. exists []. rewrite app_nil_r.
    split; [reflexivity|constructor].
  - cbn [setDhcp_loop] in H.
    destruct (setNetworkIP a) as [[[dni dhcp] err]|msg] eqn:Hs;
      [|discriminate].
    destruct dni as [dni|], err; try discriminate.
    apply IH in H as (planned & -> & HF).
    eexists (_ :: planned). rewrite <- app_assoc. split; [reflexivity|].
    constructor; [|exact HF].
    exists dni, dhcp. split; [exact Hs|].
    destruct (Get_dhcp_enabled d); repeat split.
Qed.

Lemma read_addresses_entries (addresses : list string) :
  forall planned acc,
    Forall2 planned_from addresses planned ->
    Forall (fun a => v4_mapped_block a = false) addresses ->
    read_addresses planned acc
    = (acc ++ map canonical_cidr addresses, None).
Proof.
  induction addresses as [|a rest IH]; intros planned acc HF Hm.
  - inversion HF; subst. cbn. rewrite app_nil_r. reflexivity.
  - inversion HF as [|? i ? planned' (dni & dhcp & Hs & HA & HP & _) HF'];
      subst.
    inversion Hm; subst.
    rewrite (read_addresses_planned a dni dhcp i planned' acc) by assumption.
    rewrite IH by assumption.
    rewrite <- app_assoc. reflexivity.
Qed.

(** X18.  The address projection of the reader undoes the planner.  For
    address texts that are all planned, none of them an IPv4-mapped IPv6
    block, reading the address blocks of the definition back gives the
    canonical text of each block (network address, slash, prefix length),
    whether DHCP is on or off; texts written in canonical form come back as
    they were written. *)
Theorem read_addresses_inverts_plan (d : ResourceData)
    (networkDef networkDef' : Network) :
  rd_addresses d <> [] ->
  setDhcpByCIDRAdressesSubnets d networkDef = Ret (networkDef', None) ->
  Forall (fun a => v4_mapped_block a = false) (rd_addresses d) ->
  read_addresses (IPs networkDef') []
  = (map canonical_cidr (rd_addresses d), None)
  /\ (Forall (fun a => canonical_cidr a = a) (rd_addresses d) ->
      read_addresses (IPs networkDef') [] = (rd_addresses d, None)).
Proof.
  intros Hne H Hm. unfold setDhcpByCIDRAdressesSubnets, GetOk_list in H.
  destruct (rd_addresses d) as [|a rest] eqn:Ha; [contradiction|].
  cbn [net.isnil negb] in H.
  destruct (setDhcp_loop d (a :: rest) []) as [[res err]|msg] eqn:Hl;
    [|discriminate].
  destruct err; [discriminate|]. simplify_eq. cbn [IPs with_IPs].
  apply setDhcp_loop_entries in Hl as (planned & -> & HF).
  rewrite app_nil_l.
  pose proof (read_addresses_entries _ _ [] HF Hm) as Hr.
  rewrite app_nil_l in Hr.
  split; [exact Hr|].
  intros Hc. rewrite Hr. f_equal.
  clear -Hc. induction Hc as [|x l Hx Hl IH]; [reflexivity|].
  cbn [map]. rewrite Hx, IH. reflexivity.
Qed.

Lemma read_addresses_inverts_plan_witness :
  exists networkDef',
    setDhcpByCIDRAdressesSubnets dual_stack default_def
    = Ret (networkDef', None)
    /\ read_addresses (IPs networkDef') []
       = (["10.17.3.0/24"; "fd00:17:3::/64"], None).
Proof.
  eexists. split; [vm_compute; reflexivity|].
  refine (proj2 (read_addresses_inverts_plan dual_stack default_def _
                   ltac:(discriminate) eq_refl _) _).
  - repeat constructor.
  - repeat constructor.
Defined.

(** ** Which calls each operation makes *)

Lemma calls_only_ret {A} (allowed : Call -> bool) (a : A) :
  calls_only allowed (ret a).
Proof. intros h. exists []. rewrite app_nil_r. split; reflexivity. Qed.

Lemma calls_only_panic {A} (allowed : Call -> bool) (msg : string) :
  calls_only allowed (panic (A := A) msg).
Proof. intros h. exists []. rewrite app_nil_r. split; reflexivity. Qed.

Lemma calls_only_call {A} (allowed : Call -> bool) (c : Call)
    (answer : History -> A) :
  allowed c = true -> calls_only allowed (call c answer).
Proof.
  intros Hc h. exists [c]. split; [reflexivity|]. cbn. rewrite Hc.
  reflexivity.
Qed.

Lemma calls_only_bind {A B} (allowed : Call -> bool) (m : M A)
    (k : A -> M B) :
  calls_only allowed m -> (forall a, calls_only allowed (k a)) ->
  calls_only allowed (bind m k).
Proof.
  intros Hm Hk h. unfold bind.
  destruct (Hm h) as (ext & He & Ha).
  destruct (m h) as [[a|msg] h']; cbn [snd] in He; subst h'.
  - destruct (Hk a (h ++ ext)) as (ext' & He' & Ha').
    exists (ext ++ ext'). rewrite He', app_assoc.
    split; [reflexivity|]. rewrite forallb_app, Ha, Ha'. reflexivity.
  - exists ext. split; [reflexivity|exact Ha].
Qed.

Lemma calls_only_method {A} (allowed : Call -> bool) (n : option Handle)
    (c : Handle -> Call) (answer : History -> Handle -> A) :
  (forall p, allowed (c p) = true) ->
  calls_only allowed (method n c answer).
Proof.
  intros Hc. destruct n as [p|]; cbn [method].
  - apply calls_only_call. apply Hc.
  - apply calls_only_panic.
Qed.

Lemma calls_only_defer_Free {A} (allowed : Call -> bool) (virConn : Service)
    (network : option Handle) (body : M A) :
  (forall p, allowed (CFree p) = true) ->
  calls_only allowed body ->
  calls_only allowed (defer_Free virConn network body).
Proof.
  intros Hf Hb h. unfold defer_Free.
  destruct (Hb h) as (ext & He & Ha).
  destruct (calls_only_method allowed network CFree (Free virConn) Hf
              (h ++ ext)) as (ext' & He' & Ha').
  destruct (body h) as [[a|msg] h']; cbn [snd] in He; subst h';
    destruct (method network CFree (Free virConn) (h ++ ext))
      as [[r|msg'] h'']; cbn [snd] in He'; subst h'';
    exists (ext ++ ext'); rewrite app_assoc;
    (split; [reflexivity|]); rewrite forallb_app, Ha, Ha'; reflexivity.
Qed.

Lemma calls_only_slept (allowed : Call -> bool) (d : Z) (h : History) :
  (forall d, allowed (CSleep d) = true) ->
  exists ext, slept d h = h ++ ext /\ forallb allowed ext = true.
Proof.
  intros Hs. unfold slept. destruct (0 <? d).
  - exists [CSleep d]. split; [reflexivity|]. cbn. rewrite Hs. reflexivity.
  - exists []. rewrite app_nil_r. split; reflexivity.
Qed.

Lemma calls_only_WaitForState_loop (allowed : Call -> bool)
    (conf : StateChangeConf) :
  (forall d, allowed (CSleep d) = true) ->
  calls_only allowed (Refresh conf) ->
  forall fuel elapsed wait tick last h r,
    WaitForState_loop fuel conf elapsed wait tick last h = Some r ->
    exists ext, snd r = h ++ ext /\ forallb allowed ext = true.
Proof.
  intros Hs Hr.
  induction fuel as [|fuel IH]; intros elapsed wait tick last h r H;
    [discriminate|].
  cbn [WaitForState_loop] in H.
  destruct (Timeout conf <=? elapsed + wait).
  - simplify_eq. cbn [snd]. apply calls_only_slept. exact Hs.
  - destruct (calls_only_slept allowed wait h Hs) as (e1 & He1 & Ha1).
    destruct (Hr (slept wait h)) as (e2 & He2 & Ha2).
    assert (Hdone : forall o : outcome (option refreshed * error),
               exists ext, snd (o, snd (Refresh conf (slept wait h)))
                           = h ++ ext /\ forallb allowed ext = true).
    { intros o. exists (e1 ++ e2). cbn [snd].
      rewrite He2, He1, app_assoc. split; [reflexivity|].
      rewrite forallb_app, Ha1, Ha2. reflexivity. }
    assert (Hnext : forall el w t l r,
               WaitForState_loop fuel conf el w t l
                 (snd (Refresh conf (slept wait h))) = Some r ->
               exists ext, snd r = h ++ ext /\ forallb allowed ext = true).
    { intros el w t l r' H'. apply IH in H' as (e3 & He3 & Ha3).
      exists (e1 ++ e2 ++ e3).
      rewrite He3, He2, He1, !app_assoc. split; [reflexivity|].
      rewrite !forallb_app, Ha1, Ha2, Ha3. reflexivity. }
    destruct (Refresh conf (slept wait h)) as [[[[res st] err]|msg] h'];
      cbn [snd] in *.
    + destruct res, err; repeat case_match; simplify_eq;
        first [apply (Hdone (Ret (None, None))) | eapply Hnext; eassumption
              | eapply (Hdone _) ].
    + simplify_eq. apply (Hdone (Panic msg)).
Qed.

Lemma calls_only_WaitForState (allowed : Call -> bool)
    (conf : StateChangeConf) :
  (forall d, allowed (CSleep d) = true) ->
  calls_only allowed (Refresh conf) ->
  calls_only allowed (WaitForState conf).
Proof.
  intros Hs Hr h. unfold WaitForState.
  destruct (calls_only_slept allowed (Delay conf) h Hs) as (e1 & He1 & Ha1).
  destruct (WaitForState_loop _ conf _ 0 0 "" (slept (Delay conf) h))
    as [r|] eqn:Hl.
  - apply (calls_only_WaitForState_loop allowed conf Hs Hr) in Hl
      as (e2 & He2 & Ha2).
    exists (e1 ++ e2). rewrite He2, He1, app_assoc. split; [reflexivity|].
    rewrite forallb_app, Ha1, Ha2. reflexivity.
  - exists e1. cbn [snd]. split; [exact He1|exact Ha1].
Qed.

Lemma calls_only_weaken {A} (a1 a2 : Call -> bool) (m : M A) :
  (forall c, a1 c = true -> a2 c = true) ->
  calls_only a1 m -> calls_only a2 m.
Proof.
  intros Hw Hm h. destruct (Hm h) as (ext & He & Ha).
  exists ext. split; [exact He|].
  rewrite forallb_forall in *. intros c Hc. apply Hw, Ha, Hc.
Qed.

Ltac calls_only_step :=
  first
    [ apply calls_only_ret
    | apply calls_only_panic
    | apply calls_only_call; reflexivity
    | apply calls_only_method; intros; reflexivity
    | apply calls_only_defer_Free; [intros; reflexivity|]
    | apply calls_only_WaitForState; [intros; reflexivity|]
    | apply calls_only_bind; [|intros ?]
    | match goal with
      | |- calls_only _ (match ?x with _ => _ end) => destruct x
      | |- calls_only _ (if ?x then _ else _) => destruct x
      end ].

(** The refresh function of the create wait only asks [IsActive]. *)
Lemma waitForNetworkActive_calls (allowed : Call -> bool)
    (virConn : Service) (network : Handle) :
  allowed (CIsActive network) = true ->
  calls_only allowed (waitForNetworkActive virConn network).
Proof.
  intros Ha. unfold waitForNetworkActive.
  apply calls_only_bind; [apply calls_only_call; exact Ha|].
  intros [active [e|]]; [|destruct active]; apply calls_only_ret.
Qed.

(** The refresh function of the delete wait only looks the network up,
    and frees the handle it got. *)
Lemma waitForNetworkDestroyed_calls (virConn : Service) (uuid : string) :
  calls_only lookup_only (waitForNetworkDestroyed virConn uuid).
Proof.
  unfold waitForNetworkDestroyed, assert_libvirt_Error.
  repeat calls_only_step.
Qed.

Lemma resourceLibvirtNetworkRead_reads (LibVirtConIsNil : string)
    (d : ResourceData) (meta : Client) :
  calls_only reads_only (resourceLibvirtNetworkRead LibVirtConIsNil d meta).
Proof.
  unfold resourceLibvirtNetworkRead. repeat calls_only_step.
Qed.

(** X17.  Reading only reads: whatever libvirt answers, the calls of
    [resourceLibvirtNetworkRead] are the lookup, the XML description, the
    autostart flag and the release of the handle; nothing is started,
    stopped, defined or removed. *)
Theorem Read_calls (LibVirtConIsNil : string) (d : ResourceData)
    (meta : Client) :
  calls_only reads_only (resourceLibvirtNetworkRead LibVirtConIsNil d meta).
Proof.
  unfold resourceLibvirtNetworkRead. repeat calls_only_step.
Qed.

(** X2.  The existence check only looks the network up and releases the
    handle. *)
Theorem Exists_calls (LibVirtConIsNil : string) (d : ResourceData)
    (meta : Client) :
  calls_only lookup_only
    (resourceLibvirtNetworkExists LibVirtConIsNil d meta).
Proof.
  unfold resourceLibvirtNetworkExists. repeat calls_only_step.
Qed.

(** X5.  An update never defines, stops or removes a network: its calls are
    the lookup, the activity check, a start, the autostart setting and the
    release of the handle. *)
Theorem Update_calls (LibVirtConIsNil : string) (d : ResourceData)
    (meta : Client) :
  calls_only update_calls
    (resourceLibvirtNetworkUpdate LibVirtConIsNil d meta).
Proof.
  unfold resourceLibvirtNetworkUpdate. repeat calls_only_step.
Qed.

(** X13.  Creation has no rollback: whatever libvirt answers and however the
    wait ends, [resourceLibvirtNetworkCreate] never calls [Destroy] or
    [Undefine]. *)
Theorem Create_never_removes (LibVirtConIsNil : string)
    (newNetworkDef : Network)
    (xmlMarshallIndented : Network -> string * error)
    (d : ResourceData) (meta : Client) :
  calls_only not_removing
    (resourceLibvirtNetworkCreate LibVirtConIsNil newNetworkDef
       xmlMarshallIndented d meta).
Proof.
  unfold resourceLibvirtNetworkCreate.
  repeat first
    [ apply (calls_only_weaken reads_only);
      [intros []; cbn; congruence | apply resourceLibvirtNetworkRead_reads]
    | apply waitForNetworkActive_calls; reflexivity
    | calls_only_step ].
Qed.

(** X21.  Deletion never defines a network and never touches the autostart
    flag: its calls are lookups, the activity check, a start, the stop,
    the removal, the sleeps of the wait and releases of handles. *)
Theorem Delete_calls (LibVirtConIsNil : string) (d : ResourceData)
    (meta : Client) :
  calls_only delete_calls
    (resourceLibvirtNetworkDelete LibVirtConIsNil d meta).
Proof.
  unfold resourceLibvirtNetworkDelete.
  repeat first
    [ apply (calls_only_weaken lookup_only);
      [intros []; cbn; congruence | apply waitForNetworkDestroyed_calls]
    | calls_only_step ].
Qed.

(** ** Exists and update *)

(** X1.  The answers of the existence check.  A lookup that succeeds is "yes",
    and the handle is released; a lookup that fails with the libvirt code
    "no network" is "no" without error; any other lookup error is
    returned as it is. *)
Theorem Exists_answers (LibVirtConIsNil : string) (d : ResourceData)
    (virConn : Service) (h : History) :
  let meta := {| libvirt_conn := Some virConn |} in
  let h1 := h ++ [CLookupNetworkByUUIDString (Id d)] in
  (forall n,
      LookupNetworkByUUIDString virConn h (Id d) = (Some n, None) ->
      resourceLibvirtNetworkExists LibVirtConIsNil d meta h
      = (Ret (true, None), h1 ++ [CFree n]))
  /\ (forall network e,
         LookupNetworkByUUIDString virConn h (Id d)
         = (network, Some (ErrLibvirt e)) ->
         libvirt.Code e = libvirt.ERR_NO_NETWORK ->
         resourceLibvirtNetworkExists LibVirtConIsNil d meta h
         = (Ret (false, None), h1))
  /\ (forall network e,
         LookupNetworkByUUIDString virConn h (Id d) = (network, Some e) ->
         (forall lverr, e = ErrLibvirt lverr ->
                        libvirt.Code lverr <> libvirt.ERR_NO_NETWORK) ->
         resourceLibvirtNetworkExists LibVirtConIsNil d meta h
         = (Ret (false, Some e), h1)).
Proof.
  intros meta h1. unfold resourceLibvirtNetworkExists, bind, call.
  cbn [libvirt_conn meta]. repeat split.
  - intros n Hl. rewrite Hl. reflexivity.
  - intros network e Hl Hc. rewrite Hl, Hc, Z.eqb_refl. reflexivity.
  - intros network e Hl Hc. rewrite Hl.
    destruct e as [s|lverr| | |]; try reflexivity.
    specialize (Hc lverr eq_refl).
    replace (libvirt.Code lverr =? libvirt.ERR_NO_NETWORK) with false
      by (symmetry; apply Z.eqb_neq; exact Hc).
    reflexivity.
Qed.

(** X3.  An update that succeeds.  After the lookup and the activity check the
    network is started exactly when it was found inactive, the autostart
    flag is written exactly when it has changed, with the value of the
    resource data, and the handle is released; with an active network and
    an unchanged flag nothing is changed at libvirt. *)
Theorem Update_success (LibVirtConIsNil : string) (d : ResourceData)
    (virConn : Service) (n : Handle) (active : bool) (h : History) :
  let meta := {| libvirt_conn := Some virConn |} in
  let h1 := h ++ [CLookupNetworkByUUIDString (Id d)] in
  let h2 := h1 ++ [CIsActive n] in
  let h3 := if active then h2 else h2 ++ [CCreate n] in
  let h4 := if rd_autostart_changed d
            then h3 ++ [CSetAutostart n (rd_autostart d)] else h3 in
  LookupNetworkByUUIDString virConn h (Id d) = (Some n, None) ->
  IsActive virConn h1 n = (active, None) ->
  (active = false -> Create virConn h2 n = None) ->
  (rd_autostart_changed d = true ->
   SetAutostart virConn h3 n (rd_autostart d) = None) ->
  resourceLibvirtNetworkUpdate LibVirtConIsNil d meta h
  = (Ret None, h4 ++ [CFree n]).
Proof.
  intros meta h1 h2 h3 h4 Hl Ha Hc Hs.
  unfold resourceLibvirtNetworkUpdate. cbn [libvirt_conn meta].
  unfold bind at 1. unfold call at 1. rewrite Hl.
  unfold defer_Free, method, bind, call, ret.
  fold h1. rewrite Ha. fold h2.
  destruct active; cbn [negb].
  - subst h3 h4. destruct (rd_autostart_changed d).
    + rewrite (Hs eq_refl). reflexivity.
    + reflexivity.
  - rewrite (Hc eq_refl). subst h3 h4.
    destruct (rd_autostart_changed d).
    + rewrite (Hs eq_refl). reflexivity.
    + reflexivity.
Qed.

Lemma Update_success_witness :
  resourceLibvirtNetworkUpdate "no connection" k8snet_autostart
    (sim_client true false default_def) []
  = (Ret None,
     [CLookupNetworkByUUIDString "5a1b"; CIsActive 1; CCreate 1;
      CSetAutostart 1 true; CFree 1]).
Proof.
  exact (Update_success "no connection" k8snet_autostart
           (sim true false default_def) 1 false []
           eq_refl eq_refl (fun _ => eq_refl) (fun _ => eq_refl)).
Defined.

(** X4.  An update whose reactivation fails stops there: the error is
    returned, the autostart flag is not written, the handle is
    released. *)
Theorem Update_activation_fails (LibVirtConIsNil : string)
    (d : ResourceData) (virConn : Service) (n : Handle) (h : History)
    (e : error_value) :
  let meta := {| libvirt_conn := Some virConn |} in
  let h1 := h ++ [CLookupNetworkByUUIDString (Id d)] in
  let h2 := h1 ++ [CIsActive n] in
  LookupNetworkByUUIDString virConn h (Id d) = (Some n, None) ->
  IsActive virConn h1 n = (false, None) ->
  Create virConn h2 n = Some e ->
  resourceLibvirtNetworkUpdate LibVirtConIsNil d meta h
  = (Ret (Errorf "Error by activating network during update: " e),
     h2 ++ [CCreate n; CFree n]).
Proof.
  intros meta h1 h2 Hl Ha Hc.
  unfold resourceLibvirtNetworkUpdate. cbn [libvirt_conn meta].
  unfold bind at 1. unfold call at 1. rewrite Hl.
  unfold defer_Free, method, bind, call, ret.
  fold h1. rewrite Ha. fold h2. cbn [negb]. rewrite Hc.
  rewrite <- app_assoc. reflexivity.
Qed.

Lemma Exists_answers_witness :
  resourceLibvirtNetworkExists "no connection" k8snet_created
    (sim_client true false default_def) []
  = (Ret (true, None), [CLookupNetworkByUUIDString "5a1b"; CFree 1])
  /\ resourceLibvirtNetworkExists "no connection" k8snet_created
       (sim_client false false default_def) []
     = (Ret (false, None), [CLookupNetworkByUUIDString "5a1b"]).
Proof.
  split.
  - exact (proj1 (Exists_answers "no connection" k8snet_created
                    (sim true false default_def) []) 1 eq_refl).
  - exact (proj1 (proj2 (Exists_answers "no connection" k8snet_created
                           (sim false false default_def) []))
             None
             {| libvirt.Code := libvirt.ERR_NO_NETWORK;
                libvirt.Domain := 19;
                libvirt.Message := "Network not found" |}
             eq_refl eq_refl).
Defined.

Lemma Update_activation_fails_witness :
  resourceLibvirtNetworkUpdate "no connection" k8snet_autostart
    {| libvirt_conn :=
         Some (failing_Create internal_error (sim true false default_def)) |}
    []
  = (Ret (Errorf "Error by activating network during update: "
            internal_error),
     [CLookupNetworkByUUIDString "5a1b"; CIsActive 1; CCreate 1; CFree 1]).
Proof.
  exact (Update_activation_fails "no connection" k8snet_autostart
           (failing_Create internal_error (sim true false default_def))
           1 [] internal_error eq_refl eq_refl eq_refl).
Defined.

(** ** Delete: where it stops *)

(** X19.  Deleting a network that the lookup does not find is an error: the
    lookup error is returned, wrapped, and nothing else is called. *)
Theorem Delete_missing_network (LibVirtConIsNil : string)
    (d : ResourceData) (virConn : Service) (h : History)
    (network : option Handle) (e : error_value) :
  LookupNetworkByUUIDString virConn h (Id d) = (network, Some e) ->
  resourceLibvirtNetworkDelete LibVirtConIsNil d
    {| libvirt_conn := Some virConn |} h
  = (Ret (Errorf "When destroying libvirt network: error retrieving " e),
     h ++ [CLookupNetworkByUUIDString (Id d)]).
Proof.
  intros Hl. unfold resourceLibvirtNetworkDelete, bind, call.
  cbn [libvirt_conn]. rewrite Hl. reflexivity.
Qed.

Lemma Delete_missing_network_witness :
  resourceLibvirtNetworkDelete "no connection" k8snet_created
    (sim_client false false default_def) []
  = (Ret (Errorf "When destroying libvirt network: error retrieving "
            no_network),
     [CLookupNetworkByUUIDString "5a1b"]).
Proof.
  exact (Delete_missing_network "no connection" k8snet_created
           (sim false false default_def) [] None no_network eq_refl).
Defined.

(** X20.  A deletion whose [Destroy] fails stops there: the network is started
    first only when it was inactive, the error of [Destroy] is returned,
    wrapped, and neither [Undefine] nor the wait follows. *)
Theorem Delete_destroy_fails (LibVirtConIsNil : string) (d : ResourceData)
    (virConn : Service) (n : Handle) (active : bool) (h : History)
    (e : error_value) :
  let h1 := h ++ [CLookupNetworkByUUIDString (Id d)] in
  let h2 := h1 ++ [CIsActive n] in
  let h3 := if active then h2 else h2 ++ [CCreate n] in
  LookupNetworkByUUIDString virConn h (Id d) = (Some n, None) ->
  IsActive virConn h1 n = (active, None) ->
  (active = false -> Create virConn h2 n = None) ->
  Destroy virConn h3 n = Some e ->
  resourceLibvirtNetworkDelete LibVirtConIsNil d
    {| libvirt_conn := Some virConn |} h
  = (Ret (Errorf "When destroying libvirt network: " e),
     h3 ++ [CDestroy n; CFree n]).
Proof.
  intros h1 h2 h3 Hl Ha Hc Hd.
  unfold resourceLibvirtNetworkDelete. cbn [libvirt_conn].
  unfold bind at 1. unfold call at 1. rewrite Hl.
  unfold defer_Free, method, bind, call, ret.
  fold h1. rewrite Ha. fold h2.
  destruct active; cbn [negb]; subst h3.
  - rewrite Hd. rewrite <- app_assoc. reflexivity.
  - rewrite (Hc eq_refl), Hd. rewrite <- app_assoc. reflexivity.
Qed.

Lemma Delete_destroy_fails_witness :
  resourceLibvirtNetworkDelete "no connection" k8snet_created
    {| libvirt_conn :=
         Some (failing_Destroy internal_error (sim true false default_def)) |}
    []
  = (Ret (Errorf "When destroying libvirt network: " internal_error),
     [CLookupNetworkByUUIDString "5a1b"; CIsActive 1; CCreate 1;
      CDestroy 1; CFree 1]).
Proof.
  exact (Delete_destroy_fails "no connection" k8snet_created
           (failing_Destroy internal_error (sim true false default_def))
           1 false [] internal_error eq_refl eq_refl (fun _ => eq_refl)
           eq_refl).
Defined.

(** ** Create: validation comes first *)

(** A build that fails makes creation return its error at once. *)
Lemma Create_build_error (LibVirtConIsNil : string)
    (newNetworkDef : Network)
    (xmlMarshallIndented : Network -> string * error)
    (d : ResourceData) (virConn : Service) (h : History)
    (networkDef : option Network) (e : error_value) :
  buildNetworkDef newNetworkDef d = Ret (networkDef, Some e) ->
  resourceLibvirtNetworkCreate LibVirtConIsNil newNetworkDef
    xmlMarshallIndented d {| libvirt_conn := Some virConn |} h
  = (Ret (d, Some e), h).
Proof.
  intros Hb. unfold resourceLibvirtNetworkCreate. cbn [libvirt_conn].
  rewrite Hb. destruct networkDef; reflexivity.
Qed.

(** ** Definition builder: what a build fixes *)





(** X6.  A definition that is built has the name of the resource; a bridge
    block with the bridge name of the resource (empty when none is
    given) and STP on; a forward block exactly in the modes "nat" and
    "route", holding the mode and no NAT block, whatever forward block
    the initial definition had; the domain block of the resource when a
    domain is given, marked local-only exactly when that switch is set,
    and otherwise the domain block of the initial definition.  Without
    addresses the address blocks, and without DNS forwarders the DNS
    block, are those of the initial definition. *)
Theorem buildNetworkDef_shape (newNetworkDef : Network) (d : ResourceData)
    (networkDef : Network) :
  buildNetworkDef newNetworkDef d = Ret (Some networkDef, None) ->
  Name networkDef = rd_name d
  /\ Bridge networkDef = Some {| BridgeName := rd_bridge d; STP := "on" |}
  /\ Forward networkDef = forward_of (ToLower (Get_mode d))
  /\ Domain networkDef = domain_of newNetworkDef d
  /\ (rd_addresses d = [] -> IPs networkDef = IPs newNetworkDef)
  /\ (rd_dns_forwarders d = [] -> DNS networkDef = DNS newNetworkDef).
Proof.
  intros H. unfold buildNetworkDef in H.
  unfold forward_of, domain_of.
  assert (Hbr : (let '(b, ok) := GetOk_string (rd_bridge d) in
                 if ok then b else "") = rd_bridge d).
  { unfold GetOk_string.
    destruct (String.eqb_spec (rd_bridge d) "") as [->|]; reflexivity. }
  rewrite Hbr in H. clear Hbr.
  assert (Hdom : Domain
                   (let '(domain, ok) := GetOk_string (rd_domain d) in
                    if ok then
                      let '(dnsLocalOnly, ok0) :=
                        GetOk_bool (default false (rd_dns_local_only d)) in
                      with_Domain
                        (Some {| DomainName := domain;
                                 LocalOnly := if ok0 && dnsLocalOnly
                                              then "yes" else "" |})
                        (with_Name (rd_name d) newNetworkDef)
                    else with_Name (rd_name d) newNetworkDef)
                 = (if String.eqb (rd_domain d) "" then Domain newNetworkDef
                    else Some {| DomainName := rd_domain d;
                                 LocalOnly := match rd_dns_local_only d with
                                              | Some true => "yes"
                                              | _ => ""
                                              end |})).
  { unfold GetOk_string, GetOk_bool.
    destruct (String.eqb (rd_domain d) ""); cbn [negb]; [reflexivity|].
    destruct (rd_dns_local_only d) as [[|]|]; reflexivity. }
  rewrite <- Hdom. clear Hdom.
  set (base := let '(domain, ok) := GetOk_string (rd_domain d) in _) in *.
  assert (Hname : Name base = rd_name d).
  { subst base. destruct (GetOk_string (rd_domain d)) as [dom [|]];
      [destruct (GetOk_bool _)|]; reflexivity. }
  assert (Hips : IPs base = IPs newNetworkDef).
  { subst base. destruct (GetOk_string (rd_domain d)) as [dom [|]];
      [destruct (GetOk_bool _)|]; reflexivity. }
  assert (Hdns : DNS base = DNS newNetworkDef).
  { subst base. destruct (GetOk_string (rd_domain d)) as [dom [|]];
      [destruct (GetOk_bool _)|]; reflexivity. }
  clearbody base.
  set (mode := ToLower (Get_mode d)) in *. clearbody mode.
  unfold setDhcpByCIDRAdressesSubnets, GetOk_list, GetOk_count in H.
  destruct (String.eqb mode netModeIsolated) eqn:Ei.
  - apply String.eqb_eq in Ei. subst mode.
    cbn [orb] in H. cbv iota in H.
    change (String.eqb netModeIsolated netModeNat) with false.
    change (String.eqb netModeIsolated netModeRoute) with false.
    cbn [orb]. cbv iota.
    destruct (rd_addresses d) as [|a rest];
      destruct (rd_dns_forwarders d) as [|f fs];
      cbn [net.isnil negb] in H;
      repeat case_match; simplify_eq; cbn;
      repeat split; try assumption; try reflexivity;
      intros; try discriminate; assumption.
  - destruct (String.eqb mode netModeNat) eqn:En.
    + apply String.eqb_eq in En. subst mode.
      cbn [orb] in H. cbv iota in H.
      change (String.eqb netModeNat netModeRoute) with false in H.
      cbv iota in H.
      destruct (rd_addresses d) as [|a rest];
        destruct (rd_dns_forwarders d) as [|f fs];
        cbn [net.isnil negb] in H;
        repeat case_match; simplify_eq; cbn;
        repeat split; try assumption; try reflexivity;
        intros; try discriminate; assumption.
    + destruct (String.eqb mode netModeRoute) eqn:Er.
      * apply String.eqb_eq in Er. subst mode.
        cbn [orb] in H. cbv iota in H.
        destruct (rd_addresses d) as [|a rest];
          destruct (rd_dns_forwarders d) as [|f fs];
          cbn [net.isnil negb] in H;
          repeat case_match; simplify_eq; cbn;
          repeat split; try assumption; try reflexivity;
          intros; try discriminate; assumption.
      * cbn [orb] in H. cbv iota in H.
        destruct (String.eqb mode netModeBridge); [|discriminate].
        destruct (String.eqb (rd_bridge d) ""); [discriminate|].
        simplify_eq. cbn.
        repeat split; try assumption; try reflexivity;
          intros; assumption.
Qed.

Lemma buildNetworkDef_shape_witness :
  exists networkDef,
    buildNetworkDef default_def k8snet_routed = Ret (Some networkDef, None)
    /\ Name networkDef = "k8snet"
    /\ Bridge networkDef = Some {| BridgeName := ""; STP := "on" |}
    /\ Forward networkDef = Some {| Mode := "route"; NAT := None |}
    /\ Domain networkDef
       = Some {| DomainName := "k8s.local"; LocalOnly := "" |}.
Proof.
  eexists. split; [reflexivity|].
  destruct (buildNetworkDef_shape default_def k8snet_routed _ eq_refl)
    as (Hn & Hb & Hf & Hd & _).
  repeat split; assumption.
Defined.

(** ** The planner on every input *)

Lemma ParseCIDR_outcomes (s : string) :
  net.ParseCIDR s
  = ([], None, Some (ErrorString ("invalid CIDR address: " +:+ s)))
  \/ exists ip ipNet, net.ParseCIDR s = (ip, Some ipNet, None).
Proof.
  unfold net.ParseCIDR.
  destruct (net.split_slash s) as [[addr mask]|]; [|left; reflexivity].
  cbv zeta. destruct (net.dtoi mask) as [[n i] ok].
  match goal with |- context [if ?c then _ else _] => destruct c end;
    [left; reflexivity|right; eauto].
Qed.

(** X23.  Whatever the text of an address entry, the planner returns, and in
    one of three ways: the entry is no CIDR block and the error says so;
    the block has no host bit and the error is the range error, whose
    text then always counts "-3 IPs"; or there is a plan, made of an
    interface entry without DHCP block and of a DHCP block with one
    range. *)
Theorem setNetworkIP_outcomes (address : string) :
  setNetworkIP address = Ret (None, None, Some (not_a_cidr address))
  \/ (exists family,
        (family = "ipv4" \/ family = "ipv6")
        /\ setNetworkIP address
           = Ret (None, None,
                  Some (ErrorString
                          ("Netmask seems to be too strict: only -3 IPs available ("
                             +:+ family +:+ ")"))))
  \/ (exists dni range,
        setNetworkIP address
        = Ret (Some dni, Some {| Ranges := [range] |}, None)
        /\ DHCP dni = None
        /\ (Family dni = "ipv4" /\ 0 <= Prefix dni < 32
            \/ Family dni = "ipv6" /\ 0 <= Prefix dni < 128)).
Proof.
  destruct (ParseCIDR_outcomes address) as [Hp | (ip & ipNet & Hp)].
  - left. unfold setNetworkIP. rewrite Hp. reflexivity.
  - right.
    destruct (setNetworkIP_plan _ _ _ Hp)
      as (ones & bits & Hs & Hb & Hn & _ & _ & Hrej & Hplan).
    destruct (Z.eq_dec ones bits) as [He | Hne].
    + left. rewrite (Hrej He). subst ones.
      destruct Hb as [-> | ->]; [exists "ipv4" | exists "ipv6"];
        (split; [auto|reflexivity]).
    + right.
      destruct (Hplan ltac:(lia)) as (a1 & a2 & b1 & Heq & _).
      eexists _, _. split; [exact Heq|].
      split; [reflexivity|]. cbn [Family Prefix].
      destruct Hb as [-> | ->]; [left | right];
        (split; [reflexivity|lia]).
Qed.

(** ** Address entries: the first error ends the loop *)

Lemma setDhcp_loop_app (d : ResourceData) (good : list string) :
  forall rest acc planned,
    setDhcp_loop d good acc = Ret (planned, None) ->
    setDhcp_loop d (good ++ rest) acc = setDhcp_loop d rest planned.
Proof.
  induction good as [|a good IH]; intros rest acc planned H.
  - cbn in H. injection H as <-. reflexivity.
  - cbn [setDhcp_loop app] in *.
    destruct (setNetworkIP a) as [[[[dni|] dhcp] [e|]]|]; try discriminate.
    apply IH. exact H.
Qed.

(** X22.  When an address entry cannot be planned and the entries before it
    can, the error of that entry is returned and the definition is left
    as it was, with none of the planned blocks in it; the entries after
    it are not looked at, so the result is the same whatever they are. *)
Theorem setDhcp_first_error (d : ResourceData) (networkDef : Network)
    (good : list string) (bad : string) (rest : list string)
    (planned : list NetworkIP) (dni : option NetworkIP)
    (dhcp : option NetworkDHCP) (e : error_value) :
  rd_addresses d = good ++ bad :: rest ->
  setDhcp_loop d good [] = Ret (planned, None) ->
  setNetworkIP bad = Ret (dni, dhcp, Some e) ->
  setDhcpByCIDRAdressesSubnets d networkDef = Ret (networkDef, Some e).
Proof.
  intros Ha Hg Hb.
  unfold setDhcpByCIDRAdressesSubnets, GetOk_list. rewrite Ha.
  replace (negb (net.isnil (good ++ bad :: rest))) with true
    by (destruct good; reflexivity).
  rewrite (setDhcp_loop_app d good (bad :: rest) [] planned Hg).
  cbn [setDhcp_loop]. rewrite Hb. destruct dni; reflexivity.
Qed.

Lemma setDhcp_first_error_witness :
  setDhcpByCIDRAdressesSubnets k8snet_bad_address default_def
  = Ret (default_def, Some (not_a_cidr "10.17.4.0")).
Proof.
  exact (setDhcp_first_error k8snet_bad_address default_def
           ["10.17.3.0/24"] "10.17.4.0" ["10.17.5.0/24"] _ None None _
           eq_refl eq_refl eq_refl).
Defined.

(** ** DNS forwarders *)

Lemma dns_forwarders_loop_app (good : list Forwarder) :
  forall rest acc,
    Forall forwarder_ok good ->
    dns_forwarders_loop (good ++ rest) acc
    = dns_forwarders_loop rest (acc ++ map built_forwarder good).
Proof.
  induction good as [|f good IH]; intros rest acc HF.
  - cbn. rewrite app_nil_r. reflexivity.
  - inversion HF as [|? ? Hf HF']; subst.
    cbn [app dns_forwarders_loop map]. unfold GetOk_string.
    replace (acc ++ built_forwarder f :: map built_forwarder good)
      with ((acc ++ [built_forwarder f]) ++ map built_forwarder good)
      by (rewrite <- app_assoc; reflexivity).
    rewrite <- IH by assumption.
    unfold built_forwarder.
    destruct (String.eqb_spec (fwd_address f) "") as [He|Hne];
      cbn [negb].
    + destruct (String.eqb (fwd_domain f) "") eqn:Hd; cbn [negb];
        [apply String.eqb_eq in Hd; rewrite Hd|]; reflexivity.
    + destruct Hf as [Hf|Hf]; [contradiction|].
      destruct (net.ParseIP (fwd_address f)) as [|x ip] eqn:Hp;
        [contradiction|].
      cbn [net.isnil].
      destruct (String.eqb (fwd_domain f) "") eqn:Hd; cbn [negb];
        [apply String.eqb_eq in Hd; rewrite Hd|]; reflexivity.
Qed.

Lemma dns_forwarders_loop_ok (fs : list Forwarder) :
  forall acc res,
    dns_forwarders_loop fs acc = (res, None) ->
    Forall forwarder_ok fs /\ res = acc ++ map built_forwarder fs.
Proof.
  induction fs as [|f fs IH]; intros acc res H.
  - cbn in H. injection H as <-. rewrite app_nil_r. auto.
  - assert (Hf : forwarder_ok f).
    { unfold forwarder_ok.
      destruct (String.eqb_spec (fwd_address f) "") as [He|Hne]; [auto|].
      right. intros Hp. cbn [dns_forwarders_loop] in H.
      unfold GetOk_string in H. rewrite (eqb_false_of_neq _ _ Hne) in H.
      cbn [negb] in H. rewrite Hp in H. cbn [net.isnil] in H.
      discriminate H. }
    change (f :: fs) with ([f] ++ fs) in H.
    rewrite dns_forwarders_loop_app in H by (constructor; auto).
    apply IH in H as [HF ->].
    split; [constructor; assumption|].
    rewrite <- app_assoc. reflexivity.
Qed.

Lemma read_forwarders_built (fs : list Forwarder) :
  Forall canonical_forwarder fs ->
  read_forwarders (map built_forwarder fs) fs = fs.
Proof.
  induction fs as [|f fs IH]; intros HF; [reflexivity|].
  inversion HF as [|? ? Hf HF']; subst.
  cbn [map read_forwarders tail]. rewrite (IH HF'). f_equal.
  destruct f as [a dom]. unfold built_forwarder, canonical_forwarder in *.
  cbn [fwd_address fwd_domain Addr FwdDomain] in *.
  f_equal.
  - destruct (String.eqb_spec a "") as [->|Hne]; [reflexivity|].
    destruct Hf as [Hf|Hf]; [contradiction|]. rewrite Hf.
    destruct (0 <? len a); reflexivity.
  - destruct (0 <? len dom); reflexivity.
Qed.

(** X8.  In the modes that plan addresses, a definition built from a resource
    with DNS forwarders has one DNS forwarder per forwarder of the
    resource, in the same order, with the domain as given and the address
    in the text form [ParseIP] and [String] give it (empty when no address
    is given); every address given is one [ParseIP] reads.  Read back
    by [resourceLibvirtNetworkRead] over the forwarders of the resource,
    these give the forwarders of the resource again when their addresses
    are written in that text form. *)
Theorem forwarders_round_trip (newNetworkDef : Network) (d : ResourceData)
    (networkDef : Network) :
  buildNetworkDef newNetworkDef d = Ret (Some networkDef, None) ->
  plans_addresses (ToLower (Get_mode d)) = true ->
  rd_dns_forwarders d <> [] ->
  DNS networkDef
  = Some {| Forwarders := map built_forwarder (rd_dns_forwarders d) |}
  /\ Forall forwarder_ok (rd_dns_forwarders d)
  /\ (Forall canonical_forwarder (rd_dns_forwarders d) ->
      read_forwarders (map built_forwarder (rd_dns_forwarders d))
        (rd_dns_forwarders d)
      = rd_dns_forwarders d).
Proof.
  intros H Hmode Hne.
  assert (Hloop : exists fs,
             dns_forwarders_loop (rd_dns_forwarders d) [] = (fs, None)
             /\ DNS networkDef = Some {| Forwarders := fs |}).
  { unfold buildNetworkDef in H. unfold plans_addresses in Hmode.
    rewrite Hmode in H.
    destruct (setDhcpByCIDRAdressesSubnets d _) as [[def [e|]]|];
      try discriminate.
    unfold GetOk_count in H.
    destruct (rd_dns_forwarders d) as [|f fs] eqn:Hf; [contradiction|].
    cbn [net.isnil negb] in H.
    destruct (dns_forwarders_loop (f :: fs) []) as [res [e|]];
      [discriminate|].
    injection H as <-. exists res. split; reflexivity. }
  destruct Hloop as (fs & Hl & Hdns).
  apply dns_forwarders_loop_ok in Hl as [HF ->].
  split; [exact Hdns|]. split; [exact HF|].
  apply read_forwarders_built.
Qed.

Lemma forwarders_round_trip_witness :
  exists networkDef,
    buildNetworkDef default_def k8snet_forwarders
    = Ret (Some networkDef, None)
    /\ DNS networkDef
       = Some {| Forwarders :=
                   [ {| FwdDomain := ""; Addr := "8.8.8.8" |};
                     {| FwdDomain := "example.org";
                        Addr := "2001:4860:4860::8888" |} ] |}
    /\ read_forwarders
         [ {| FwdDomain := ""; Addr := "8.8.8.8" |};
           {| FwdDomain := "example.org";
              Addr := "2001:4860:4860::8888" |} ]
         (rd_dns_forwarders k8snet_forwarders)
       = rd_dns_forwarders k8snet_forwarders.
Proof.
  eexists. split; [reflexivity|].
  destruct (forwarders_round_trip default_def k8snet_forwarders _
              eq_refl eq_refl ltac:(discriminate)) as (Hd & _ & Hr).
  split; [exact Hd|].
  apply Hr.
  constructor; [right; reflexivity|].
  constructor; [right; reflexivity|constructor].
Defined.

(** ** Create: what is rejected before any call *)

(** X9.  In the modes that plan addresses, an address entry that cannot be
    planned, after entries that can, makes creation fail with the error
    of that entry, wrapped; the resource data and the history of calls
    to libvirt are left as they were: nothing is defined. *)
Theorem Create_bad_address (LibVirtConIsNil : string)
    (newNetworkDef : Network)
    (xmlMarshallIndented : Network -> string * error)
    (d : ResourceData) (virConn : Service) (h : History)
    (good : list string) (bad : string) (rest : list string)
    (planned : list NetworkIP) (dni : option NetworkIP)
    (dhcp : option NetworkDHCP) (e : error_value) :
  plans_addresses (ToLower (Get_mode d)) = true ->
  rd_addresses d = good ++ bad :: rest ->
  setDhcp_loop d good [] = Ret (planned, None) ->
  setNetworkIP bad = Ret (dni, dhcp, Some e) ->
  resourceLibvirtNetworkCreate LibVirtConIsNil newNetworkDef
    xmlMarshallIndented d {| libvirt_conn := Some virConn |} h
  = (Ret (d, Some (ErrorString ("Could not set DHCP from adresses '"
                                  +:+ Error_text e +:+ "'"))), h).
Proof.
  intros Hmode Ha Hg Hb.
  apply Create_build_error with (networkDef := None).
  unfold buildNetworkDef. unfold plans_addresses in Hmode. rewrite Hmode.
  unfold setDhcpByCIDRAdressesSubnets, GetOk_list. rewrite Ha.
  replace (negb (net.isnil (good ++ bad :: rest))) with true
    by (destruct good; reflexivity).
  rewrite (setDhcp_loop_app d good (bad :: rest) [] planned Hg).
  cbn [setDhcp_loop]. rewrite Hb. destruct dni; reflexivity.
Qed.

Lemma Create_bad_address_witness :
  resourceLibvirtNetworkCreate "no connection" default_def
    (fun _ => ("<network/>", None)) k8snet_bad_address
    (sim_client false false default_def) []
  = (Ret (k8snet_bad_address,
          Some (ErrorString
                  "Could not set DHCP from adresses 'Error parsing addresses definition '10.17.4.0': invalid CIDR address: 10.17.4.0'")),
     []).
Proof.
  exact (Create_bad_address "no connection" default_def
           (fun _ => ("<network/>", None)) k8snet_bad_address
           (sim false false default_def) []
           ["10.17.3.0/24"] "10.17.4.0" ["10.17.5.0/24"] _ None None _
           eq_refl eq_refl eq_refl eq_refl).
Defined.

(** X10.  In the modes that plan addresses, when the address entries are
    planned, a DNS forwarder whose address [ParseIP] does not read, after
    forwarders that are accepted, makes creation fail with the error that
    names that address; the resource data and the history of calls to
    libvirt are left as they were. *)
Theorem Create_bad_forwarder (LibVirtConIsNil : string)
    (newNetworkDef : Network)
    (xmlMarshallIndented : Network -> string * error)
    (d : ResourceData) (virConn : Service) (h : History)
    (networkDef : Network)
    (good : list Forwarder) (bad : Forwarder) (rest : list Forwarder) :
  plans_addresses (ToLower (Get_mode d)) = true ->
  setDhcpByCIDRAdressesSubnets d newNetworkDef = Ret (networkDef, None) ->
  rd_dns_forwarders d = good ++ bad :: rest ->
  Forall forwarder_ok good ->
  fwd_address bad <> "" ->
  net.ParseIP (fwd_address bad) = [] ->
  resourceLibvirtNetworkCreate LibVirtConIsNil newNetworkDef
    xmlMarshallIndented d {| libvirt_conn := Some virConn |} h
  = (Ret (d, Some (ErrorString ("Could not parse address '"
                                  +:+ fwd_address bad +:+ "'"))), h).
Proof.
  intros Hmode Hs Hf Hg Hne Hp.
  apply Create_build_error with (networkDef := None).
  unfold buildNetworkDef. unfold plans_addresses in Hmode. rewrite Hmode.
  assert (Hs' : forall def,
             exists def',
               setDhcpByCIDRAdressesSubnets d def = Ret (def', None)).
  { intros def. unfold setDhcpByCIDRAdressesSubnets in *.
    destruct (GetOk_list (rd_addresses d)) as [l [|]]; [|eauto].
    destruct (setDhcp_loop d l []) as [[ips [e|]]|]; try discriminate.
    eauto. }
  match goal with
  | |- context [setDhcpByCIDRAdressesSubnets d ?def] =>
      destruct (Hs' def) as [def' ->]
  end.
  unfold GetOk_count. rewrite Hf.
  replace (negb (net.isnil (good ++ bad :: rest))) with true
    by (destruct good; reflexivity).
  rewrite dns_forwarders_loop_app by assumption.
  cbn [dns_forwarders_loop]. unfold GetOk_string.
  rewrite (eqb_false_of_neq _ _ Hne). cbn [negb]. rewrite Hp.
  reflexivity.
Qed.

Lemma Create_bad_forwarder_witness :
  resourceLibvirtNetworkCreate "no connection" default_def
    (fun _ => ("<network/>", None)) k8snet_bad_forwarder
    (sim_client false false default_def) []
  = (Ret (k8snet_bad_forwarder,
          Some (ErrorString "Could not parse address 'dns.example.org'")),
     []).
Proof.
  exact (Create_bad_forwarder "no connection" default_def
           (fun _ => ("<network/>", None)) k8snet_bad_forwarder
           (sim false false default_def) [] _
           [ {| fwd_address := "8.8.8.8"; fwd_domain := "" |} ]
           {| fwd_address := "dns.example.org"; fwd_domain := "" |} []
           eq_refl eq_refl eq_refl
           ltac:(constructor; [right; discriminate|constructor])
           ltac:(discriminate) eq_refl).
Defined.

(** ** Read: what it leaves alone, and the missing bridge *)

Lemma set_observed_keeps (name bridge : string)
    (domain : option NetworkDomain) (autostart : bool)
    (addresses : list string) (forwarders : option (list Forwarder))
    (d : ResourceData) :
  let d' := set_observed name bridge domain autostart addresses
              forwarders d in
  Id d' = Id d /\ rd_mode d' = rd_mode d
  /\ rd_dhcp_enabled d' = rd_dhcp_enabled d
  /\ rd_autostart_changed d' = rd_autostart_changed d.
Proof. cbn. auto. Qed.

Lemma Read_keeps_fields (LibVirtConIsNil : string) (d : ResourceData)
    (meta : Client) (h : History) (d' : ResourceData) (err : error) :
  fst (resourceLibvirtNetworkRead LibVirtConIsNil d meta h)
  = Ret (d', err) ->
  Id d' = Id d /\ rd_mode d' = rd_mode d
  /\ rd_dhcp_enabled d' = rd_dhcp_enabled d
  /\ rd_autostart_changed d' = rd_autostart_changed d.
Proof.
  unfold resourceLibvirtNetworkRead.
  destruct (libvirt_conn meta) as [virConn|];
    [|cbn; intros H; simplify_eq; auto].
  unfold bind at 1. unfold call at 1.
  destruct (LookupNetworkByUUIDString virConn h (Id d)) as [network [e|]];
    [cbn; intros H; simplify_eq; auto|].
  unfold defer_Free, method, bind, call, ret, panic.
  destruct network as [n|]; [|cbn; discriminate].
  destruct (GetXMLDesc virConn _ n) as [networkDef [e|]];
    [cbn; intros H; simplify_eq; auto|].
  destruct (Bridge networkDef) as [bridge|]; [|cbn; discriminate].
  destruct (GetAutostart virConn _ n) as [autostart [e|]];
    [cbn; intros H; simplify_eq; auto|].
  destruct (read_addresses (IPs networkDef) []) as [addresses [e|]];
    cbn; intros H; simplify_eq; auto.
Qed.

(** X15.  Whatever libvirt answers, a read that returns leaves the id, the
    mode and the DHCP switch of the resource data as they were: it
    writes the name, the bridge, the domain, the autostart flag, the
    addresses and the DNS forwarders only, so a mode or a DHCP setting
    that libvirt reports differently goes unnoticed. *)
Theorem Read_never_writes_mode (LibVirtConIsNil : string)
    (d : ResourceData) (meta : Client) (h : History) (d' : ResourceData)
    (err : error) :
  fst (resourceLibvirtNetworkRead LibVirtConIsNil d meta h)
  = Ret (d', err) ->
  Id d' = Id d /\ rd_mode d' = rd_mode d
  /\ rd_dhcp_enabled d' = rd_dhcp_enabled d.
Proof.
  intros H. apply Read_keeps_fields in H as (Hi & Hm & Hd & _). auto.
Qed.

Lemma Read_never_writes_mode_witness :
  exists d',
    fst (resourceLibvirtNetworkRead "no connection"
           (set_mode (Some "route") k8snet_created)
           (sim_client true false k8snet_reported) [])
    = Ret (d', None)
    /\ rd_bridge d' = "virbr1"
    /\ rd_mode d' = Some "route".
Proof.
  eexists. split; [reflexivity|]. split; [reflexivity|].
  exact (proj1 (proj2 (Read_never_writes_mode "no connection"
                         (set_mode (Some "route") k8snet_created)
                         (sim_client true false k8snet_reported) []
                         _ None eq_refl))).
Defined.

(** X16.  A network whose reported definition has no bridge block makes the
    read panic on the nil pointer, after the lookup and the reading of
    the definition; the deferred [Free] of the handle still runs. *)
Theorem Read_missing_bridge_panics (LibVirtConIsNil : string)
    (d : ResourceData) (virConn : Service) (n : Handle) (h : History)
    (networkDef : Network) :
  let h1 := h ++ [CLookupNetworkByUUIDString (Id d)] in
  LookupNetworkByUUIDString virConn h (Id d) = (Some n, None) ->
  GetXMLDesc virConn h1 n = (networkDef, None) ->
  Bridge networkDef = None ->
  resourceLibvirtNetworkRead LibVirtConIsNil d
    {| libvirt_conn := Some virConn |} h
  = (Panic "invalid memory address or nil pointer dereference",
     h1 ++ [CGetXMLDesc n; CFree n]).
Proof.
  intros h1 Hl Hx Hb. unfold resourceLibvirtNetworkRead.
  cbn [libvirt_conn]. unfold bind at 1. unfold call at 1. rewrite Hl.
  unfold defer_Free, method, bind, call, ret, panic. fold h1.
  rewrite Hx, Hb. rewrite <- app_assoc. reflexivity.
Qed.

Lemma Read_missing_bridge_panics_witness :
  resourceLibvirtNetworkRead "no connection" k8snet_created
    (sim_client true false default_def) []
  = (Panic "invalid memory address or nil pointer dereference",
     [CLookupNetworkByUUIDString "5a1b"; CGetXMLDesc 1; CFree 1]).
Proof.
  exact (Read_missing_bridge_panics "no connection" k8snet_created
           (sim true false default_def) 1 [] default_def
           eq_refl eq_refl eq_refl).
Defined.

(** ** Create: the calls of a creation that goes through *)

Lemma waitForNetworkActive_first (virConn : Service) (n : Handle)
    (h : History) :
  IsActive virConn (h ++ [CSleep (5 * Second)]) n = (true, None) ->
  WaitForState (stateConf_Create virConn n) h
  = (Ret (Some (RNetwork n), None),
     h ++ [CSleep (5 * Second); CIsActive n]).
Proof.
  intros Ha.
  apply WaitForState_first_target with (st := "ACTIVE");
    [split; reflexivity| |reflexivity].
  cbn [Refresh stateConf_Create Delay].
  unfold waitForNetworkActive, bind, call. rewrite Ha.
  rewrite <- app_assoc. reflexivity.
Qed.

(** X11.  When the definition is built and every call succeeds, creation
    calls, in this order, [GetURI], [NetworkDefineXML] with the
    serialized definition, [Create] on the handle returned and
    [GetUUIDString]; it waits 5 s and asks [IsActive]; when that answers
    yes it calls [SetAutostart] if and only if the autostart flag of the
    resource is set; and it ends with [resourceLibvirtNetworkRead] on the
    resource data that carry the new id, after which the deferred [Free]
    runs. *)
Theorem Create_ends_with_Read (LibVirtConIsNil : string)
    (newNetworkDef : Network)
    (xmlMarshallIndented : Network -> string * error)
    (d : ResourceData) (virConn : Service) (h : History)
    (networkDef : Network) (connectURI data id : string) (n : Handle) :
  let meta := {| libvirt_conn := Some virConn |} in
  let h1 := h ++ [CGetURI] in
  let h2 := h1 ++ [CNetworkDefineXML data] in
  let h3 := h2 ++ [CCreate n] in
  let h4 := h3 ++ [CGetUUIDString n] in
  let h5 := h4 ++ [CSleep (5 * Second)] in
  let h6 := h5 ++ [CIsActive n] in
  let h7 := if rd_autostart d then h6 ++ [CSetAutostart n true] else h6 in
  buildNetworkDef newNetworkDef d = Ret (Some networkDef, None) ->
  GetURI virConn h = (connectURI, None) ->
  xmlMarshallIndented networkDef = (data, None) ->
  NetworkDefineXML virConn h1 data = (Some n, None) ->
  Create virConn h2 n = None ->
  GetUUIDString virConn h3 n = (id, None) ->
  IsActive virConn h5 n = (true, None) ->
  (rd_autostart d = true -> SetAutostart virConn h6 n true = None) ->
  resourceLibvirtNetworkCreate LibVirtConIsNil newNetworkDef
    xmlMarshallIndented d meta h
  = defer_Free virConn (Some n)
      (resourceLibvirtNetworkRead LibVirtConIsNil (set_Id id d) meta) h7.
Proof.
  intros meta h1 h2 h3 h4 h5 h6 h7 Hb Hu Hx Hd Hc Hi Ha Hs.
  pose proof (waitForNetworkActive_first virConn n h4 Ha) as Hw.
  unfold resourceLibvirtNetworkCreate. cbn [libvirt_conn meta].
  rewrite Hb. unfold bind at 1. unfold call at 1. rewrite Hu, Hx.
  unfold bind at 1. unfold call at 1. fold h1. rewrite Hd.
  unfold bind at 1. unfold method at 1. unfold call at 1.
  fold h2. rewrite Hc. fold h3.
  unfold defer_Free. unfold bind at 1. unfold method at 1.
  unfold call at 1. rewrite Hi. fold h4.
  unfold bind at 1. rewrite Hw.
  replace (h4 ++ [CSleep (5 * Second); CIsActive n]) with h6
    by (subst h6 h5; rewrite <- app_assoc; reflexivity).
  unfold GetOk_bool. cbn [rd_autostart set_Id].
  subst h7. destruct (rd_autostart d) eqn:Hauto.
  - unfold bind at 1. unfold method at 1. unfold call at 1.
    rewrite (Hs eq_refl). reflexivity.
  - unfold bind at 1. unfold ret at 1. reflexivity.
Qed.

Lemma Create_ends_with_Read_witness :
  resourceLibvirtNetworkCreate "no connection" default_def
    (fun _ => ("<network/>", None)) k8snet_autostart
    (sim_client false false k8snet_reported) []
  = defer_Free (sim false false k8snet_reported) (Some 1)
      (resourceLibvirtNetworkRead "no connection"
         (set_Id "5a1b" k8snet_autostart)
         (sim_client false false k8snet_reported))
      [CGetURI; CNetworkDefineXML "<network/>"; CCreate 1;
       CGetUUIDString 1; CSleep (5 * Second); CIsActive 1;
       CSetAutostart 1 true].
Proof.
  exact (Create_ends_with_Read "no connection" default_def
           (fun _ => ("<network/>", None)) k8snet_autostart
           (sim false false k8snet_reported) [] _ "qemu:///system"
           "<network/>" "5a1b" 1
           eq_refl eq_refl eq_refl eq_refl eq_refl eq_refl eq_refl
           (fun _ => eq_refl)).
Defined.

(** X12.  Once [GetUUIDString] has answered, the id is recorded whatever
    happens next: if creation returns at all, with or without error (a
    failed wait, a failed [SetAutostart], a failed read), the resource
    data it returns carry the id of the network that was defined. *)
Theorem Create_records_id (LibVirtConIsNil : string)
    (newNetworkDef : Network)
    (xmlMarshallIndented : Network -> string * error)
    (d : ResourceData) (virConn : Service) (h : History)
    (networkDef : Network) (connectURI data id : string) (n : Handle)
    (d' : ResourceData) (err : error) :
  let meta := {| libvirt_conn := Some virConn |} in
  let h1 := h ++ [CGetURI] in
  let h2 := h1 ++ [CNetworkDefineXML data] in
  let h3 := h2 ++ [CCreate n] in
  buildNetworkDef newNetworkDef d = Ret (Some networkDef, None) ->
  GetURI virConn h = (connectURI, None) ->
  xmlMarshallIndented networkDef = (data, None) ->
  NetworkDefineXML virConn h1 data = (Some n, None) ->
  Create virConn h2 n = None ->
  GetUUIDString virConn h3 n = (id, None) ->
  fst (resourceLibvirtNetworkCreate LibVirtConIsNil newNetworkDef
         xmlMarshallIndented d meta h) = Ret (d', err) ->
  Id d' = id.
Proof.
  intros meta h1 h2 h3 Hb Hu Hx Hd Hc Hi.
  unfold resourceLibvirtNetworkCreate. cbn [libvirt_conn meta].
  rewrite Hb. unfold bind at 1. unfold call at 1. rewrite Hu, Hx.
  unfold bind at 1. unfold call at 1. fold h1. rewrite Hd.
  unfold bind at 1. unfold method at 1. unfold call at 1.
  fold h2. rewrite Hc. fold h3.
  unfold defer_Free. unfold bind at 1. unfold method at 1.
  unfold call at 1. rewrite Hi.
  unfold bind at 1.
  destruct (WaitForState (stateConf_Create virConn n) _)
    as [[[res [e|]]|msg] hw].
  - cbn. intros H. simplify_eq. reflexivity.
  - unfold GetOk_bool. cbn [rd_autostart set_Id].
    destruct (rd_autostart d).
    + unfold bind at 1. unfold method at 1. unfold call at 1.
      destruct (SetAutostart virConn hw n true) as [e|].
      * cbn. intros H. simplify_eq. reflexivity.
      * destruct (resourceLibvirtNetworkRead LibVirtConIsNil
                    (set_Id id d) meta (hw ++ [CSetAutostart n true]))
          as [[[dr er]|msg] hr] eqn:Hr.
        -- cbn. intros H. simplify_eq.
           pose proof (Read_keeps_fields LibVirtConIsNil (set_Id id d)
                         meta (hw ++ [CSetAutostart n true]) d' err) as Hk.
           rewrite Hr in Hk. destruct (Hk eq_refl) as [Hk' _].
           exact Hk'.
        -- cbn. discriminate.
    + unfold bind at 1. unfold ret at 1.
      destruct (resourceLibvirtNetworkRead LibVirtConIsNil
                  (set_Id id d) meta hw)
        as [[[dr er]|msg] hr] eqn:Hr.
      * cbn. intros H. simplify_eq.
        pose proof (Read_keeps_fields LibVirtConIsNil (set_Id id d)
                      meta hw d' err) as Hk.
        rewrite Hr in Hk. destruct (Hk eq_refl) as [Hk' _].
        exact Hk'.
      * cbn. discriminate.
  - cbn. discriminate.
Qed.

Lemma Create_records_id_witness :
  Id k8snet = ""
  /\ exists d' e,
       fst (resourceLibvirtNetworkCreate "no connection" default_def
              (fun _ => ("<network/>", None)) k8snet
              (sim_client false true default_def) [])
       = Ret (d', Some e)
       /\ Id d' = "5a1b".
Proof.
  split; [reflexivity|]. eexists _, _. split; [reflexivity|].
  exact (Create_records_id "no connection" default_def
           (fun _ => ("<network/>", None)) k8snet
           (sim false true default_def) [] _ "qemu:///system"
           "<network/>" "5a1b" 1 _ _
           eq_refl eq_refl eq_refl eq_refl eq_refl eq_refl eq_refl).
Defined.

(** ** The planner on blocks with room for a range *)

(** X25.  On a block that [ParseCIDR] accepts and that has at least two host
    bits, the planner gives the host interface the network address plus
    one and a DHCP range from the network address plus two to the
    broadcast address minus one (the network address plus the size of the
    block minus two); the range is not empty, and the entry has the
    prefix length and the family of the block. *)
Theorem setNetworkIP_range (address : string) (ip : net.IP)
    (ipNet : net.IPNet) (ones bits : Z) :
  net.ParseCIDR address = (ip, Some ipNet, None) ->
  net.Size (net.net_Mask ipNet) = (ones, bits) ->
  ones <= bits - 2 ->
  exists a1 a2 b1,
    setNetworkIP address
    = Ret (Some {| Address := net.IP_String a1;
                   Family := family_of bits;
                   Prefix := ones;
                   DHCP := None |},
           Some {| Ranges := [ {| Start := net.IP_String a2;
                                  End := net.IP_String b1 |} ] |},
           None)
    /\ ip_value a1 = ip_value (net.net_IP ipNet) + 1
    /\ ip_value a2 = ip_value (net.net_IP ipNet) + 2
    /\ ip_value b1 = ip_value (net.net_IP ipNet) + 2 ^ (bits - ones) - 2
    /\ ip_value a2 <= ip_value b1.
Proof.
  intros Hp Hs Hle.
  destruct (setNetworkIP_plan _ _ _ Hp)
    as (n & b & Hs' & Hb & Hn & _ & _ & _ & Hplan).
  rewrite Hs in Hs'. injection Hs' as <- <-.
  destruct (Hplan ltac:(lia)) as (a1 & a2 & b1 & He & H1 & H2 & H3 & _).
  exists a1, a2, b1.
  split; [exact He|]. split; [exact H1|]. split; [exact (H2 Hle)|].
  split; [exact H3|].
  rewrite (H2 Hle), H3.
  assert (2 ^ 2 <= 2 ^ (bits - ones))
    by (apply Z.pow_le_mono_r; lia).
  lia.
Qed.

Lemma setNetworkIP_range_witness :
  exists a1 a2 b1,
    setNetworkIP "10.17.3.0/24"
    = Ret (Some {| Address := net.IP_String a1;
                   Family := "ipv4";
                   Prefix := 24;
                   DHCP := None |},
           Some {| Ranges := [ {| Start := net.IP_String a2;
                                  End := net.IP_String b1 |} ] |},
           None)
    /\ ip_value a1 = ip_value [10; 17; 3; 0] + 1
    /\ ip_value a2 = ip_value [10; 17; 3; 0] + 2
    /\ ip_value b1 = ip_value [10; 17; 3; 0] + 2 ^ (32 - 24) - 2
    /\ ip_value a2 <= ip_value b1.
Proof.
  exact (setNetworkIP_range "10.17.3.0/24" (net.IPv4 10 17 3 0)
           {| net.net_IP := [10; 17; 3; 0];
              net.net_Mask := [255; 255; 255; 0] |} 24 32
           eq_refl eq_refl ltac:(lia)).
Defined.

Lemma setNetworkIP_rejects_iff_witness :
  setNetworkIP "10.17.3.1/32"
  = Ret (None, None,
         Some (ErrorString
                 "Netmask seems to be too strict: only -3 IPs available (ipv4)")).
Proof.
  exact (proj2 (setNetworkIP_rejects_iff "10.17.3.1/32" (net.IPv4 10 17 3 1)
                  {| net.net_IP := [10; 17; 3; 1];
                     net.net_Mask := [255; 255; 255; 255] |} 32 32
                  eq_refl eq_refl) eq_refl).
Defined.

(** ** From the resource to the definition and back *)

(** What a successful build fixes, field by field. *)
Lemma buildNetworkDef_inv (newNetworkDef : Network) (d : ResourceData)
    (networkDef : Network) :
  buildNetworkDef newNetworkDef d = Ret (Some networkDef, None) ->
  Name networkDef = rd_name d
  /\ Bridge networkDef = Some {| BridgeName := rd_bridge d; STP := "on" |}
  /\ Domain networkDef = domain_of newNetworkDef d
  /\ (rd_addresses d = [] /\ IPs networkDef = IPs newNetworkDef
      \/ plans_addresses (ToLower (Get_mode d)) = false
         /\ IPs networkDef = IPs newNetworkDef
      \/ Forall2 planned_from (rd_addresses d) (IPs networkDef))
  /\ (rd_dns_forwarders d = [] /\ DNS networkDef = DNS newNetworkDef
      \/ plans_addresses (ToLower (Get_mode d)) = false
         /\ DNS networkDef = DNS newNetworkDef
      \/ DNS networkDef
         = Some {| Forwarders :=
                     map built_forwarder (rd_dns_forwarders d) |}).
Proof.
  intros H. unfold buildNetworkDef in H. unfold domain_of.
  assert (Hbr : (let '(b, ok) := GetOk_string (rd_bridge d) in
                 if ok then b else "") = rd_bridge d).
  { unfold GetOk_string.
    destruct (String.eqb_spec (rd_bridge d) "") as [->|]; reflexivity. }
  rewrite Hbr in H. clear Hbr.
  set (base := let '(domain, ok) := GetOk_string (rd_domain d) in _) in *.
  assert (Hbase : Name base = rd_name d
                  /\ IPs base = IPs newNetworkDef
                  /\ DNS base = DNS newNetworkDef
                  /\ Domain base
                     = (if String.eqb (rd_domain d) ""
                        then Domain newNetworkDef
                        else Some {| DomainName := rd_domain d;
                                     LocalOnly :=
                                       match rd_dns_local_only d with
                                       | Some true => "yes"
                                       | _ => ""
                                       end |})).
  { subst base. unfold GetOk_string, GetOk_bool.
    destruct (String.eqb (rd_domain d) ""); cbn [negb];
      [repeat split|].
    destruct (rd_dns_local_only d) as [[|]|]; repeat split. }
  destruct Hbase as (Hname & Hips & Hdns & Hdom). rewrite <- Hdom.
  clearbody base. clear Hdom.
  set (mode := ToLower (Get_mode d)) in *. clearbody mode.
  change (String.eqb mode netModeIsolated || String.eqb mode netModeNat
          || String.eqb mode netModeRoute)
    with (plans_addresses mode) in H.
  destruct (plans_addresses mode) eqn:Hplans.
  - set (def0 := if String.eqb mode netModeIsolated then _ else _) in H.
    assert (Hdef0 : Name def0 = Name base /\ Bridge def0
                    = Some {| BridgeName := rd_bridge d; STP := "on" |}
                    /\ Domain def0 = Domain base
                    /\ IPs def0 = IPs base /\ DNS def0 = DNS base).
    { subst def0.
      destruct (String.eqb mode netModeIsolated);
        [|destruct (String.eqb mode netModeRoute)]; repeat split. }
    destruct Hdef0 as (H0n & H0b & H0d & H0i & H0s). clearbody def0.
    unfold setDhcpByCIDRAdressesSubnets, GetOk_list, GetOk_count in H.
    assert (Hstep : exists def1,
               Name def1 = Name def0 /\ Bridge def1 = Bridge def0
               /\ Domain def1 = Domain def0 /\ DNS def1 = DNS def0
               /\ (rd_addresses d = [] /\ IPs def1 = IPs def0
                   \/ Forall2 planned_from (rd_addresses d) (IPs def1))
               /\ (if negb (net.isnil (rd_dns_forwarders d)) then
                     match dns_forwarders_loop (rd_dns_forwarders d) [] with
                     | (_, Some err) => Ret (None, Some err)
                     | (forwarders, None) =>
                         Ret (Some (with_DNS
                                      (Some {| Forwarders := forwarders |})
                                      def1), None)
                     end
                   else Ret (Some def1, None))
                  = Ret (Some networkDef, None)).
    { destruct (rd_addresses d) as [|a rest] eqn:Ha.
      - cbn [net.isnil negb] in H. exists def0. repeat split; auto.
      - cbn [net.isnil negb] in H.
        destruct (setDhcp_loop d (a :: rest) []) as [[res [e|]]|] eqn:Hl;
          try discriminate H.
        exists (with_IPs res def0). repeat split; auto.
        right. apply setDhcp_loop_entries in Hl as (planned & -> & HF).
        exact HF. }
    destruct Hstep as (def1 & H1n & H1b & H1d & H1s & H1i & Hfin).
    clear H.
    destruct (rd_dns_forwarders d) as [|f fs] eqn:Hf.
    + cbn [net.isnil negb] in Hfin. simplify_eq.
      split; [congruence|]. split; [congruence|]. split; [congruence|].
      split.
      * destruct H1i as [[Ha Hi]|HF]; [left; split; congruence|].
        right. right. exact HF.
      * left. split; [reflexivity|congruence].
    + cbn [net.isnil negb] in Hfin.
      destruct (dns_forwarders_loop (f :: fs) []) as [res [e|]] eqn:Hl;
        [discriminate Hfin|].
      apply dns_forwarders_loop_ok in Hl as [_ ->].
      simplify_eq. cbn [Name Bridge Domain IPs DNS with_DNS].
      split; [congruence|]. split; [congruence|]. split; [congruence|].
      split.
      * destruct H1i as [[Ha Hi]|HF]; [left; split; congruence|].
        right. right. exact HF.
      * right. right. reflexivity.
  - destruct (String.eqb mode netModeBridge); [|discriminate].
    destruct (String.eqb (rd_bridge d) ""); [discriminate|].
    simplify_eq. cbn.
    split; [assumption|]. split; [reflexivity|]. split; [reflexivity|].
    split; right; left; split; auto.
Qed.

(** X14.  When libvirt reports the definition as it was built, a read finds
    nothing changed.  For a resource whose address entries and DNS
    forwarder addresses are written in the text form the reader uses,
    and an initial definition without domain, address and DNS blocks,
    reading the network whose reported definition is the one built from
    the resource returns without error, after the lookup, the reading of
    the definition and of the autostart flag and the release of the
    handle, and leaves the name, the domain, the mode, the bridge, the
    addresses, the DNS forwarders and the DHCP switch as they were; the
    local-only switch reads as before, and the autostart flag is the one
    reported. *)
Theorem Read_of_built_definition (LibVirtConIsNil : string)
    (newNetworkDef : Network) (d : ResourceData) (networkDef : Network)
    (virConn : Service) (n : Handle) (autostart : bool) (h : History) :
  let meta := {| libvirt_conn := Some virConn |} in
  let h1 := h ++ [CLookupNetworkByUUIDString (Id d)] in
  let h2 := h1 ++ [CGetXMLDesc n] in
  buildNetworkDef newNetworkDef d = Ret (Some networkDef, None) ->
  Domain newNetworkDef = None ->
  IPs newNetworkDef = [] ->
  DNS newNetworkDef = None ->
  Forall canonical_entry (rd_addresses d) ->
  Forall canonical_forwarder (rd_dns_forwarders d) ->
  LookupNetworkByUUIDString virConn h (Id d) = (Some n, None) ->
  GetXMLDesc virConn h1 n = (networkDef, None) ->
  GetAutostart virConn h2 n = (autostart, None) ->
  exists d',
    resourceLibvirtNetworkRead LibVirtConIsNil d meta h
    = (Ret (d', None), h2 ++ [CGetAutostart n; CFree n])
    /\ Id d' = Id d /\ rd_name d' = rd_name d
    /\ rd_domain d' = rd_domain d /\ rd_mode d' = rd_mode d
    /\ rd_bridge d' = rd_bridge d /\ rd_addresses d' = rd_addresses d
    /\ rd_dns_forwarders d' = rd_dns_forwarders d
    /\ rd_dhcp_enabled d' = rd_dhcp_enabled d
    /\ default false (rd_dns_local_only d')
       = default false (rd_dns_local_only d)
    /\ rd_autostart d' = autostart.
Proof.
  intros meta h1 h2 Hb Hnd Hni Hns Hca Hcf Hl Hx Ha.
  destruct (buildNetworkDef_inv _ _ _ Hb)
    as (Hname & Hbridge & Hdomain & Hips & Hdns).
  assert (Hread : exists addresses,
             read_addresses (IPs networkDef) [] = (addresses, None)
             /\ (if net.isnil addresses then rd_addresses d else addresses)
                = rd_addresses d).
  { destruct Hips as [[He Hi]|[[_ Hi]|HF]].
    - rewrite Hi, Hni. exists []. split; reflexivity.
    - rewrite Hi, Hni. exists []. split; reflexivity.
    - exists (rd_addresses d). split.
      + rewrite (read_addresses_entries _ _ [] HF)
          by (eapply Forall_impl; [exact Hca|]; intros a [Hm _]; exact Hm).
        rewrite app_nil_l. f_equal.
        clear -Hca. induction Hca as [|x l [_ Hx] Hl IH]; [reflexivity|].
        cbn [map]. rewrite Hx, IH. reflexivity.
      + destruct (rd_addresses d); reflexivity. }
  destruct Hread as (addresses & Hra & Haddr).
  assert (Hfw : default (rd_dns_forwarders d)
                  match DNS networkDef with
                  | Some dns =>
                      Some (read_forwarders (Forwarders dns)
                              (rd_dns_forwarders d))
                  | None => None
                  end
                = rd_dns_forwarders d).
  { destruct Hdns as [[_ Hs]|[[_ Hs]|Hs]]; rewrite Hs; try rewrite Hns;
      try reflexivity.
    cbn [Forwarders default]. apply read_forwarders_built. exact Hcf. }
  eexists. split.
  - unfold resourceLibvirtNetworkRead. cbn [libvirt_conn meta].
    unfold bind at 1. unfold call at 1. rewrite Hl.
    unfold defer_Free, method, bind, call, ret. fold h1.
    rewrite Hx, Hbridge. fold h2. rewrite Ha, Hra.
    rewrite <- app_assoc. reflexivity.
  - cbn [set_observed Id rd_name rd_domain rd_mode rd_bridge rd_addresses
           rd_dns_forwarders rd_dhcp_enabled rd_dns_local_only
           rd_autostart BridgeName].
    rewrite Haddr, Hfw, Hname, Hdomain. unfold domain_of. rewrite Hnd.
    destruct (String.eqb_spec (rd_domain d) "") as [He|Hne].
    + repeat split.
    + cbn [DomainName LocalOnly].
      destruct (rd_dns_local_only d) as [[|]|]; repeat split.
Qed.

Lemma Read_of_built_definition_witness :
  exists d',
    resourceLibvirtNetworkRead "no connection"
      (set_Id "5a1b" k8snet_forwarders)
      (sim_client true false k8snet_forwarders_def) []
    = (Ret (d', None),
       [CLookupNetworkByUUIDString "5a1b"; CGetXMLDesc 1; CGetAutostart 1;
        CFree 1])
    /\ rd_addresses d' = ["10.17.3.0/24"]
    /\ rd_dns_forwarders d' = rd_dns_forwarders k8snet_forwarders
    /\ rd_domain d' = "k8s.local".
Proof.
  destruct (Read_of_built_definition "no connection" default_def
              (set_Id "5a1b" k8snet_forwarders) k8snet_forwarders_def
              (sim true false k8snet_forwarders_def) 1 false []
              eq_refl eq_refl eq_refl eq_refl)
    as (d' & Hr & _ & _ & Hdom & _ & _ & Haddr & Hfw & _).
  - constructor; [split; reflexivity|constructor].
  - constructor; [right; reflexivity|].
    constructor; [right; reflexivity|constructor].
  - reflexivity.
  - reflexivity.
  - reflexivity.
  - exists d'. repeat split; assumption.
Defined.
